(** * BSDF texture baker: the bake operator of [bake_operator.py]

    A shallow embedding of [AUTOBAKE_OT_BakeMaps] (validation, per-map
    bake methods, image creation, solid-colour check and the [execute]
    orchestration) over an explicit model of the Blender session the
    operator reads and mutates.

    Conventions of the embedding.
    - The session ([bpy.data], the scene, the view layer, the file system,
      the operator's report log) is one record, [World]; the operator's
      code is written in a state-and-exception monad [M] over it.
    - Python references to data-blocks are keys into the session: objects
      and materials by position in their collection, shader nodes by an
      identity number, images by their (unique) name in [bpy.data.images].
    - The local variables that [execute] assigns inside its [try] block
      live in the [frame] field, each one unbound ([None]) until assigned;
      reading an unbound local raises [UnboundLocalError], as in Python.
    - The host services that may fail (directory creation, the bake
      operator, saving an image, copying a pixel array) are decided by the
      [Host] record and by the image's own pixel array.  Attribute
      assignments on existing data-blocks do not raise.
    - Pixel channel values are exact rationals; [print] calls and
      [traceback.print_exc] have no effect on the session and are left
      out.
    - Data-block names are kept as given.  Blender cuts a name to 63
      bytes, so the embedding follows the operator for names within that
      limit; statements that depend on the name of a buffer bound the
      length of the model's name.
    - [bpy.ops.object.select_all] is taken where its poll passes (Object
      Mode); the bake operator paints the active image node of every
      material slot of the active object. *)

From Stdlib Require Import QArith Qabs ZArith Ascii String List DecimalString DecimalZ.
From stdpp Require Import base option gmap strings list.

(** ** Data model *)

Inductive Severity := INFO | WARNING | ERROR.

(** The operator's return sets [{'FINISHED'}] and [{'CANCELLED'}]. *)
Inductive Status := FINISHED | CANCELLED.

Inductive Exn :=
| RuntimeError (msg : string)
| OSError (msg : string)
| AttributeError (attr : string)
| IndexError (msg : string)
| ReferenceError (msg : string)
| UnboundLocalError (var : string).

Definition Color : Type := Q * Q * Q * Q.

(** What the code observes of [image.pixels]: its length (truth value of
    the array) and the result of the slice copy [image.pixels[:]]. *)
Inductive PixelCopy :=
| CopyOk (data : list Q)
| CopyFails (msg : string).

Record Image := {
  img_width : Z;
  img_height : Z;
  img_alpha : bool;
  generated_color : Color;
  colorspace : string;          (* colorspace_settings.name *)
  use_generated_float : bool;
  img_channels : nat;
  has_data : bool;
  pixels_len : nat;
  pixels_copy : PixelCopy;
  filepath_raw : string;
  file_format : string
}.

Record Node := {
  node_id : nat;
  node_name : string;
  node_type : string;
  node_label : string;
  node_image : option string;
  node_select : bool
}.

Record Material := {
  mat_name : string;
  use_nodes : bool;
  nodes : list Node;            (* node_tree.nodes *)
  nodes_active : option nat     (* node_tree.nodes.active, by identity *)
}.

Record UVLayer := {
  uv_name : string;
  active_render : bool
}.

Record Object := {
  obj_name : string;
  obj_type : string;
  obj_selected : bool;
  uv_layers : list UVLayer;             (* data.uv_layers *)
  uv_active : option nat;               (* data.uv_layers.active *)
  material_slots : list (option nat);
  active_material_index : nat
}.

Record Scene := {
  engine : string;                      (* render.engine *)
  samples : Z;                          (* cycles.samples *)
  use_selected_to_active : bool;        (* render.bake.* from here on *)
  use_pass_direct : bool;
  use_pass_indirect : bool;
  use_pass_color : bool;
  normal_space : string;
  normal_r : string;
  normal_g : string;
  normal_b : string
}.

(** [AutoBakeProperties] of [properties.py]. *)
Record Props := {
  texture_size : Z;
  output_folder : string;
  subfolder_for_size : bool;
  bake_diffuse_p : bool;
  bake_roughness_p : bool;
  bake_normal_p : bool;
  bake_ao_p : bool
}.

(** A file written by [image.save()]. *)
Record SavedFile := {
  sf_path : string;
  sf_format : string;
  sf_image : string;
  sf_colorspace : string;
  sf_float : bool
}.

(** The bake service either raises or mutates the targeted image buffer. *)
Inductive BakeOutcome :=
| BakeRaises (msg : string)
| BakeWrites (effect : Image -> Image).

Record Host := {
  abspath : string -> string;                 (* bpy.path.abspath *)
  makedirs_error : string -> option string;   (* os.makedirs raising OSError *)
  render_service : string -> BakeOutcome;     (* bpy.ops.object.bake, by type *)
  save_error : string -> option string        (* image.save raising, by path *)
}.

(** Locals that a handler or a [finally] block reads.  The first three are
    locals of [execute] first assigned inside its [try] block ([None]:
    not yet bound).  [image] is the loop's local and [image_node] the
    running bake method's; both are bound to Python's [None] before their
    [try] block starts, which is the [None] here. *)
Record Frame := {
  output_path : option string;
  bake_successful : option bool;
  baked_images : option (list string);
  image : option string;
  image_node : option nat
}.

Record World := {
  scene : Scene;
  autobake_props : option Props;        (* scene.autobake_props, if registered *)
  objects : list Object;                (* view_layer.objects *)
  active : option nat;                  (* view_layer.objects.active *)
  materials : list Material;
  images : gmap string Image;           (* bpy.data.images *)
  fs_dirs : list string;
  fs_files : list SavedFile;
  reports : list (Severity * string);   (* self.report calls, oldest first *)
  bake_log : list string;               (* bake types handed to the service *)
  frame : Frame;
  host : Host
}.

(** *** Field updates *)

Definition set_scene (f : Scene -> Scene) (w : World) : World :=
  {| scene := f (scene w); autobake_props := autobake_props w;
     objects := objects w; active := active w; materials := materials w;
     images := images w; fs_dirs := fs_dirs w; fs_files := fs_files w;
     reports := reports w; bake_log := bake_log w; frame := frame w;
     host := host w |}.

Definition set_objects (f : list Object -> list Object) (w : World) : World :=
  {| scene := scene w; autobake_props := autobake_props w;
     objects := f (objects w); active := active w; materials := materials w;
     images := images w; fs_dirs := fs_dirs w; fs_files := fs_files w;
     reports := reports w; bake_log := bake_log w; frame := frame w;
     host := host w |}.

Definition set_active (a : option nat) (w : World) : World :=
  {| scene := scene w; autobake_props := autobake_props w;
     objects := objects w; active := a; materials := materials w;
     images := images w; fs_dirs := fs_dirs w; fs_files := fs_files w;
     reports := reports w; bake_log := bake_log w; frame := frame w;
     host := host w |}.

Definition set_materials (f : list Material -> list Material) (w : World) : World :=
  {| scene := scene w; autobake_props := autobake_props w;
     objects := objects w; active := active w; materials := f (materials w);
     images := images w; fs_dirs := fs_dirs w; fs_files := fs_files w;
     reports := reports w; bake_log := bake_log w; frame := frame w;
     host := host w |}.

Definition set_images (f : gmap string Image -> gmap string Image) (w : World) : World :=
  {| scene := scene w; autobake_props := autobake_props w;
     objects := objects w; active := active w; materials := materials w;
     images := f (images w); fs_dirs := fs_dirs w; fs_files := fs_files w;
     reports := reports w; bake_log := bake_log w; frame := frame w;
     host := host w |}.

Definition set_fs_dirs (f : list string -> list string) (w : World) : World :=
  {| scene := scene w; autobake_props := autobake_props w;
     objects := objects w; active := active w; materials := materials w;
     images := images w; fs_dirs := f (fs_dirs w); fs_files := fs_files w;
     reports := reports w; bake_log := bake_log w; frame := frame w;
     host := host w |}.

Definition set_fs_files (f : list SavedFile -> list SavedFile) (w : World) : World :=
  {| scene := scene w; autobake_props := autobake_props w;
     objects := objects w; active := active w; materials := materials w;
     images := images w; fs_dirs := fs_dirs w; fs_files := f (fs_files w);
     reports := reports w; bake_log := bake_log w; frame := frame w;
     host := host w |}.

Definition set_reports (f : list (Severity * string) -> list (Severity * string))
    (w : World) : World :=
  {| scene := scene w; autobake_props := autobake_props w;
     objects := objects w; active := active w; materials := materials w;
     images := images w; fs_dirs := fs_dirs w; fs_files := fs_files w;
     reports := f (reports w); bake_log := bake_log w; frame := frame w;
     host := host w |}.

Definition set_bake_log (f : list string -> list string) (w : World) : World :=
  {| scene := scene w; autobake_props := autobake_props w;
     objects := objects w; active := active w; materials := materials w;
     images := images w; fs_dirs := fs_dirs w; fs_files := fs_files w;
     reports := reports w; bake_log := f (bake_log w); frame := frame w;
     host := host w |}.

Definition set_frame (f : Frame -> Frame) (w : World) : World :=
  {| scene := scene w; autobake_props := autobake_props w;
     objects := objects w; active := active w; materials := materials w;
     images := images w; fs_dirs := fs_dirs w; fs_files := fs_files w;
     reports := reports w; bake_log := bake_log w; frame := f (frame w);
     host := host w |}.

(** ** The state-and-exception monad *)

Inductive Res (A : Type) : Type :=
| Ok (a : A)
| Exc (e : Exn).
Arguments Ok {A} a.
Arguments Exc {A} e.

Definition M (A : Type) : Type := World -> Res A * World.

Definition ret {A} (a : A) : M A := fun w => (Ok a, w).

Definition bind {A B} (m : M A) (k : A -> M B) : M B :=
  fun w => match m w with
           | (Ok a, w') => k a w'
           | (Exc e, w') => (Exc e, w')
           end.

Declare Scope M_scope.
Delimit Scope M_scope with M.
Bind Scope M_scope with M.
Notation "x ← y ; z" := (bind y (fun x => z))
  (at level 20, y at level 100, z at level 200, only parsing) : M_scope.
Notation "y ;; z" := (bind y (fun _ => z))
  (at level 100, z at level 200, only parsing, right associativity) : M_scope.
Local Open Scope M_scope.

Definition raise {A} (e : Exn) : M A := fun w => (Exc e, w).

Definition gets {A} (f : World -> A) : M A := fun w => (Ok (f w), w).

Definition modify (f : World -> World) : M unit := fun w => (Ok tt, f w).

(** [try: m except Exception as e: h e] *)
Definition try_except {A} (m : M A) (h : Exn -> M A) : M A :=
  fun w => match m w with
           | (Ok a, w') => (Ok a, w')
           | (Exc e, w') => h e w'
           end.

(** [try: m finally: f] where [f] has no [return] of its own. *)
Definition try_finally {A} (m : M A) (f : M unit) : M A :=
  fun w => match m w with
           | (r, w') =>
               match f w' with
               | (Ok _, w'') => (r, w'')
               | (Exc e, w'') => (Exc e, w'')
               end
           end.

(** [for x in l: body x] *)
Fixpoint for_each {A} (l : list A) (body : A -> M unit) : M unit :=
  match l with
  | [] => ret tt
  | x :: rest => bind (body x) (fun _ => for_each rest body)
  end.

Definition when (b : bool) (m : M unit) : M unit := if b then m else ret tt.

(** Reading a local of [execute] that may not have been assigned yet. *)
Definition read_local {A} (var : string) (proj : Frame -> option A) : M A :=
  fun w => match proj (frame w) with
           | Some a => (Ok a, w)
           | None => (Exc (UnboundLocalError var), w)
           end.

Definition report (sev : Severity) (msg : string) : M unit :=
  modify (set_reports (fun r => r ++ [(sev, msg)])).

(** ** Host services: names, paths, the view layer *)

(** [str(e)].  The one [AttributeError] of the operator is raised on the
    [MockProps] instance of [execute]. *)
Definition exn_message (e : Exn) : string :=
  match e with
  | RuntimeError msg | OSError msg | IndexError msg | ReferenceError msg => msg
  | AttributeError attr => "'MockProps' object has no attribute '" +:+ attr +:+ "'"
  | UnboundLocalError var =>
      "cannot access local variable '" +:+ var +:+ "' where it is not associated with a value"
  end.

Definition str_of_Z (z : Z) : string := NilZero.string_of_int (Z.to_int z).

Definition pad3 (s : string) : string :=
  match String.length s with
  | 0 => "000" +:+ s
  | 1 => "00" +:+ s
  | 2 => "0" +:+ s
  | _ => s
  end%nat.

Definition numbered (base : string) (n : nat) : string :=
  base +:+ "." +:+ pad3 (NilEmpty.string_of_uint (Nat.to_uint n)).

(** Blender keeps names unique inside a collection: a name that is taken
    gets the first free numeric suffix [.001], [.002], ... *)
Definition unique_name (taken : string -> bool) (base : string) : string :=
  if taken base then
    default base (List.find (fun s => negb (taken s)) (map (numbered base) (seq 1 999)))
  else base.

(** [s.endswith(suffix)] *)
Fixpoint ends_with (suffix s : string) : bool :=
  String.eqb s suffix ||
  match s with
  | EmptyString => false
  | String _ s' => ends_with suffix s'
  end.

Definition starts_with_slash (s : string) : bool :=
  match s with
  | String "/"%char _ => true
  | _ => false
  end.

(** [os.path.join(a, b)] on POSIX paths. *)
Definition os_path_join (a b : string) : string :=
  if starts_with_slash b then b
  else if String.eqb a "" || ends_with "/" a then a +:+ b
  else a +:+ "/" +:+ b.

Definition os_path_exists (path : string) : M bool :=
  gets (fun w => existsb (String.eqb path) (fs_dirs w)).

Definition os_makedirs (path : string) : M unit :=
  fun w => match makedirs_error (host w) path with
           | Some msg => (Exc (OSError msg), w)
           | None => (Ok tt, set_fs_dirs (fun d => d ++ [path]) w)
           end.

Definition bpy_path_abspath (path : string) : M string :=
  gets (fun w => abspath (host w) path).

(** *** Objects and selection *)

Definition set_selected (b : bool) (o : Object) : Object :=
  {| obj_name := obj_name o; obj_type := obj_type o; obj_selected := b;
     uv_layers := uv_layers o; uv_active := uv_active o;
     material_slots := material_slots o;
     active_material_index := active_material_index o |}.

Definition set_uv_layers (f : list UVLayer -> list UVLayer) (o : Object) : Object :=
  {| obj_name := obj_name o; obj_type := obj_type o; obj_selected := obj_selected o;
     uv_layers := f (uv_layers o); uv_active := uv_active o;
     material_slots := material_slots o;
     active_material_index := active_material_index o |}.

Definition set_uv_active (a : option nat) (o : Object) : Object :=
  {| obj_name := obj_name o; obj_type := obj_type o; obj_selected := obj_selected o;
     uv_layers := uv_layers o; uv_active := a;
     material_slots := material_slots o;
     active_material_index := active_material_index o |}.

Definition set_active_material_index (i : nat) (o : Object) : Object :=
  {| obj_name := obj_name o; obj_type := obj_type o; obj_selected := obj_selected o;
     uv_layers := uv_layers o; uv_active := uv_active o;
     material_slots := material_slots o;
     active_material_index := i |}.

Definition obj_get (ob : nat) : M Object :=
  fun w => match objects w !! ob with
           | Some o => (Ok o, w)
           | None => (Exc (ReferenceError "object has been removed"), w)
           end.

Definition obj_update (ob : nat) (f : Object -> Object) : M unit :=
  modify (set_objects (alter f ob)).

(** [context.active_object] *)
Definition active_object (w : World) : option nat :=
  match active w with
  | Some a => match objects w !! a with Some _ => Some a | None => None end
  | None => None
  end.

Definition is_selected (objs : list Object) (i : nat) : bool :=
  match objs !! i with
  | Some o => obj_selected o
  | None => false
  end.

(** [context.selected_objects] *)
Definition selected_objects (w : World) : list nat :=
  List.filter (is_selected (objects w)) (seq 0 (length (objects w))).

(** [bpy.ops.object.select_all(action='DESELECT')] *)
Definition select_all_deselect : M unit :=
  modify (set_objects (map (set_selected false))).

(** [obj.select_set(state)] *)
Definition select_set (ob : nat) (state : bool) : M unit :=
  obj_update ob (set_selected state).

(** [name in context.view_layer.objects] *)
Definition in_view_layer (name : string) : M bool :=
  gets (fun w => existsb (fun o => String.eqb (obj_name o) name) (objects w)).

(** [obj.active_material] *)
Definition obj_active_material (o : Object) : option nat :=
  match material_slots o !! active_material_index o with
  | Some slot => slot
  | None => None
  end.

(** *** UV layers *)

Definition set_active_render (b : bool) (l : UVLayer) : UVLayer :=
  {| uv_name := uv_name l; active_render := b |}.

(** [layer.active_render = True] on layer [i] of the object's mesh. *)
Definition uv_set_active_render (ob i : nat) : M unit :=
  obj_update ob (set_uv_layers (alter (set_active_render true) i)).

(** The first layer with [active_render] set (the [for ... break] scan). *)
Fixpoint find_render_layer (layers : list UVLayer) : option nat :=
  match layers with
  | [] => None
  | l :: rest => if active_render l then Some 0%nat
                 else S <$> find_render_layer rest
  end.

(** *** Materials and shader nodes *)

Definition set_nodes (f : list Node -> list Node) (m : Material) : Material :=
  {| mat_name := mat_name m; use_nodes := use_nodes m; nodes := f (nodes m);
     nodes_active := nodes_active m |}.

Definition set_nodes_active (a : option nat) (m : Material) : Material :=
  {| mat_name := mat_name m; use_nodes := use_nodes m; nodes := nodes m;
     nodes_active := a |}.

Definition set_node_name (s : string) (n : Node) : Node :=
  {| node_id := node_id n; node_name := s; node_type := node_type n;
     node_label := node_label n; node_image := node_image n;
     node_select := node_select n |}.

Definition set_node_label (s : string) (n : Node) : Node :=
  {| node_id := node_id n; node_name := node_name n; node_type := node_type n;
     node_label := s; node_image := node_image n;
     node_select := node_select n |}.

Definition set_node_image (i : option string) (n : Node) : Node :=
  {| node_id := node_id n; node_name := node_name n; node_type := node_type n;
     node_label := node_label n; node_image := i;
     node_select := node_select n |}.

Definition set_node_select (b : bool) (n : Node) : Node :=
  {| node_id := node_id n; node_name := node_name n; node_type := node_type n;
     node_label := node_label n; node_image := node_image n;
     node_select := b |}.

Definition mat_get (mat : nat) : M Material :=
  fun w => match materials w !! mat with
           | Some m => (Ok m, w)
           | None => (Exc (ReferenceError "material has been removed"), w)
           end.

Definition mat_update (mat : nat) (f : Material -> Material) : M unit :=
  modify (set_materials (alter f mat)).

Definition name_taken (ns : list Node) (s : string) : bool :=
  existsb (fun n => String.eqb (node_name n) s) ns.

Definition fresh_node_id (ns : list Node) : nat := S (list_max (map node_id ns)).

Definition node_type_of_idname (idname : string) : string :=
  if String.eqb idname "ShaderNodeTexImage" then "TEX_IMAGE"
  else if String.eqb idname "ShaderNodeBsdfPrincipled" then "BSDF_PRINCIPLED"
  else idname.

Definition default_node_name (idname : string) : string :=
  if String.eqb idname "ShaderNodeTexImage" then "Image Texture"
  else if String.eqb idname "ShaderNodeBsdfPrincipled" then "Principled BSDF"
  else idname.

Definition has_id (id : nat) (n : Node) : bool := Nat.eqb (node_id n) id.

(** [nodes.new(idname)]: a new node object with a unique name. *)
Definition nodes_new (mat : nat) (idname : string) : M nat :=
  m ← mat_get mat;
  let id := fresh_node_id (nodes m) in
  let n := {| node_id := id;
              node_name := unique_name (name_taken (nodes m)) (default_node_name idname);
              node_type := node_type_of_idname idname;
              node_label := ""; node_image := None; node_select := false |} in
  mat_update mat (set_nodes (fun ns => ns ++ [n]));;
  ret id.

(** An attribute assignment on the node object [id]. *)
Definition node_update (mat id : nat) (f : Node -> Node) : M unit :=
  mat_update mat (set_nodes (map (fun n => if has_id id n then f n else n))).

(** [node.name = s]: the name is made unique among the other nodes. *)
Definition node_assign_name (mat id : nat) (s : string) : M unit :=
  m ← mat_get mat;
  let others := List.filter (fun n => negb (has_id id n)) (nodes m) in
  node_update mat id (set_node_name (unique_name (name_taken others) s)).

(** [nodes.remove(node)] *)
Definition nodes_remove (mat id : nat) : M unit :=
  mat_update mat (fun m =>
    {| mat_name := mat_name m; use_nodes := use_nodes m;
       nodes := List.filter (fun n => negb (has_id id n)) (nodes m);
       nodes_active := match nodes_active m with
                       | Some a => if Nat.eqb a id then None else Some a
                       | None => None
                       end |}).

(** [nodes.get(name)] *)
Definition nodes_get (mat : nat) (name : string) : M (option nat) :=
  m ← mat_get mat;
  ret (node_id <$> List.find (fun n => String.eqb (node_name n) name) (nodes m)).

(** *** Images *)

Definition set_generated_color (c : Color) (i : Image) : Image :=
  {| img_width := img_width i; img_height := img_height i; img_alpha := img_alpha i;
     generated_color := c; colorspace := colorspace i;
     use_generated_float := use_generated_float i; img_channels := img_channels i;
     has_data := has_data i; pixels_len := pixels_len i; pixels_copy := pixels_copy i;
     filepath_raw := filepath_raw i; file_format := file_format i |}.

Definition set_colorspace (s : string) (i : Image) : Image :=
  {| img_width := img_width i; img_height := img_height i; img_alpha := img_alpha i;
     generated_color := generated_color i; colorspace := s;
     use_generated_float := use_generated_float i; img_channels := img_channels i;
     has_data := has_data i; pixels_len := pixels_len i; pixels_copy := pixels_copy i;
     filepath_raw := filepath_raw i; file_format := file_format i |}.

Definition set_use_generated_float (b : bool) (i : Image) : Image :=
  {| img_width := img_width i; img_height := img_height i; img_alpha := img_alpha i;
     generated_color := generated_color i; colorspace := colorspace i;
     use_generated_float := b; img_channels := img_channels i;
     has_data := has_data i; pixels_len := pixels_len i; pixels_copy := pixels_copy i;
     filepath_raw := filepath_raw i; file_format := file_format i |}.

Definition set_filepath_raw (s : string) (i : Image) : Image :=
  {| img_width := img_width i; img_height := img_height i; img_alpha := img_alpha i;
     generated_color := generated_color i; colorspace := colorspace i;
     use_generated_float := use_generated_float i; img_channels := img_channels i;
     has_data := has_data i; pixels_len := pixels_len i; pixels_copy := pixels_copy i;
     filepath_raw := s; file_format := file_format i |}.

Definition set_file_format (s : string) (i : Image) : Image :=
  {| img_width := img_width i; img_height := img_height i; img_alpha := img_alpha i;
     generated_color := generated_color i; colorspace := colorspace i;
     use_generated_float := use_generated_float i; img_channels := img_channels i;
     has_data := has_data i; pixels_len := pixels_len i; pixels_copy := pixels_copy i;
     filepath_raw := filepath_raw i; file_format := s |}.

(** [name in bpy.data.images] *)
Definition in_images (name : string) : M bool :=
  gets (fun w => match images w !! name with Some _ => true | None => false end).

(** [bpy.data.images.remove(image)] *)
Definition images_remove (name : string) : M unit :=
  modify (set_images (delete name)).

(** The buffer [bpy.data.images.new] hands out: 8-bit ([float_buffer]
    defaults to [False]), sRGB, black, four channels.  Its pixel data and
    file format are placeholders: the operator reads the pixels after a
    bake only and sets the format before it saves. *)
Definition new_image (width height : Z) (alpha : bool) : Image :=
  {| img_width := width; img_height := height; img_alpha := alpha;
     generated_color := (0, 0, 0, 1)%Q; colorspace := "sRGB";
     use_generated_float := false; img_channels := 4;
     has_data := false; pixels_len := 0; pixels_copy := CopyOk [];
     filepath_raw := ""; file_format := "TARGA" |}.

(** [bpy.data.images.new(name=, width=, height=, alpha=)] *)
Definition images_new (name : string) (width height : Z) (alpha : bool) : M string :=
  fun w =>
    let n := unique_name
               (fun s => match images w !! s with Some _ => true | None => false end)
               name in
    (Ok n, set_images (insert n (new_image width height alpha)) w).

Definition image_get (name : string) : M Image :=
  fun w => match images w !! name with
           | Some i => (Ok i, w)
           | None => (Exc (ReferenceError "image has been removed"), w)
           end.

(** An attribute assignment on the image [name]. *)
Definition image_update (name : string) (f : Image -> Image) : M unit :=
  modify (set_images (alter f name)).

(** [image.save()] *)
Definition image_save (name : string) : M unit :=
  fun w => match images w !! name with
           | None => (Exc (ReferenceError "image has been removed"), w)
           | Some i =>
               match save_error (host w) (filepath_raw i) with
               | Some msg => (Exc (RuntimeError msg), w)
               | None =>
                   (Ok tt,
                    set_fs_files (fun fs => fs ++
                      [{| sf_path := filepath_raw i; sf_format := file_format i;
                          sf_image := name; sf_colorspace := colorspace i;
                          sf_float := use_generated_float i |}]) w)
               end
           end.

(** *** The bake service *)

(** The image the bake writes to for one material slot of the object:
    the image of the active node of the slot's material, when the slot
    has a material whose active node holds an image of the session. *)
Definition slot_target (w : World) (slot : option nat) : option string :=
  (mi ← slot;
   m ← materials w !! mi;
   nid ← nodes_active m;
   n ← List.find (has_id nid) (nodes m);
   img ← node_image n;
   _ ← images w !! img;
   Some img)%stdpp.

(** The images the bake writes to: the targets of all material slots of
    the active object, each image once. *)
Definition bake_targets (w : World) : list string :=
  match active w with
  | Some a =>
      match objects w !! a with
      | Some o => remove_dups (omap (slot_target w) (material_slots o))
      | None => []
      end
  | None => []
  end.

(** The bake service's [effect] applied to each of the images [imgs]. *)
Definition paint (effect : Image -> Image) (imgs : list string)
    (m : gmap string Image) : gmap string Image :=
  foldr (alter effect) m imgs.

Arguments paint : simpl never.

(** [bpy.ops.object.bake(type=bake_type)] *)
Definition bpy_ops_object_bake (bake_type : string) : M unit :=
  fun w =>
    let w1 := set_bake_log (fun l => l ++ [bake_type]) w in
    match render_service (host w) bake_type with
    | BakeRaises msg => (Exc (RuntimeError msg), w1)
    | BakeWrites effect =>
        match bake_targets w with
        | [] => (Exc (RuntimeError
                        "No active image found, add a material or bake to an external file"),
                 w1)
        | imgs => (Ok tt, set_images (paint effect imgs) w1)
        end
    end.

(** *** Locals *)

Definition empty_frame : Frame :=
  {| output_path := None; bake_successful := None; baked_images := None;
     image := None; image_node := None |}.

Definition assign_output_path (p : string) : M unit :=
  modify (set_frame (fun f =>
    {| output_path := Some p; bake_successful := bake_successful f;
       baked_images := baked_images f; image := image f;
       image_node := image_node f |})).

Definition assign_bake_successful (b : bool) : M unit :=
  modify (set_frame (fun f =>
    {| output_path := output_path f; bake_successful := Some b;
       baked_images := baked_images f; image := image f;
       image_node := image_node f |})).

Definition assign_baked_images (l : list string) : M unit :=
  modify (set_frame (fun f =>
    {| output_path := output_path f; bake_successful := bake_successful f;
       baked_images := Some l; image := image f;
       image_node := image_node f |})).

Definition assign_image (i : option string) : M unit :=
  modify (set_frame (fun f =>
    {| output_path := output_path f; bake_successful := bake_successful f;
       baked_images := baked_images f; image := i;
       image_node := image_node f |})).

Definition assign_image_node (n : option nat) : M unit :=
  modify (set_frame (fun f =>
    {| output_path := output_path f; bake_successful := bake_successful f;
       baked_images := baked_images f; image := image f;
       image_node := n |})).

(** ** The operator *)

(** *** [properties.py] and the [MockProps] fallback of [execute] *)

Inductive PropsObj :=
| RegisteredProps (p : Props)
| MockProps.

Definition get_props (w : World) : PropsObj :=
  match autobake_props w with
  | Some p => RegisteredProps p
  | None => MockProps
  end.

Definition props_bake_diffuse (p : PropsObj) : bool :=
  match p with RegisteredProps p => bake_diffuse_p p | MockProps => true end.
Definition props_bake_roughness (p : PropsObj) : bool :=
  match p with RegisteredProps p => bake_roughness_p p | MockProps => true end.
Definition props_bake_normal (p : PropsObj) : bool :=
  match p with RegisteredProps p => bake_normal_p p | MockProps => true end.
Definition props_bake_ao (p : PropsObj) : bool :=
  match p with RegisteredProps p => bake_ao_p p | MockProps => true end.
Definition props_texture_size (p : PropsObj) : Z :=
  match p with RegisteredProps p => texture_size p | MockProps => 1024%Z end.
Definition props_output_folder (p : PropsObj) : string :=
  match p with RegisteredProps p => output_folder p | MockProps => "//baked_textures" end.

(** [MockProps] has no [subfolder_for_size] attribute. *)
Definition props_subfolder_for_size (p : PropsObj) : M bool :=
  match p with
  | RegisteredProps p => ret (subfolder_for_size p)
  | MockProps => raise (AttributeError "subfolder_for_size")
  end.

(** *** [validateRequirements] *)

Record Validated := {
  v_model : nat;
  v_material : nat;
  v_principled_node : Node
}.

(** The returned dict: [{'status': {'CANCELLED'}}] or the full one. *)
Inductive Requirements :=
| ReqCancelled
| ReqFinished (v : Validated).

Definition req_status (r : Requirements) : Status :=
  match r with
  | ReqCancelled => CANCELLED
  | ReqFinished _ => FINISHED
  end.

(** The scan of lines 290-293: every Principled node overwrites the
    previous candidate, there is no [break]. *)
Definition scan_principled (ns : list Node) : option Node :=
  fold_left (fun principled_node node =>
               if String.eqb (node_type node) "BSDF_PRINCIPLED" then Some node
               else principled_node) ns None.

(** Lines 280-312. *)
Definition validate_material (model : nat) : M Requirements :=
  o ← obj_get model;
  match obj_active_material o with
  | None =>
      report ERROR ("Model '" +:+ obj_name o +:+ "' has no active material.");;
      ret ReqCancelled
  | Some material =>
      m ← mat_get material;
      if negb (use_nodes m) then
        report ERROR ("Active material '" +:+ mat_name m +:+ "' on '" +:+ obj_name o
                      +:+ "' must have nodes enabled.");;
        ret ReqCancelled
      else
        match scan_principled (nodes m) with
        | None =>
            report ERROR ("Active material '" +:+ mat_name m
                          +:+ "' must contain a Principled BSDF node.");;
            ret ReqCancelled
        | Some principled_node =>
            ret (ReqFinished {| v_model := model; v_material := material;
                                 v_principled_node := principled_node |})
        end
  end.

(** Lines 260-273: make some UV layer the active one. *)
Definition ensure_active_uv (model : nat) (render_uv_layer : nat)
    (continue : M Requirements) : M Requirements :=
  o ← obj_get model;
  match uv_active o with
  | Some _ => continue
  | None =>
      ok ← try_except
             (obj_update model (set_uv_active (Some render_uv_layer));; ret true)
             (fun _ =>
                try_except
                  (obj_update model (set_uv_active (Some 0%nat));; ret true)
                  (fun e =>
                     match e with
                     | IndexError _ =>
                         report ERROR ("Failed to set any active UV layer for '"
                                       +:+ obj_name o +:+ "'.");;
                         ret false
                     | _ => raise e
                     end));
      if ok then continue else ret ReqCancelled
  end.

Definition validateRequirements : M Requirements :=
  ao ← gets active_object;
  match ao with
  | None =>
      report ERROR "No active object selected.";;
      ret ReqCancelled
  | Some model =>
      o ← obj_get model;
      if negb (String.eqb (obj_type o) "MESH") then
        report ERROR ("Active object '" +:+ obj_name o +:+ "' is not a Mesh.");;
        ret ReqCancelled
      else
        sel ← gets selected_objects;
        when (1 <? length sel)%nat
          (report WARNING "More than one object selected. Baking only the active object.");;
        match uv_layers o with
        | [] =>
            report ERROR ("Model '" +:+ obj_name o +:+ "' has no UV maps.");;
            ret ReqCancelled
        | first_layer :: _ =>
            match find_render_layer (uv_layers o) with
            | Some render_uv_layer =>
                ensure_active_uv model render_uv_layer (validate_material model)
            | None =>
                (* [len(model.data.uv_layers) > 0] holds in this branch *)
                promoted ← try_except
                  (uv_set_active_render model 0;;
                   report WARNING ("No UV map was active for render on '" +:+ obj_name o
                                   +:+ "'. Automatically set '" +:+ uv_name first_layer
                                   +:+ "' as active for render.");;
                   ret true)
                  (fun e =>
                     report ERROR ("Failed to set active_render on UV layer '"
                                   +:+ uv_name first_layer +:+ "': " +:+ exn_message e);;
                     ret false);
                if promoted then
                  ensure_active_uv model 0 (validate_material model)
                else ret ReqCancelled
            end
        end
  end.

(** *** [create_image] *)

Definition create_image (name : string) (size : Z) (map_type : string) : M string :=
  image ← images_new name size size true;
  (if String.eqb map_type "Normal" then
     image_update image (set_generated_color (1#2, 1#2, 1, 1)%Q);;
     image_update image (set_colorspace "Non-Color");;
     image_update image (set_use_generated_float true)
   else if String.eqb map_type "Roughness" || String.eqb map_type "Metallic"
           || String.eqb map_type "AO" then
     image_update image (set_generated_color (1#2, 1#2, 1#2, 1)%Q);;
     image_update image (set_colorspace "Non-Color")
   else
     image_update image (set_generated_color (0, 0, 0, 1)%Q);;
     image_update image (set_colorspace "sRGB"));;
  ret image.

(** *** [is_image_solid_color] *)

Definition tolerance : Q := 1 # 100.

(** [abs(a - b) > tolerance] *)
Definition exceeds_tolerance (a b : Q) : bool :=
  negb (Qle_bool (Qabs (a - b)) tolerance).

(** [range(start, stop, step)] for a positive step. *)
Fixpoint range_from (fuel start stop step : nat) : list nat :=
  match fuel with
  | O => []
  | S fuel' => if (start <? stop)%nat then start :: range_from fuel' (start + step) stop step
               else []
  end.

Definition py_range (start stop step : nat) : list nat :=
  range_from stop start stop step.

(** The inner loop over [j]: does the current pixel differ from the first? *)
Definition is_different (first_pixel_color current_pixel_color : list Q)
    (channels : nat) : bool :=
  existsb (fun j => exceeds_tolerance (nth j first_pixel_color 0%Q)
                                      (nth j current_pixel_color 0%Q))
          (seq 0 channels).

(** The outer loop of lines 363-378: [false] as soon as a pixel differs. *)
Definition compare_pixels (pixels : list Q) (channels : nat) : bool :=
  let first_pixel_color := take channels pixels in
  forallb (fun i =>
             let current_pixel_color := take channels (drop i pixels) in
             if negb (length current_pixel_color =? channels)%nat then true
             else negb (is_different first_pixel_color current_pixel_color channels))
          (py_range channels (length pixels) channels).

(** [image.pixels[:]] *)
Definition copy_pixels (img : Image) : Res (list Q) :=
  match pixels_copy img with
  | CopyOk data => Ok data
  | CopyFails msg => Exc (RuntimeError msg)
  end.

Definition is_image_solid_color (img : Image) : bool :=
  let width := img_width img in
  let height := img_height img in
  if negb (has_data img) || (pixels_len img =? 0)%nat
     || (width =? 0)%Z || (height =? 0)%Z then false
  else
    match copy_pixels img with
    | Exc _ => false
    | Ok pixels =>
        if (length pixels =? 0)%nat then true
        else
          let channels := img_channels img in
          if (channels =? 0)%nat then true
          else compare_pixels pixels channels
    end.

(** *** Scene settings *)

Definition set_engine (s : string) (sc : Scene) : Scene :=
  {| engine := s; samples := samples sc;
     use_selected_to_active := use_selected_to_active sc;
     use_pass_direct := use_pass_direct sc; use_pass_indirect := use_pass_indirect sc;
     use_pass_color := use_pass_color sc; normal_space := normal_space sc;
     normal_r := normal_r sc; normal_g := normal_g sc; normal_b := normal_b sc |}.

Definition set_samples (n : Z) (sc : Scene) : Scene :=
  {| engine := engine sc; samples := n;
     use_selected_to_active := use_selected_to_active sc;
     use_pass_direct := use_pass_direct sc; use_pass_indirect := use_pass_indirect sc;
     use_pass_color := use_pass_color sc; normal_space := normal_space sc;
     normal_r := normal_r sc; normal_g := normal_g sc; normal_b := normal_b sc |}.

Definition set_use_selected_to_active (b : bool) (sc : Scene) : Scene :=
  {| engine := engine sc; samples := samples sc;
     use_selected_to_active := b;
     use_pass_direct := use_pass_direct sc; use_pass_indirect := use_pass_indirect sc;
     use_pass_color := use_pass_color sc; normal_space := normal_space sc;
     normal_r := normal_r sc; normal_g := normal_g sc; normal_b := normal_b sc |}.

Definition set_passes (direct indirect color : bool) (sc : Scene) : Scene :=
  {| engine := engine sc; samples := samples sc;
     use_selected_to_active := use_selected_to_active sc;
     use_pass_direct := direct; use_pass_indirect := indirect;
     use_pass_color := color; normal_space := normal_space sc;
     normal_r := normal_r sc; normal_g := normal_g sc; normal_b := normal_b sc |}.

Definition set_normal_axes (space r g b : string) (sc : Scene) : Scene :=
  {| engine := engine sc; samples := samples sc;
     use_selected_to_active := use_selected_to_active sc;
     use_pass_direct := use_pass_direct sc; use_pass_indirect := use_pass_indirect sc;
     use_pass_color := use_pass_color sc; normal_space := space;
     normal_r := r; normal_g := g; normal_b := b |}.

(** *** [add_bake_image_node] and [remove_bake_image_node] *)

Definition bake_node_name : string := "BakeTargetNode".

Definition is_stale_bake_node (n : Node) : bool :=
  String.eqb (node_type n) "TEX_IMAGE" && String.eqb (node_name n) bake_node_name.

Definition add_bake_image_node (nodes_of : nat) (image : string) : M nat :=
  m ← mat_get nodes_of;
  for_each (List.filter is_stale_bake_node (nodes m))
           (fun node => nodes_remove nodes_of (node_id node));;
  image_node ← nodes_new nodes_of "ShaderNodeTexImage";
  node_assign_name nodes_of image_node bake_node_name;;
  node_update nodes_of image_node (set_node_label ("Bake Target (" +:+ image +:+ ")"));;
  node_update nodes_of image_node (set_node_image (Some image));;
  node_update nodes_of image_node (set_node_select true);;
  mat_update nodes_of (set_nodes_active (Some image_node));;
  ret image_node.

Definition remove_bake_image_node (nodes_of : nat) : M unit :=
  node_to_remove ← nodes_get nodes_of bake_node_name;
  match node_to_remove with
  | Some node => nodes_remove nodes_of node
  | None => ret tt
  end.

(** The [finally] block of every bake method:
    [if image_node: self.remove_bake_image_node(nodes)]. *)
Definition release_bake_node (nodes_of : nat) : M unit :=
  image_node ← gets (fun w => image_node (frame w));
  match image_node with
  | Some _ => remove_bake_image_node nodes_of
  | None => ret tt
  end.

(** [if image.colorspace_settings.name != 'Non-Color': ... = 'Non-Color'] *)
Definition ensure_non_color (image : string) : M unit :=
  img ← image_get image;
  when (negb (String.eqb (colorspace img) "Non-Color"))
       (image_update image (set_colorspace "Non-Color")).

(** *** The bake methods *)

Definition bake_diffuse (image map_type : string) (material : nat) : M unit :=
  assign_image_node None;;
  try_finally
    (image_node ← add_bake_image_node material image;
     assign_image_node (Some image_node);;
     modify (set_scene (set_passes false false true));;
     bpy_ops_object_bake "DIFFUSE")
    (release_bake_node material).

Definition bake_normal (image map_type : string) (material : nat) : M unit :=
  assign_image_node None;;
  try_finally
    (ensure_non_color image;;
     img ← image_get image;
     when (negb (use_generated_float img))
          (image_update image (set_use_generated_float true));;
     image_node ← add_bake_image_node material image;
     assign_image_node (Some image_node);;
     modify (set_scene (set_normal_axes "TANGENT" "POS_X" "POS_Y" "POS_Z"));;
     bpy_ops_object_bake "NORMAL")
    (release_bake_node material).

Definition bake_roughness (image map_type : string) (material : nat) : M unit :=
  assign_image_node None;;
  try_finally
    (ensure_non_color image;;
     image_node ← add_bake_image_node material image;
     assign_image_node (Some image_node);;
     bpy_ops_object_bake "ROUGHNESS")
    (release_bake_node material).

Definition bake_ao (image map_type : string) (material : nat) : M unit :=
  assign_image_node None;;
  try_finally
    (ensure_non_color image;;
     image_node ← add_bake_image_node material image;
     assign_image_node (Some image_node);;
     bpy_ops_object_bake "AO")
    (release_bake_node material).

(** *** [execute] *)

Definition same_material (a : option nat) (material : nat) : bool :=
  match a with
  | Some x => Nat.eqb x material
  | None => false
  end.

(** The slot search of lines 81-86: index of the first slot holding the
    material. *)
Fixpoint find_slot (material : nat) (slots : list (option nat)) (i : nat) : option nat :=
  match slots with
  | [] => None
  | slot :: rest => if same_material slot material then Some i
                    else find_slot material rest (S i)
  end.

Fixpoint list_remove (x : string) (l : list string) : list string :=
  match l with
  | [] => []
  | y :: rest => if String.eqb y x then rest else y :: list_remove x rest
  end.

(** Lines 55-94: bake settings, selection, output directory, material slot. *)
Definition setup_phase (props : PropsObj) (model original_material : nat) : M unit :=
  modify (set_scene (set_engine "CYCLES"));;
  let bake_sample_count := 32%Z in
  modify (set_scene (set_samples bake_sample_count));;
  modify (set_scene (set_use_selected_to_active false));;
  select_all_deselect;;
  modify (set_active (Some model));;
  select_set model true;;
  path ← bpy_path_abspath (props_output_folder props);
  assign_output_path path;;
  subfolder ← props_subfolder_for_size props;
  when subfolder
       (assign_output_path (os_path_join path (str_of_Z (props_texture_size props))));;
  path ← read_local "output_path" output_path;
  present ← os_path_exists path;
  when (negb present) (os_makedirs path);;
  o ← obj_get model;
  when (negb (same_material (obj_active_material o) original_material))
       (match find_slot original_material (material_slots o) 0 with
        | Some i => obj_update model (set_active_material_index i)
        | None =>
            m ← mat_get original_material;
            report ERROR ("Original material '" +:+ mat_name m
                          +:+ "' not found in object slots.");;
            raise (RuntimeError ("Material '" +:+ mat_name m +:+ "' missing from object."))
        end);;
  o ← obj_get model;
  when (negb (same_material (obj_active_material o) original_material))
       (m ← mat_get original_material;
        report ERROR ("Could not set original material '" +:+ mat_name m
                      +:+ "' active on model.");;
        raise (RuntimeError "Failed to set active material.")).

Definition BakeMethod : Type := string -> string -> nat -> M unit.

Definition map_types (props : PropsObj) : list (string * bool * BakeMethod) :=
  [ ("Diffuse", props_bake_diffuse props, bake_diffuse);
    ("Roughness", props_bake_roughness props, bake_roughness);
    ("Normal", props_bake_normal props, bake_normal);
    ("AO", props_bake_ao props, bake_ao) ].

Definition solid_warning (image : string) : string :=
  "Normal map '" +:+ image
  +:+ "' may be solid color. Check geometry, normals, or material's Normal input.".

(** Lines 113-120: the buffer of this round, recorded as pending. *)
Definition allocate_buffer (props : PropsObj) (model : nat) (map_type : string)
    : M string :=
  o ← obj_get model;
  let image_name := obj_name o +:+ "_" +:+ map_type in
  present ← in_images image_name;
  when present (images_remove image_name);;
  img ← create_image image_name (props_texture_size props) map_type;
  assign_image (Some img);;
  imgs ← read_local "baked_images" baked_images;
  assign_baked_images (imgs ++ [img]);;
  ret img.

(** Lines 127-130. *)
Definition warn_if_solid (map_type img : string) : M unit :=
  if String.eqb map_type "Normal" then
    buffer ← image_get img;
    when (is_image_solid_color buffer) (report WARNING (solid_warning img))
  else ret tt.

(** Lines 132-140: the handler of the loop's [try]; the loop breaks. *)
Definition bake_failed (map_type : string) (e : Exn) : M bool :=
  report ERROR ("Failed during " +:+ map_type +:+ " bake: " +:+ exn_message e);;
  current ← gets (fun w => image (frame w));
  match current with
  | Some img =>
      present ← in_images img;
      when present
           (images_remove img;;
            imgs ← read_local "baked_images" baked_images;
            when (existsb (String.eqb img) imgs)
                 (assign_baked_images (list_remove img imgs)))
  | None => ret tt
  end;;
  assign_bake_successful false;;
  ret false.

(** One round of the loop of lines 107-140 for a requested map type.
    The result says whether the loop goes on ([false]: [break]). *)
Definition bake_map (props : PropsObj) (model original_material : nat)
    (map_type : string) (bake_method : BakeMethod) : M bool :=
  assign_image None;;
  try_except
    (img ← allocate_buffer props model map_type;
     bake_method img map_type original_material;;
     warn_if_solid map_type img;;
     ret true)
    (bake_failed map_type).

Fixpoint bake_loop (props : PropsObj) (model original_material : nat)
    (entries : list (string * bool * BakeMethod)) : M unit :=
  match entries with
  | [] => ret tt
  | (map_type, should_bake, bake_method) :: rest =>
      if negb should_bake then bake_loop props model original_material rest
      else
        go_on ← bake_map props model original_material map_type bake_method;
        if go_on then bake_loop props model original_material rest
        else ret tt
  end.

(** Lines 143-165. *)
Definition save_phase : M unit :=
  ok ← read_local "bake_successful" bake_successful;
  imgs ← read_local "baked_images" baked_images;
  when (ok && negb (length imgs =? 0)%nat)
    (for_each imgs (fun img =>
       present ← in_images img;
       if present then
         path ← read_local "output_path" output_path;
         let image_filepath := os_path_join path (img +:+ ".png") in
         image_update img (set_filepath_raw image_filepath);;
         image_update img (set_file_format "PNG");;
         when (ends_with "_Normal" img) (ensure_non_color img);;
         try_except (image_save img)
           (fun e =>
              report ERROR ("Failed to save image " +:+ img +:+ " to " +:+ image_filepath
                            +:+ ": " +:+ exn_message e);;
              assign_bake_successful false)
       else ret tt)).

(** Lines 54-172: the [try] statement with its [except] clause. *)
Definition try_block (props : PropsObj) (model original_material : nat) : M unit :=
  try_except
    (setup_phase props model original_material;;
     assign_bake_successful true;;
     assign_baked_images [];;
     bake_loop props model original_material (map_types props);;
     save_phase)
    (fun e =>
       report ERROR ("Error during bake setup: " +:+ exn_message e);;
       assign_bake_successful false).

Record Snapshot := {
  original_engine : string;
  original_render_samples : Z;
  original_use_selected_to_active : bool;
  original_active_object : option nat;
  original_selected_objects : list nat
}.

(** Lines 46-51. *)
Definition take_snapshot (w : World) : Snapshot :=
  {| original_engine := engine (scene w);
     original_render_samples := samples (scene w);
     original_use_selected_to_active := use_selected_to_active (scene w);
     original_active_object := active w;
     original_selected_objects := selected_objects w |}.

(** Lines 175-183. *)
Definition cleanup_images : M unit :=
  imgs ← read_local "baked_images" baked_images;
  for_each imgs (fun img =>
    present ← in_images img;
    when present (try_except (images_remove img) (fun _ => ret tt))).

(** Lines 195-197: one round of the reselection loop. *)
Definition reselect (obj : nat) : M unit :=
  w ← gets id;
  match objects w !! obj with
  | Some o => present ← in_view_layer (obj_name o);
              when present (select_set obj true)
  | None => ret tt
  end.

(** Lines 198-199. *)
Definition reactivate (original_active_object : option nat) : M unit :=
  match original_active_object with
  | Some a =>
      w ← gets id;
      match objects w !! a with
      | Some o => present ← in_view_layer (obj_name o);
                  when present (modify (set_active (Some a)))
      | None => ret tt
      end
  | None => ret tt
  end.

(** Lines 186-200. *)
Definition restore_settings (s : Snapshot) : M unit :=
  modify (set_scene (set_engine (original_engine s)));;
  modify (set_scene (set_samples (original_render_samples s)));;
  modify (set_scene (set_use_selected_to_active (original_use_selected_to_active s)));;
  select_all_deselect;;
  for_each (original_selected_objects s) reselect;;
  reactivate (original_active_object s).

(** Lines 203-209. *)
Definition final_report : M Status :=
  ok ← read_local "bake_successful" bake_successful;
  if ok then
    path ← read_local "output_path" output_path;
    report INFO ("Baking process finished. Maps saved to: " +:+ path);;
    ret FINISHED
  else
    report ERROR "Baking process failed or was interrupted. Check console/log.";;
    ret CANCELLED.

(** Lines 174-209; the block ends in a [return], so its outcome is the
    outcome of [execute] whatever the [try] statement did. *)
Definition finally_block (s : Snapshot) : M Status :=
  cleanup_images;;
  restore_settings s;;
  final_report.

Definition execute : M Status :=
  modify (set_frame (fun _ => empty_frame));;
  props ← gets get_props;
  validRequirements ← validateRequirements;
  match validRequirements with
  | ReqCancelled => ret CANCELLED
  | ReqFinished v =>
      let model := v_model v in
      let original_material := v_material v in
      snapshot ← gets take_snapshot;
      fun w =>
        let (_, w') := try_block props model original_material w in
        finally_block snapshot w'
  end.

(** * Observations used by the statements *)

(** [keeps proj m]: running [m] leaves the observation [proj] of the
    session as it was, whatever the outcome. *)
Definition keeps {A B} (proj : World -> B) (m : M A) : Prop :=
  forall w, proj (snd (m w)) = proj w.

(** The buffer that [create_image] leaves in the session, if any. *)
Definition created (name : string) (size : Z) (map_type : string) (w : World)
    : option Image :=
  match create_image name size map_type w with
  | (Ok image, w') => images w' !! image
  | (Exc _, _) => None
  end.

Definition buffer_settings (i : Image) : Z * Z * bool * Color * string * bool :=
  (img_width i, img_height i, img_alpha i, generated_color i, colorspace i,
   use_generated_float i).

(** The guard of line 346 lets the image through. *)
Definition has_pixel_data (img : Image) : Prop :=
  has_data img = true /\ pixels_len img <> 0%nat /\
  img_width img <> 0%Z /\ img_height img <> 0%Z.

(** Channel [j] of pixel [p] in the flat array. *)
Definition channel (pixels : list Q) (channels p j : nat) : Q :=
  nth (p * channels + j) pixels 0%Q.

(** Pixel [p] is entirely inside the array. *)
Definition complete (pixels : list Q) (channels p : nat) : Prop :=
  ((p + 1) * channels <= length pixels)%nat.

Definition pixel_matches_first (pixels : list Q) (channels p : nat) : Prop :=
  forall j, (j < channels)%nat ->
    (Qabs (channel pixels channels 0 j - channel pixels channels p j) <= tolerance)%Q.

Definition pixel_differs_from_first (pixels : list Q) (channels p : nat) : Prop :=
  exists j, (j < channels)%nat /\
    (tolerance < Qabs (channel pixels channels 0 j - channel pixels channels p j))%Q.


Definition multi_selection_warning (w : World) : list (Severity * string) :=
  if (1 <? length (selected_objects w))%nat
  then [(WARNING, "More than one object selected. Baking only the active object.")]
  else [].

Definition promotion_warning (o : Object) (first_layer : UVLayer) : Severity * string :=
  (WARNING, "No UV map was active for render on '" +:+ obj_name o
            +:+ "'. Automatically set '" +:+ uv_name first_layer
            +:+ "' as active for render.").

Definition is_warning (r : Severity * string) : Prop := fst r = WARNING.

Definition is_principled (n : Node) : bool := String.eqb (node_type n) "BSDF_PRINCIPLED".

(** Validation is cancelled with [msg] as its one error report. *)
Definition cancelled_with (w : World) (msg : string) : Prop :=
  exists w' warnings,
    validateRequirements w = (Ok ReqCancelled, w') /\
    reports w' = reports w ++ warnings ++ [(ERROR, msg)] /\
    Forall is_warning warnings.

(** Validation succeeds with [v], reporting warnings at most. *)
Definition finished_with (w : World) (v : Validated) : Prop :=
  exists w' warnings,
    validateRequirements w = (Ok (ReqFinished v), w') /\
    reports w' = reports w ++ warnings /\
    Forall is_warning warnings.

Definition selection_flags (w : World) : list bool := obj_selected <$> objects w.

Definition select_many (S : list nat) (objs : list Object) : list Object :=
  fold_left (fun l i => alter (set_selected true) i l) S objs.

(** [respects R m]: running [m] takes the session to one related by [R],
    whatever the outcome. *)
Definition respects {A} (R : World -> World -> Prop) (m : M A) : Prop :=
  forall w, R w (snd (m w)).


(** The session's bake log grew by calls of the [allowed] types only. *)
Definition log_within (allowed : list string) (w w' : World) : Prop :=
  exists l, bake_log w' = bake_log w ++ l /\ forall bt, In bt l -> In bt allowed.

(** The fixed order of the map types, each with the bake type that its
    method hands to the bake service. *)
Definition map_order : list (string * string) :=
  [("Diffuse", "DIFFUSE"); ("Roughness", "ROUGHNESS"); ("Normal", "NORMAL"); ("AO", "AO")].

(** What a round of the loop guarantees for the bake type [ty] of its
    method, whatever its outcome. *)
Definition step_facts (props : PropsObj) (model material : nat)
    (e : string * bool * BakeMethod) (ty : string) : Prop :=
  keeps host (bake_map props model material (fst (fst e)) (snd e)) /\
  keeps fs_files (bake_map props model material (fst (fst e)) (snd e)) /\
  respects (log_within [ty]) (bake_map props model material (fst (fst e)) (snd e)).

(** The buffer that [create_image] sets up for a map type. *)
Definition table_buffer (map_type : string) (size : Z) : Image :=
  (if String.eqb map_type "Normal" then
     fun i => set_use_generated_float true
                (set_colorspace "Non-Color" (set_generated_color (1#2, 1#2, 1, 1)%Q i))
   else if String.eqb map_type "Roughness" || String.eqb map_type "Metallic"
           || String.eqb map_type "AO" then
     fun i => set_colorspace "Non-Color" (set_generated_color (1#2, 1#2, 1#2, 1)%Q i)
   else
     fun i => set_colorspace "sRGB" (set_generated_color (0, 0, 0, 1)%Q i))
    (new_image size size true).

(** What every bake method leaves alone. *)
Definition method_facts (bake_method : BakeMethod) : Prop :=
  forall img mt mat,
    keeps (fun w => image (frame w)) (bake_method img mt mat) /\
    keeps (fun w => baked_images (frame w)) (bake_method img mt mat) /\
    keeps (fun w => dom (images w)) (bake_method img mt mat) /\
    keeps host (bake_method img mt mat).

(** The files that a call of [execute] on [w] adds to the disk. *)
Definition written_by_run (w : World) : list SavedFile :=
  drop (length (fs_files w)) (fs_files (snd (execute w))).

(** A file of an image named [..._Normal] is in Non-Color. *)
Definition normal_file_non_color (f : SavedFile) : Prop :=
  ends_with "_Normal" (sf_image f) = true -> sf_colorspace f = "Non-Color".

(** The file is written in the format that line 149 asks for. *)
Definition png_file (f : SavedFile) : Prop := sf_format f = "PNG".

(** The files of [w'] are those of [w] and then PNG files, in Non-Color
    where the image is named [..._Normal]. *)
Definition writes_non_color (w w' : World) : Prop :=
  exists new : list SavedFile,
    fs_files w' = fs_files w ++ new /\
    Forall (fun f => png_file f /\ normal_file_non_color f) new.

(** The longest name that Blender keeps for a data-block, in bytes. *)
Definition max_name_length : nat := 63.

Definition object_names (w : World) : list string := obj_name <$> objects w.

(** The frame satisfies [P] after the step if it did before. *)
Definition frame_mono (P : Frame -> Prop) (w w' : World) : Prop :=
  P (frame w) -> P (frame w').

(** The locals that the [finally] block reads are bound. *)
Definition locals_bound (fr : Frame) : Prop :=
  is_Some (output_path fr) /\ is_Some (bake_successful fr) /\ is_Some (baked_images fr).

(** Validation passes and the setup phase (lines 55-94) raises nothing. *)
Definition setup_succeeds (w : World) : Prop :=
  exists v w1 w2,
    validateRequirements (set_frame (fun _ => empty_frame) w) = (Ok (ReqFinished v), w1) /\
    setup_phase (get_props w) (v_model v) (v_material v) w1 = (Ok tt, w2).

(** * A concrete session

    A mesh [Cube] with one UV layer (not marked for render) and a
    material with a Principled BSDF node, next to a selected light; the
    add-on's properties ask for all four maps at 512 pixels. *)

Definition ex_principled : Node :=
  {| node_id := 1; node_name := "Principled BSDF"; node_type := "BSDF_PRINCIPLED";
     node_label := ""; node_image := None; node_select := false |}.

Definition ex_output : Node :=
  {| node_id := 2; node_name := "Material Output"; node_type := "OUTPUT_MATERIAL";
     node_label := ""; node_image := None; node_select := false |}.

Definition ex_material : Material :=
  {| mat_name := "Material"; use_nodes := true;
     nodes := [ex_principled; ex_output]; nodes_active := None |}.

Definition ex_cube : Object :=
  {| obj_name := "Cube"; obj_type := "MESH"; obj_selected := true;
     uv_layers := [ {| uv_name := "UVMap"; active_render := false |} ];
     uv_active := Some 0%nat; material_slots := [Some 0%nat];
     active_material_index := 0 |}.

Definition ex_light : Object :=
  {| obj_name := "Light"; obj_type := "LIGHT"; obj_selected := true;
     uv_layers := []; uv_active := None; material_slots := [];
     active_material_index := 0 |}.

Definition ex_scene : Scene :=
  {| engine := "BLENDER_EEVEE_NEXT"; samples := 4096; use_selected_to_active := true;
     use_pass_direct := true; use_pass_indirect := true; use_pass_color := true;
     normal_space := "OBJECT"; normal_r := "POS_X"; normal_g := "POS_Y";
     normal_b := "POS_Z" |}.

Definition ex_props : Props :=
  {| texture_size := 512; output_folder := "//baked_maps/"; subfolder_for_size := true;
     bake_diffuse_p := true; bake_roughness_p := true; bake_normal_p := true;
     bake_ao_p := true |}.

(** A bake that fills the target buffer with the given pixel data. *)
Definition ex_paint (pixels : list Q) (i : Image) : Image :=
  {| img_width := img_width i; img_height := img_height i; img_alpha := img_alpha i;
     generated_color := generated_color i; colorspace := colorspace i;
     use_generated_float := use_generated_float i; img_channels := 4;
     has_data := true; pixels_len := length pixels; pixels_copy := CopyOk pixels;
     filepath_raw := filepath_raw i; file_format := file_format i |}.

Definition ex_flat_pixels : list Q := [1#2; 1#2; 1; 1; 1#2; 1#2; 1; 1]%Q.

Definition ex_relief_pixels : list Q := [1#2; 1#2; 1; 1; 3#5; 2#5; 9#10; 1]%Q.

Definition ex_host : Host :=
  {| abspath := fun p => "/home/artist/project/" +:+ String.substring 2 (String.length p - 2) p;
     makedirs_error := fun _ => None;
     render_service := fun _ => BakeWrites (ex_paint ex_flat_pixels);
     save_error := fun _ => None |}.

Definition ex_session (materials : list Material) (h : Host) : World :=
  {| scene := ex_scene; autobake_props := Some ex_props;
     objects := [ex_cube; ex_light]; active := Some 0%nat;
     materials := materials; images := ∅; fs_dirs := []; fs_files := [];
     reports := []; bake_log := []; frame := empty_frame; host := h |}.

Definition ex_world : World := ex_session [ex_material] ex_host.

(** The output directory cannot be created. *)
Definition ex_readonly_host : Host :=
  {| abspath := abspath ex_host;
     makedirs_error := fun _ => Some "[Errno 13] Permission denied";
     render_service := render_service ex_host;
     save_error := save_error ex_host |}.

Definition ex_readonly_world : World := ex_session [ex_material] ex_readonly_host.

(** The bake service raises on the Normal map. *)
Definition ex_failing_host : Host :=
  {| abspath := abspath ex_host;
     makedirs_error := makedirs_error ex_host;
     render_service := fun ty => if String.eqb ty "NORMAL"
                                 then BakeRaises "No valid selected objects"
                                 else render_service ex_host ty;
     save_error := save_error ex_host |}.

Definition ex_failing_world : World := ex_session [ex_material] ex_failing_host.

(** A bake that also resets the buffer to an 8-bit sRGB one. *)
Definition ex_reset_settings (i : Image) : Image :=
  set_use_generated_float false (set_colorspace "sRGB" (ex_paint ex_relief_pixels i)).

Definition ex_resetting_host : Host :=
  {| abspath := abspath ex_host;
     makedirs_error := makedirs_error ex_host;
     render_service := fun _ => BakeWrites ex_reset_settings;
     save_error := save_error ex_host |}.

Definition ex_resetting_world : World := ex_session [ex_material] ex_resetting_host.

(** The user has named a Math node [BakeTargetNode]. *)
Definition ex_math : Node :=
  {| node_id := 3; node_name := "BakeTargetNode"; node_type := "MATH";
     node_label := ""; node_image := None; node_select := false |}.

Definition ex_clash_material : Material :=
  {| mat_name := "Material"; use_nodes := true;
     nodes := [ex_principled; ex_output; ex_math]; nodes_active := None |}.

Definition ex_clash_world : World := ex_session [ex_clash_material] ex_host.

(** Two Principled BSDF nodes in one graph. *)
Definition ex_second_principled : Node :=
  {| node_id := 4; node_name := "Principled BSDF.001"; node_type := "BSDF_PRINCIPLED";
     node_label := ""; node_image := None; node_select := false |}.

Definition ex_twin_material : Material :=
  {| mat_name := "Material"; use_nodes := true;
     nodes := [ex_principled; ex_second_principled; ex_output]; nodes_active := None |}.

Definition ex_twin_world : World := ex_session [ex_twin_material] ex_host.

(** A two-pixel buffer as the bake leaves it. *)
Definition ex_buffer (pixels : list Q) : Image :=
  ex_paint pixels (table_buffer "Normal" 512).

Definition ex_no_file : SavedFile :=
  {| sf_path := ""; sf_format := ""; sf_image := ""; sf_colorspace := "";
     sf_float := false |}.

(** The claim C5 as it is stated, at the session [w]: every Normal-map
    file written by the run is Non-Color and 32-bit float, whatever the
    bake service did to the buffer. *)
Definition normal_map_written_as_claimed (w : World) : Prop :=
  forall model o f,
    active_object w = Some model -> objects w !! model = Some o ->
    In f (written_by_run w) -> sf_image f = obj_name o +:+ "_Normal" ->
    sf_colorspace f = "Non-Color" /\ sf_float f = true.

(** The session as the loop finds it: setup done, nothing pending yet. *)
Definition ex_loop_world (w : World) : World :=
  snd (bind (setup_phase (get_props w) 0 0)
            (fun _ => bind (assign_bake_successful true)
                           (fun _ => assign_baked_images []))
            (snd (validateRequirements w))).

Definition ex_unreadable : Image :=
  {| img_width := 2; img_height := 1; img_alpha := true;
     generated_color := (1#2, 1#2, 1, 1)%Q; colorspace := "Non-Color";
     use_generated_float := true; img_channels := 4; has_data := true;
     pixels_len := 8; pixels_copy := CopyFails "Couldn't load image buffer";
     filepath_raw := ""; file_format := "PNG" |}.

Definition ex_empty_copy : Image :=
  {| img_width := 2; img_height := 1; img_alpha := true;
     generated_color := (1#2, 1#2, 1, 1)%Q; colorspace := "Non-Color";
     use_generated_float := true; img_channels := 4; has_data := true;
     pixels_len := 8; pixels_copy := CopyOk [];
     filepath_raw := ""; file_format := "PNG" |}.

Definition ex_no_channels : Image :=
  {| img_width := 2; img_height := 1; img_alpha := true;
     generated_color := (1#2, 1#2, 1, 1)%Q; colorspace := "Non-Color";
     use_generated_float := true; img_channels := 0; has_data := true;
     pixels_len := 8; pixels_copy := CopyOk ex_relief_pixels;
     filepath_raw := ""; file_format := "PNG" |}.

(** * Further observations *)

(** [poll]: the operator is offered for an active mesh object only. *)
Definition poll (w : World) : bool :=
  match active_object w with
  | Some a =>
      match objects w !! a with
      | Some o => String.eqb (obj_type o) "MESH"
      | None => false
      end
  | None => false
  end.

(** What validation leaves alone in every object: all but the UV flags. *)
Definition object_identity (w : World)
    : list (string * string * bool * list (option nat) * nat * list string) :=
  (fun o => (obj_name o, obj_type o, obj_selected o, material_slots o,
             active_material_index o, uv_name <$> uv_layers o)) <$> objects w.

(** The report log only grew. *)
Definition reports_grow (w w' : World) : Prop :=
  exists new, reports w' = reports w ++ new.

(** The directory that the setup phase resolves for the registered
    properties [p] (lines 70-72). *)
Definition resolved_output_path (h : Host) (p : Props) : string :=
  if subfolder_for_size p
  then os_path_join (abspath h (output_folder p)) (str_of_Z (texture_size p))
  else abspath h (output_folder p).

(** The session after lines 55-72: bake settings applied, the model alone
    selected and active, the output path bound. *)
Definition bake_session (model : nat) (path : string) (w : World) : World :=
  set_frame (fun f =>
      {| output_path := Some path; bake_successful := bake_successful f;
         baked_images := baked_images f; image := image f;
         image_node := image_node f |})
    (set_objects (fun objs => alter (set_selected true) model (map (set_selected false) objs))
       (set_active (Some model)
          (set_scene (fun sc => set_use_selected_to_active false
                                  (set_samples 32 (set_engine "CYCLES" sc))) w))).

(** The pass flags that [bake_diffuse] writes. *)
Definition pass_settings (sc : Scene) : bool * bool * bool :=
  (use_pass_direct sc, use_pass_indirect sc, use_pass_color sc).

(** The normal-space settings that [bake_normal] writes. *)
Definition normal_settings (sc : Scene) : string * string * string * string :=
  (normal_space sc, normal_r sc, normal_g sc, normal_b sc).

(** The bake type [ty] is among the calls [l] made to the bake service. *)
Definition attempted (ty : string) (l : list string) : bool :=
  existsb (String.eqb ty) l.

(** The bake settings of [w'] are those of [w], except where a Diffuse or
    a Normal bake was handed to the bake service in between. *)
Definition settings_follow_log (w w' : World) : Prop :=
  exists l,
    bake_log w' = bake_log w ++ l /\
    pass_settings (scene w')
    = (if attempted "DIFFUSE" l then (false, false, true) else pass_settings (scene w)) /\
    normal_settings (scene w')
    = (if attempted "NORMAL" l then ("TANGENT", "POS_X", "POS_Y", "POS_Z")
       else normal_settings (scene w)).

(** What [settings_follow_log] looks at. *)
Definition settings_view (w : World)
    : list string * (bool * bool * bool) * (string * string * string * string) :=
  (bake_log w, pass_settings (scene w), normal_settings (scene w)).

(** The file that the save loop writes for the image [img] with data [i]
    (lines 147-158). *)
Definition file_of (path img : string) (i : Image) : SavedFile :=
  {| sf_path := os_path_join path (img +:+ ".png"); sf_format := "PNG";
     sf_image := img;
     sf_colorspace := if ends_with "_Normal" img then "Non-Color" else colorspace i;
     sf_float := use_generated_float i |}.

(** The message with which the save of the pending image [img] raises,
    if it does. *)
Definition save_raises (h : Host) (path : string) (imgs : gmap string Image)
    (img : string) : option string :=
  match imgs !! img with
  | Some _ => save_error h (os_path_join path (img +:+ ".png"))
  | None => None
  end.

Definition save_fails (h : Host) (path : string) (imgs : gmap string Image)
    (img : string) : bool :=
  match save_raises h path imgs img with
  | Some _ => true
  | None => false
  end.

(** What the save loop writes for the pending image [img]: nothing when
    the image has left the session or when the save raises. *)
Definition saved_file (h : Host) (path : string) (imgs : gmap string Image)
    (img : string) : option SavedFile :=
  match imgs !! img with
  | Some i => if save_fails h path imgs img then None else Some (file_of path img i)
  | None => None
  end.

(** What the save loop reports for the pending image [img]. *)
Definition save_report (h : Host) (path : string) (imgs : gmap string Image)
    (img : string) : option (Severity * string) :=
  match save_raises h path imgs img with
  | Some msg =>
      Some (ERROR, "Failed to save image " +:+ img +:+ " to "
                   +:+ os_path_join path (img +:+ ".png") +:+ ": " +:+ msg)
  | None => None
  end.

(** One round of the save loop (lines 146-165). *)
Definition save_round (img : string) : M unit :=
  present ← in_images img;
  if present then
    path ← read_local "output_path" output_path;
    let image_filepath := os_path_join path (img +:+ ".png") in
    image_update img (set_filepath_raw image_filepath);;
    image_update img (set_file_format "PNG");;
    when (ends_with "_Normal" img) (ensure_non_color img);;
    try_except (image_save img)
      (fun e =>
         report ERROR ("Failed to save image " +:+ img +:+ " to " +:+ image_filepath
                       +:+ ": " +:+ exn_message e);;
         assign_bake_successful false)
  else ret tt.

(** The nodes that [add_bake_image_node] leaves in place: all but the
    Image Texture nodes named [BakeTargetNode]. *)
Definition kept_nodes (ns : list Node) : list Node :=
  List.filter (fun n => negb (is_stale_bake_node n)) ns.

(** The node that [add_bake_image_node] sets up for [image]. *)
Definition bake_target_node (id : nat) (image : string) : Node :=
  {| node_id := id; node_name := bake_node_name; node_type := "TEX_IMAGE";
     node_label := "Bake Target (" +:+ image +:+ ")"; node_image := Some image;
     node_select := true |}.

(** No node of another type carries the name [BakeTargetNode]. *)
Definition name_reserved (ns : list Node) : Prop :=
  forall n, In n ns -> node_name n = bake_node_name -> node_type n = "TEX_IMAGE".

(** The material [m] with the node list [ns] and the active node [a]. *)
Definition with_nodes (ns : list Node) (a : option nat) (m : Material) : Material :=
  {| mat_name := mat_name m; use_nodes := use_nodes m; nodes := ns; nodes_active := a |}.

(** The material's node list after a bake method that has inserted its
    node: the caller's nodes minus stale bake-target nodes. *)
Definition released (m : Material) : Material :=
  with_nodes (kept_nodes (nodes m)) None m.

(** The map types that the properties ask for, in the order of
    [map_types], each with the bake type of its method. *)
Definition requested (props : PropsObj) : list (string * string) :=
  (if props_bake_diffuse props then [("Diffuse", "DIFFUSE")] else [])
  ++ (if props_bake_roughness props then [("Roughness", "ROUGHNESS")] else [])
  ++ (if props_bake_normal props then [("Normal", "NORMAL")] else [])
  ++ (if props_bake_ao props then [("AO", "AO")] else []).

(** Running [m] hands at most one bake, of type [ty], to the service. *)
Definition bakes_at_most (ty : string) {A} (m : M A) : Prop :=
  forall w, bake_log (snd (m w)) = bake_log w \/
            bake_log (snd (m w)) = bake_log w ++ [ty].

(** A round of the loop for the map type [fst e] bakes the type [ty]. *)
Definition round_bakes (props : PropsObj) (model material : nat)
    (e : string * bool * BakeMethod) (r : string * string) : Prop :=
  fst (fst e) = fst r /\
  bakes_at_most (snd r) (bake_map props model material (fst (fst e)) (snd e)) /\
  forall w w', bake_map props model material (fst (fst e)) (snd e) w = (Ok true, w') ->
               bake_log w' = bake_log w ++ [snd r].

(** The requested entries of a table of rounds, with their bake types. *)
Fixpoint requested_of (entries : list (string * bool * BakeMethod))
    (order : list (string * string)) : list (string * string) :=
  match entries, order with
  | (_, should_bake, _) :: entries', r :: order' =>
      if should_bake then r :: requested_of entries' order'
      else requested_of entries' order'
  | _, _ => []
  end.

(** What a bake method leaves alone of the state of the loop. *)
Definition round_view (w : World)
    : list Object * list SavedFile * Host * option string * option bool
      * option (list string) * gset string :=
  (objects w, fs_files w, host w, output_path (frame w), bake_successful (frame w),
   baked_images (frame w), dom (images w)).

(** A round of the loop for the map type [fst e], with bake type [snd r],
    as a successful run sees it. *)
Definition round_succeeds (props : PropsObj) (model material : nat)
    (e : string * bool * BakeMethod) (r : string * string) : Prop :=
  fst (fst e) = fst r /\
  (forall img mt mat, keeps round_view (snd e img mt mat)) /\
  forall w w', bake_map props model material (fst (fst e)) (snd e) w = (Ok true, w') ->
               bake_log w' = bake_log w ++ [snd r].

(** The name of the buffer for a requested map. *)
Definition buffer_name (o : Object) (r : string * string) : string :=
  obj_name o +:+ "_" +:+ fst r.







(** The names of the four buffers of the model called [nm]. *)
Definition buffer_names (nm : string) : list string :=
  (fun r => nm +:+ "_" +:+ fst r) <$> map_order.

(** What the bake loop relies on between two steps: the model is active
    and called [nm], [mat] is the material of its one slot, and the locals
    [image] and [baked_images] name buffers of the model only. *)
Definition round_inv (model mat : nat) (nm : string) (w : World) : Prop :=
  active w = Some model /\
  (exists o, objects w !! model = Some o /\ obj_name o = nm /\
             material_slots o = [Some mat]) /\
  (forall img, image (frame w) = Some img -> In img (buffer_names nm)) /\
  (exists l, baked_images (frame w) = Some l /\
             forall img, In img l -> In img (buffer_names nm)).

(** From a session that satisfies [round_inv] the step leads to one that
    does, and every image that is not a buffer of the model is as it was. *)
Definition others_kept (model mat : nat) (nm : string) (w w' : World) : Prop :=
  round_inv model mat nm w ->
  round_inv model mat nm w' /\
  forall name, ~ In name (buffer_names nm) -> images w' !! name = images w !! name.

(** What [round_inv] looks at. *)
Definition inv_view (w : World)
    : option nat * list Object * option string * option (list string) :=
  (active w, objects w, image (frame w), baked_images (frame w)).

(** The step leaves [inv_view] alone and changes no image but [x]. *)
Definition only_touches (x : string) (w w' : World) : Prop :=
  inv_view w' = inv_view w /\
  forall k, k <> x -> images w' !! k = images w !! k.

(** The active node of [mat] is the node [id], bound to the image [img]. *)
Definition node_bound (mat id : nat) (img : string) (w : World) : Prop :=
  exists m nd, materials w !! mat = Some m /\ nodes_active m = Some id /\
               List.find (has_id id) (nodes m) = Some nd /\ node_image nd = Some img.

(** The steps [k] leave [inv_view] alone and change no image but those
    the bake service writes to. *)
Definition writes_target_only (k : M unit) : Prop :=
  forall w,
    inv_view (snd (k w)) = inv_view w /\
    forall name, ~ In name (bake_targets w) ->
                 images (snd (k w)) !! name = images w !! name.

(** * Further concrete sessions *)

(** The session without the add-on's properties on the scene. *)
Definition ex_unregistered_world : World :=
  {| scene := ex_scene; autobake_props := None;
     objects := [ex_cube; ex_light]; active := Some 0%nat;
     materials := [ex_material]; images := ∅; fs_dirs := []; fs_files := [];
     reports := []; bake_log := []; frame := empty_frame; host := ex_host |}.

(** The session with no map type ticked. *)
Definition ex_idle_props : Props :=
  {| texture_size := 512; output_folder := "//baked_maps/"; subfolder_for_size := true;
     bake_diffuse_p := false; bake_roughness_p := false; bake_normal_p := false;
     bake_ao_p := false |}.

Definition ex_idle_world : World :=
  {| scene := ex_scene; autobake_props := Some ex_idle_props;
     objects := [ex_cube; ex_light]; active := Some 0%nat;
     materials := [ex_material]; images := ∅; fs_dirs := []; fs_files := [];
     reports := []; bake_log := []; frame := empty_frame; host := ex_host |}.

(** The cube as the bake loop finds it: its UV layer promoted, selected. *)
Definition ex_ready_cube : Object :=
  {| obj_name := "Cube"; obj_type := "MESH"; obj_selected := true;
     uv_layers := [ {| uv_name := "UVMap"; active_render := true |} ];
     uv_active := Some 0%nat; material_slots := [Some 0%nat];
     active_material_index := 0 |}.

(** What validation returns on the concrete session. *)
Definition ex_validated : Validated :=
  {| v_model := 0; v_material := 0; v_principled_node := ex_principled |}.

(** The concrete session after validation, and after the setup phase. *)
Definition ex_checked (w : World) : World :=
  snd (validateRequirements (set_frame (fun _ => empty_frame) w)).

Definition ex_set_up (w : World) : World :=
  snd (setup_phase (get_props w) 0 0 (ex_checked w)).




(** The concrete session with the Diffuse buffer allocated. *)
Definition ex_round_world : World :=
  snd (allocate_buffer (get_props ex_world) 0 "Diffuse" (ex_loop_world ex_world)).


(** The concrete session with one more image, which is no buffer. *)
Definition ex_logo_world : World :=
  set_images (insert "Logo" (new_image 64 64 true)) ex_world.
(** * Reasoning principles *)

Lemma bind_Ok {A B} (m : M A) (k : A -> M B) w a w1 :
  m w = (Ok a, w1) -> bind m k w = k a w1.
Proof. intros H. unfold bind. now rewrite H. Qed.

Lemma bind_Exc {A B} (m : M A) (k : A -> M B) w e w1 :
  m w = (Exc e, w1) -> bind m k w = (Exc e, w1).
Proof. intros H. unfold bind. now rewrite H. Qed.

Lemma bind_inv_Ok {A B} (m : M A) (k : A -> M B) w b w' :
  bind m k w = (Ok b, w') ->
  exists a w1, m w = (Ok a, w1) /\ k a w1 = (Ok b, w').
Proof.
  unfold bind. destruct (m w) as [[a|e] w1]; intros H.
  - now exists a, w1.
  - discriminate.
Qed.

Lemma dom_paint effect imgs (m : gmap string Image) : dom (paint effect imgs m) = dom m.
Proof.
  unfold paint. induction imgs as [|x imgs IH]; simpl; [reflexivity|].
  now rewrite dom_alter_L.
Qed.

Lemma lookup_paint_ne effect imgs (m : gmap string Image) k :
  ~ In k imgs -> paint effect imgs m !! k = m !! k.
Proof.
  unfold paint. induction imgs as [|x imgs IH]; simpl; [reflexivity|].
  intros Hk. rewrite lookup_alter_ne by (intros ->; apply Hk; now left).
  apply IH. intros Hin. apply Hk. now right.
Qed.

Section Keeps.
Context {B : Type} (proj : World -> B).

Lemma keeps_ret {A} (a : A) : keeps proj (ret a).
Proof. now intros w. Qed.

Lemma keeps_raise {A} e : keeps proj (@raise A e).
Proof. now intros w. Qed.

Lemma keeps_gets {A} (f : World -> A) : keeps proj (gets f).
Proof. now intros w. Qed.

Lemma keeps_read_local {A} var (p : Frame -> option A) : keeps proj (read_local var p).
Proof. intros w. unfold read_local. now destruct (p (frame w)). Qed.

Lemma keeps_modify (f : World -> World) :
  (forall w, proj (f w) = proj w) -> keeps proj (modify f).
Proof. intros H w. apply H. Qed.

Lemma keeps_bind {A C} (m : M A) (k : A -> M C) :
  keeps proj m -> (forall a, keeps proj (k a)) -> keeps proj (bind m k).
Proof.
  intros Hm Hk w. unfold bind. specialize (Hm w).
  destruct (m w) as [[a|e] w1]; simpl in *; [|assumption].
  now rewrite Hk.
Qed.

Lemma keeps_try_except {A} (m : M A) (h : Exn -> M A) :
  keeps proj m -> (forall e, keeps proj (h e)) -> keeps proj (try_except m h).
Proof.
  intros Hm Hh w. unfold try_except. specialize (Hm w).
  destruct (m w) as [[a|e] w1]; simpl in *; [assumption|].
  now rewrite Hh.
Qed.

Lemma keeps_try_finally {A} (m : M A) (f : M unit) :
  keeps proj m -> keeps proj f -> keeps proj (try_finally m f).
Proof.
  intros Hm Hf w. unfold try_finally. specialize (Hm w).
  destruct (m w) as [r w1]. specialize (Hf w1).
  destruct (f w1) as [[u|e] w2]; simpl in *; congruence.
Qed.

Lemma keeps_when b (m : M unit) : keeps proj m -> keeps proj (when b m).
Proof. intros Hm. destruct b; [assumption | apply keeps_ret]. Qed.

Lemma keeps_for_each {A} (l : list A) (body : A -> M unit) :
  (forall x, keeps proj (body x)) -> keeps proj (for_each l body).
Proof.
  intros Hb. induction l as [|x l IH]; simpl.
  - apply keeps_ret.
  - apply keeps_bind; [apply Hb | intros _; exact IH].
Qed.
End Keeps.

Ltac keeps_step :=
  lazymatch goal with
  | |- keeps _ (bind _ _) => apply keeps_bind; [| intros ?]
  | |- keeps _ (ret _) => apply keeps_ret
  | |- keeps _ (raise _) => apply keeps_raise
  | |- keeps _ (gets _) => apply keeps_gets
  | |- keeps _ (read_local _ _) => apply keeps_read_local
  | |- keeps _ (when _ _) => apply keeps_when
  | |- keeps _ (try_except _ _) => apply keeps_try_except; [| intros ?]
  | |- keeps _ (try_finally _ _) => apply keeps_try_finally
  | |- keeps _ (for_each _ _) => apply keeps_for_each; intros ?
  | |- keeps _ (modify _) =>
      apply keeps_modify; intros ?; simpl;
      rewrite ?length_alter, ?length_map, ?length_fmap, ?dom_alter_L, ?dom_paint; reflexivity
  | |- keeps _ (match ?x with _ => _ end) => destruct x
  | |- keeps _ (let _ := _ in _) => cbv zeta
  end.

Ltac head_of t :=
  lazymatch t with
  | ?f _ => head_of f
  | _ => t
  end.

(** Unfold the operator function at the head, or settle a host primitive
    (a plain function of the session) by cases. *)
Ltac keeps_open :=
  lazymatch goal with
  | |- keeps _ (fun _ => _) =>
      let w := fresh "w" in
      unfold keeps; intros w; cbv beta; repeat case_match; simpl;
      rewrite ?length_alter, ?length_map, ?length_fmap, ?dom_alter_L, ?dom_paint; reflexivity
  | |- keeps _ ?m => let h := head_of m in progress unfold h
  end.

Ltac keeps_auto :=
  repeat first [ keeps_step | solve [eauto] | keeps_open ].

Lemma bake_loop_keeps {B} (proj : World -> B) props model material entries :
  (forall map_type (bake_method : BakeMethod),
     In bake_method (map snd entries) ->
     keeps proj (bake_map props model material map_type bake_method)) ->
  keeps proj (bake_loop props model material entries).
Proof.
  induction entries as [|[[map_type should_bake] bake_method] entries IH]; intros H; simpl.
  - apply keeps_ret.
  - destruct should_bake; simpl.
    + apply keeps_bind; [apply H; now left | intros [|]].
      * apply IH. intros mt bm Hin. apply H. now right.
      * apply keeps_ret.
    + apply IH. intros mt bm Hin. apply H. now right.
Qed.

Lemma four_methods (P : BakeMethod -> Prop) props :
  P bake_diffuse -> P bake_roughness -> P bake_normal -> P bake_ao ->
  forall bake_method, In bake_method (map snd (map_types props)) -> P bake_method.
Proof.
  intros Hd Hr Hn Ha bm [<-|[<-|[<-|[<-|[]]]]]; assumption.
Qed.

Lemma try_block_keeps_object_count props model material :
  keeps (fun w => length (objects w)) (try_block props model material).
Proof.
  unfold try_block. keeps_step.
  - keeps_step; [keeps_auto|]. keeps_step; [keeps_auto|]. keeps_step; [keeps_auto|].
    keeps_step; [|keeps_auto].
    apply bake_loop_keeps. intros map_type. apply four_methods; keeps_auto.
  - keeps_auto.
Qed.

Section Respects.
Context (R : World -> World -> Prop) `{!PreOrder R}.

Lemma respects_ret {A} (a : A) : respects R (ret a).
Proof. intros w. simpl. reflexivity. Qed.

Lemma respects_raise {A} e : respects R (@raise A e).
Proof. intros w. simpl. reflexivity. Qed.

Lemma respects_gets {A} (f : World -> A) : respects R (gets f).
Proof. intros w. simpl. reflexivity. Qed.

Lemma respects_read_local {A} var (p : Frame -> option A) :
  respects R (read_local var p).
Proof. intros w. unfold read_local. destruct (p (frame w)); simpl; reflexivity. Qed.

Lemma respects_modify (f : World -> World) :
  (forall w, R w (f w)) -> respects R (modify f).
Proof. intros H w. apply H. Qed.

Lemma respects_bind {A C} (m : M A) (k : A -> M C) :
  respects R m -> (forall a, respects R (k a)) -> respects R (bind m k).
Proof.
  intros Hm Hk w. unfold bind. specialize (Hm w).
  destruct (m w) as [[a|e] w1]; simpl in *; [|assumption].
  etransitivity; [exact Hm | apply Hk].
Qed.

Lemma respects_try_except {A} (m : M A) (h : Exn -> M A) :
  respects R m -> (forall e, respects R (h e)) -> respects R (try_except m h).
Proof.
  intros Hm Hh w. unfold try_except. specialize (Hm w).
  destruct (m w) as [[a|e] w1]; simpl in *; [assumption|].
  etransitivity; [exact Hm | apply Hh].
Qed.

Lemma respects_try_finally {A} (m : M A) (f : M unit) :
  respects R m -> respects R f -> respects R (try_finally m f).
Proof.
  intros Hm Hf w. unfold try_finally. specialize (Hm w).
  destruct (m w) as [r w1]. specialize (Hf w1).
  destruct (f w1) as [[u|e] w2]; simpl in *; etransitivity; eassumption.
Qed.

Lemma respects_when b (m : M unit) : respects R m -> respects R (when b m).
Proof. intros Hm. destruct b; [assumption | apply respects_ret]. Qed.

Lemma respects_for_each {A} (l : list A) (body : A -> M unit) :
  (forall x, In x l -> respects R (body x)) -> respects R (for_each l body).
Proof.
  induction l as [|x l IH]; intros Hb; simpl.
  - apply respects_ret.
  - apply respects_bind; [apply Hb; now left | intros _; apply IH].
    intros y Hy. apply Hb. now right.
Qed.

(** A step that leaves alone what [R] looks at. *)
Lemma respects_of_keeps {A B} (proj : World -> B) (m : M A) :
  (forall w w', proj w' = proj w -> R w w') -> keeps proj m -> respects R m.
Proof. intros H Hk w. apply H, Hk. Qed.
End Respects.

Ltac respects_step :=
  lazymatch goal with
  | |- respects _ (bind _ _) => apply respects_bind; [try apply _ | | intros ?]
  | |- respects _ (ret _) => apply respects_ret; try apply _
  | |- respects _ (raise _) => apply respects_raise; try apply _
  | |- respects _ (gets _) => apply respects_gets; try apply _
  | |- respects _ (read_local _ _) => apply respects_read_local; try apply _
  | |- respects _ (when _ _) => apply respects_when; try apply _
  | |- respects _ (try_except _ _) => apply respects_try_except; [try apply _ | | intros ?]
  | |- respects _ (try_finally _ _) => apply respects_try_finally; [try apply _ | | ]
  | |- respects _ (for_each _ _) => apply respects_for_each; [try apply _ | intros ? ?]
  | |- respects _ (match ?x with _ => _ end) => destruct x
  | |- respects _ (let _ := _ in _) => cbv zeta
  end.
(** * Image creation *)

Lemma created_unfold name size map_type w :
  created name size map_type w =
  Some ((if String.eqb map_type "Normal" then
           fun i => set_use_generated_float true
                      (set_colorspace "Non-Color"
                         (set_generated_color (1#2, 1#2, 1, 1)%Q i))
         else if String.eqb map_type "Roughness" || String.eqb map_type "Metallic"
                 || String.eqb map_type "AO" then
           fun i => set_colorspace "Non-Color"
                      (set_generated_color (1#2, 1#2, 1#2, 1)%Q i)
         else
           fun i => set_colorspace "sRGB" (set_generated_color (0, 0, 0, 1)%Q i))
          (new_image size size true)).
Proof.
  unfold created, create_image, images_new, image_update, modify, bind, ret.
  destruct (String.eqb map_type "Normal"); simpl.
  - now rewrite !lookup_alter_eq, lookup_insert_eq.
  - destruct (_ || _); simpl; now rewrite !lookup_alter_eq, lookup_insert_eq.
Qed.

(** C6: [create_image] follows the map-type table: a square buffer with
    alpha; Diffuse is black, sRGB, 8-bit; Roughness and AO are mid-gray,
    Non-Color, 8-bit; Normal is (0.5, 0.5, 1, 1), Non-Color, 32-bit float. *)
Theorem create_image_follows_table (name : string) (size : Z) (w : World) :
  buffer_settings <$> created name size "Diffuse" w
    = Some (size, size, true, (0, 0, 0, 1)%Q, "sRGB", false) /\
  buffer_settings <$> created name size "Roughness" w
    = Some (size, size, true, (1#2, 1#2, 1#2, 1)%Q, "Non-Color", false) /\
  buffer_settings <$> created name size "AO" w
    = Some (size, size, true, (1#2, 1#2, 1#2, 1)%Q, "Non-Color", false) /\
  buffer_settings <$> created name size "Normal" w
    = Some (size, size, true, (1#2, 1#2, 1, 1)%Q, "Non-Color", true).
Proof. rewrite !created_unfold. repeat split. Qed.
(** * Solid-colour detection *)

Lemma guard_passes img :
  has_pixel_data img ->
  negb (has_data img) || (pixels_len img =? 0)%nat
  || (img_width img =? 0)%Z || (img_height img =? 0)%Z = false.
Proof.
  intros (Hd & Hp & Hw & Hh). rewrite Hd. simpl.
  apply Nat.eqb_neq in Hp. apply Z.eqb_neq in Hw. apply Z.eqb_neq in Hh.
  now rewrite Hp, Hw, Hh.
Qed.

Lemma exceeds_tolerance_true a b :
  exceeds_tolerance a b = true <-> (tolerance < Qabs (a - b))%Q.
Proof.
  unfold exceeds_tolerance. rewrite negb_true_iff, <- not_true_iff_false, Qle_bool_iff.
  split; [apply Qnot_le_lt | apply Qlt_not_le].
Qed.

Lemma range_from_In fuel start stop step i :
  In i (range_from fuel start stop step) <->
  exists k, (k < fuel)%nat /\ i = (start + k * step)%nat /\ (i < stop)%nat
            /\ (start < stop)%nat.
Proof.
  revert start. induction fuel as [|fuel IH]; intros start; simpl.
  - split; [tauto | intros (k & Hk & _); lia].
  - destruct (Nat.ltb_spec start stop) as [Hlt|Hge]; simpl.
    + rewrite IH. split.
      * intros [<- | (k & Hk & -> & Hi & Hs)].
        -- exists 0%nat. lia.
        -- exists (S k). lia.
      * intros (k & Hk & -> & Hi & Hs). destruct k as [|k].
        -- left. lia.
        -- right. exists k. nia.
    + split; [tauto | intros (k & _ & _ & _ & Hs); lia].
Qed.

(** [range(channels, len, channels)] is the start index of every pixel
    after the first one. *)
Lemma py_range_pixels channels len i :
  (0 < channels)%nat ->
  In i (py_range channels len channels) <->
  exists p, (1 <= p)%nat /\ i = (p * channels)%nat /\ (i < len)%nat.
Proof.
  intros Hc. unfold py_range. rewrite range_from_In. split.
  - intros (k & Hk & -> & Hi & Hs). exists (S k). lia.
  - intros (p & Hp & -> & Hi). exists (p - 1)%nat. nia.
Qed.

Lemma nth_take_lt (l : list Q) n j : (j < n)%nat -> nth j (take n l) 0%Q = nth j l 0%Q.
Proof. intros H. now rewrite !nth_lookup, lookup_take_lt. Qed.

Lemma nth_take_drop (l : list Q) n i j :
  (j < n)%nat -> nth j (take n (drop i l)) 0%Q = nth (i + j) l 0%Q.
Proof. intros H. now rewrite !nth_lookup, lookup_take_lt, lookup_drop. Qed.

Lemma is_different_true pixels channels p :
  is_different (take channels pixels) (take channels (drop (p * channels) pixels)) channels
    = true <-> pixel_differs_from_first pixels channels p.
Proof.
  unfold is_different, pixel_differs_from_first, channel. rewrite existsb_exists. split.
  - intros (j & Hj & He). apply in_seq in Hj.
    rewrite nth_take_lt, nth_take_drop in He by lia.
    apply exceeds_tolerance_true in He. exists j. split; [lia | exact He].
  - intros (j & Hj & He). exists j. split; [apply in_seq; lia |].
    rewrite nth_take_lt, nth_take_drop by lia.
    now apply exceeds_tolerance_true.
Qed.

Lemma first_pixel_matches_itself (a : Q) : ~ (tolerance < Qabs (a - a))%Q.
Proof.
  intros H. assert (Hz : (Qabs (a - a) == 0)%Q).
  { rewrite (Qabs_wd (a - a) 0); [reflexivity | ring]. }
  rewrite Hz in H. unfold Qlt, tolerance in H. simpl in H. lia.
Qed.

Lemma forallb_false {A} (f : A -> bool) (l : list A) :
  forallb f l = false <-> exists x, In x l /\ f x = false.
Proof.
  induction l as [|a l IH]; simpl.
  - split; [discriminate | intros (x & [] & _)].
  - rewrite andb_false_iff, IH. split.
    + intros [H | (x & Hin & Hx)]; [exists a | exists x]; tauto.
    + intros (x & [-> | Hin] & Hx); [now left | right; now exists x].
Qed.

Lemma compare_pixels_false pixels channels :
  (0 < channels)%nat ->
  compare_pixels pixels channels = false <->
  exists p, complete pixels channels p /\ pixel_differs_from_first pixels channels p.
Proof.
  intros Hc. unfold compare_pixels, complete.
  rewrite forallb_false. split.
  - intros (i & Hin & Hi).
    apply py_range_pixels in Hin as (p & Hp & -> & Hlt); [|exact Hc].
    rewrite length_take, length_drop in Hi.
    destruct (Nat.eqb_spec (channels `min` (length pixels - p * channels)) channels) as [He|He];
      simpl in Hi; [|discriminate].
    exists p. split; [lia|]. apply is_different_true.
    now apply negb_false_iff.
  - intros (p & Hcomp & Hdiff).
    destruct (Nat.eq_dec p 0) as [->|Hp].
    + destruct Hdiff as (j & Hj & Hd).
      now apply first_pixel_matches_itself in Hd.
    + exists (p * channels)%nat. split.
      * apply py_range_pixels; [exact Hc|]. exists p. split; [lia|]. split; [reflexivity|]. nia.
      * rewrite length_take, length_drop.
        replace (channels `min` (length pixels - p * channels))%nat with channels by lia.
        rewrite Nat.eqb_refl. simpl.
        apply is_different_true in Hdiff. now rewrite Hdiff.
Qed.

Lemma differs_or_matches pixels channels p :
  pixel_matches_first pixels channels p <-> ~ pixel_differs_from_first pixels channels p.
Proof.
  unfold pixel_matches_first, pixel_differs_from_first. split.
  - intros Hm (j & Hj & Hd). specialize (Hm j Hj). now apply Qlt_not_le in Hd.
  - intros Hn j Hj. apply Qnot_lt_le. intros Hd. apply Hn. now exists j.
Qed.

(** The scan of an image that passed the guard and whose pixels were
    copied: [false] exactly when some complete pixel differs. *)
Lemma solid_color_scan img pixels :
  has_pixel_data img -> pixels_copy img = CopyOk pixels ->
  is_image_solid_color img = false <->
  exists p, complete pixels (img_channels img) p /\
            pixel_differs_from_first pixels (img_channels img) p.
Proof.
  intros Hg Hc. unfold is_image_solid_color, copy_pixels.
  rewrite (guard_passes _ Hg), Hc.
  destruct (Nat.eqb_spec (length pixels) 0) as [Hl|Hl].
  - split; [discriminate|]. intros (p & Hcomp & j & Hj & _).
    unfold complete in Hcomp. nia.
  - destruct (Nat.eqb_spec (img_channels img) 0) as [H0|H0].
    + split; [discriminate|]. intros (p & _ & j & Hj & _). lia.
    + apply compare_pixels_false. lia.
Qed.

Lemma warn_if_solid_Normal w name img :
  images w !! name = Some img ->
  warn_if_solid "Normal" name w
  = (Ok tt, if is_image_solid_color img
            then set_reports (fun r => r ++ [(WARNING, solid_warning name)]) w
            else w).
Proof.
  intros H. unfold warn_if_solid. simpl.
  unfold bind, image_get. rewrite H.
  now destruct (is_image_solid_color img).
Qed.

(** C10: [is_image_solid_color] is [False], and no solid-colour warning is
    raised, for an image without pixel data, with zero width or height, or
    whose pixel copy raises; behind the guard it is [True] for an empty
    copied list and for a channel count of 0. *)
Theorem solid_color_edge_cases (img : Image) :
  (has_data img = false \/ pixels_len img = 0%nat \/
   img_width img = 0%Z \/ img_height img = 0%Z ->
   is_image_solid_color img = false) /\
  (forall msg, pixels_copy img = CopyFails msg -> is_image_solid_color img = false) /\
  (is_image_solid_color img = false ->
   forall w name, images w !! name = Some img ->
     warn_if_solid "Normal" name w = (Ok tt, w)) /\
  (has_pixel_data img -> pixels_copy img = CopyOk [] ->
   is_image_solid_color img = true) /\
  (has_pixel_data img -> forall pixels, pixels_copy img = CopyOk pixels ->
   img_channels img = 0%nat -> is_image_solid_color img = true).
Proof.
  repeat split.
  - unfold is_image_solid_color. intros [H | [H | [H | H]]]; rewrite H; simpl;
      rewrite ?orb_true_r; reflexivity.
  - intros msg H. unfold is_image_solid_color, copy_pixels. rewrite H.
    now destruct (_ || _).
  - intros H w name Hn. rewrite (warn_if_solid_Normal _ _ _ Hn). now rewrite H.
  - intros Hg Hc. unfold is_image_solid_color, copy_pixels.
    now rewrite (guard_passes _ Hg), Hc.
  - intros Hg pixels Hc H0. unfold is_image_solid_color, copy_pixels.
    rewrite (guard_passes _ Hg), Hc, H0. simpl. now destruct (_ =? _)%nat.
Qed.

(** C7: for an image with pixel data, [is_image_solid_color] is [True]
    when every channel of every pixel is within 0.01 of the first pixel's,
    and [False] when some pixel differs from the first by more than 0.01
    in some channel; a [True] result after a Normal bake adds a warning
    to the reports and the loop goes on. *)
Theorem solid_color_detection (img : Image) (pixels : list Q) :
  has_pixel_data img -> pixels_copy img = CopyOk pixels ->
  ((forall p, complete pixels (img_channels img) p ->
              pixel_matches_first pixels (img_channels img) p) ->
   is_image_solid_color img = true) /\
  ((exists p, complete pixels (img_channels img) p /\
              pixel_differs_from_first pixels (img_channels img) p) ->
   is_image_solid_color img = false) /\
  (is_image_solid_color img = true ->
   forall props model material (bake_method : BakeMethod) w name w1 w2,
     allocate_buffer props model "Normal" (snd (assign_image None w)) = (Ok name, w1) ->
     bake_method name "Normal" material w1 = (Ok tt, w2) ->
     images w2 !! name = Some img ->
     bake_map props model material "Normal" bake_method w
     = (Ok true, set_reports (fun r => r ++ [(WARNING, solid_warning name)]) w2)).
Proof.
  intros Hg Hc. pose proof (solid_color_scan img pixels Hg Hc) as Hscan.
  repeat split.
  - intros Hall. apply not_false_iff_true. intros Hf.
    apply Hscan in Hf as (p & Hcomp & Hdiff).
    now apply (differs_or_matches pixels (img_channels img) p) in Hdiff; [|apply Hall].
  - intros H. now apply Hscan.
  - intros Hs props model material bake_method w name w1 w2 Ha Hb Hi.
    unfold bake_map, try_except, bind at 1. simpl in *.
    unfold bind at 1. rewrite Ha.
    unfold bind at 1. rewrite Hb.
    unfold bind at 1. rewrite (warn_if_solid_Normal _ _ _ Hi), Hs. reflexivity.
Qed.

Lemma ensure_active_uv_run model r k w o :
  objects w !! model = Some o ->
  ensure_active_uv model r k w
  = k (match uv_active o with
       | Some _ => w
       | None => set_objects (alter (set_uv_active (Some r)) model) w
       end).
Proof.
  intros Ho. unfold ensure_active_uv, bind, obj_get. rewrite Ho.
  destruct (uv_active o); reflexivity.
Qed.

Lemma validate_to_uv w model o first_layer rest :
  active_object w = Some model -> objects w !! model = Some o ->
  obj_type o = "MESH" -> uv_layers o = first_layer :: rest ->
  validateRequirements w
  = let w1 := set_reports (fun r => r ++ multi_selection_warning w) w in
    match find_render_layer (uv_layers o) with
    | Some r => ensure_active_uv model r (validate_material model) w1
    | None =>
        ensure_active_uv model 0 (validate_material model)
          (set_reports (fun r => r ++ [promotion_warning o first_layer])
             (set_objects (alter (set_uv_layers (alter (set_active_render true) 0%nat)) model) w1))
    end.
Proof.
  intros Ha Ho Ht Hu.
  cbv beta delta [validateRequirements bind gets obj_get when report modify
                  try_except uv_set_active_render obj_update ret].
  rewrite Ha, Ho, Ht. change (negb ("MESH" =? "MESH")%string) with false. cbv iota beta.
  unfold multi_selection_warning.
  destruct (1 <? length (selected_objects w))%nat; rewrite Hu; simpl.
  - destruct (if active_render first_layer then _ else _); reflexivity.
  - destruct (if active_render first_layer then _ else _).
    + f_equal. destruct w; unfold set_reports; simpl. now rewrite app_nil_r.
    + f_equal. destruct w; unfold set_reports, set_objects; simpl. now rewrite app_nil_r.
Qed.

Lemma scan_principled_last ns :
  scan_principled ns = last (List.filter is_principled ns).
Proof.
  unfold scan_principled.
  enough (H : forall acc, fold_left (fun principled_node node =>
               if String.eqb (node_type node) "BSDF_PRINCIPLED" then Some node
               else principled_node) ns acc
             = match last (List.filter is_principled ns) with
               | Some n => Some n
               | None => acc
               end).
  { rewrite H. now destruct (last _). }
  induction ns as [|n ns IH]; intros acc; simpl; [reflexivity|].
  rewrite IH. unfold is_principled at 2.
  destruct (String.eqb (node_type n) "BSDF_PRINCIPLED"); [|reflexivity].
  rewrite last_cons. now destruct (last _).
Qed.

Lemma validate_material_run w model o :
  objects w !! model = Some o ->
  validate_material model w =
  match obj_active_material o with
  | None =>
      (Ok ReqCancelled,
       set_reports (fun r => r ++ [(ERROR, "Model '" +:+ obj_name o
                                           +:+ "' has no active material.")]) w)
  | Some material =>
      match materials w !! material with
      | None => (Exc (ReferenceError "material has been removed"), w)
      | Some m =>
          if negb (use_nodes m) then
            (Ok ReqCancelled,
             set_reports (fun r => r ++ [(ERROR, "Active material '" +:+ mat_name m
                                   +:+ "' on '" +:+ obj_name o
                                   +:+ "' must have nodes enabled.")]) w)
          else
            match last (List.filter is_principled (nodes m)) with
            | None =>
                (Ok ReqCancelled,
                 set_reports (fun r => r ++ [(ERROR, "Active material '" +:+ mat_name m
                                   +:+ "' must contain a Principled BSDF node.")]) w)
            | Some principled_node =>
                (Ok (ReqFinished {| v_model := model; v_material := material;
                                    v_principled_node := principled_node |}), w)
            end
      end
  end.
Proof.
  intros Ho. unfold validate_material, bind, obj_get, mat_get. rewrite Ho.
  destruct (obj_active_material o) as [material|]; [|reflexivity].
  destruct (materials w !! material) as [m|]; [|reflexivity].
  destruct (use_nodes m); simpl; [|reflexivity].
  rewrite scan_principled_last. now destruct (last _).
Qed.

(** What the UV stage (lines 228-277) hands to the material checks. *)
Lemma validate_uv_stage w model o first_layer rest :
  active_object w = Some model -> objects w !! model = Some o ->
  obj_type o = "MESH" -> uv_layers o = first_layer :: rest ->
  exists w1 o1 warnings,
    validateRequirements w = validate_material model w1 /\
    objects w1 !! model = Some o1 /\
    obj_name o1 = obj_name o /\
    obj_active_material o1 = obj_active_material o /\
    materials w1 = materials w /\
    reports w1 = reports w ++ warnings /\
    Forall is_warning warnings /\
    (find_render_layer (uv_layers o) = None ->
     uv_layers o1 = set_active_render true first_layer :: rest /\
     warnings = multi_selection_warning w ++ [promotion_warning o first_layer]).
Proof.
  intros Ha Ho Ht Hu. rewrite (validate_to_uv _ _ _ _ _ Ha Ho Ht Hu). cbv zeta.
  assert (Hm : Forall is_warning (multi_selection_warning w)).
  { unfold multi_selection_warning. destruct (_ <? _)%nat; repeat constructor. }
  assert (Hw : Forall is_warning
                 (multi_selection_warning w ++ [promotion_warning o first_layer])).
  { apply Forall_app. split; [exact Hm | repeat constructor]. }
  destruct (find_render_layer (uv_layers o)) as [r|] eqn:Hf.
  - erewrite ensure_active_uv_run by (simpl; exact Ho).
    destruct (uv_active o) eqn:Hua.
    + exists (set_reports (fun r => r ++ multi_selection_warning w) w), o,
        (multi_selection_warning w).
      split_and!; try first [reflexivity | assumption | discriminate].
    + eexists _, _, (multi_selection_warning w). split; [reflexivity|]. simpl.
      rewrite list_lookup_alter_eq, Ho. simpl.
      split_and!; try first [reflexivity | assumption | discriminate].
  - erewrite ensure_active_uv_run
      by (simpl; rewrite list_lookup_alter_eq, Ho; reflexivity).
    simpl.
    destruct (uv_active o) eqn:Hua.
    + eexists _, _, _. split; [reflexivity|]. simpl.
      rewrite list_lookup_alter_eq, Ho. simpl.
      split_and!; try first [reflexivity | exact Hw].
      * now rewrite <- app_assoc.
      * intros _. simpl. now rewrite Hu.
    + eexists _, _, _. split; [reflexivity|]. simpl.
      rewrite list_lookup_alter_eq, list_lookup_alter_eq, Ho. simpl.
      split_and!; try first [reflexivity | exact Hw].
      * now rewrite <- app_assoc.
      * intros _. simpl. now rewrite Hu.
Qed.

Lemma cancelled_after_uv w w1 warnings msg :
  validateRequirements w
  = (Ok ReqCancelled, set_reports (fun r => r ++ [(ERROR, msg)]) w1) ->
  reports w1 = reports w ++ warnings -> Forall is_warning warnings ->
  cancelled_with w msg.
Proof.
  intros Hv Hr Hw. eexists _, warnings. split; [exact Hv|]. split; [|exact Hw].
  simpl. now rewrite Hr, <- app_assoc.
Qed.

Lemma validate_no_active w :
  active_object w = None ->
  validateRequirements w
  = (Ok ReqCancelled, set_reports (fun r => r ++ [(ERROR, "No active object selected.")]) w).
Proof.
  intros Ha. cbv beta delta [validateRequirements bind gets report modify ret].
  now rewrite Ha.
Qed.

Lemma validate_not_mesh w model o :
  active_object w = Some model -> objects w !! model = Some o -> obj_type o <> "MESH" ->
  validateRequirements w
  = (Ok ReqCancelled,
     set_reports (fun r => r ++ [(ERROR, "Active object '" +:+ obj_name o
                                         +:+ "' is not a Mesh.")]) w).
Proof.
  intros Ha Ho Ht.
  cbv beta delta [validateRequirements bind gets obj_get report modify ret].
  rewrite Ha, Ho. apply String.eqb_neq in Ht. now rewrite Ht.
Qed.

Lemma validate_no_uv w model o :
  active_object w = Some model -> objects w !! model = Some o -> obj_type o = "MESH" ->
  uv_layers o = [] ->
  validateRequirements w
  = (Ok ReqCancelled,
     set_reports (fun r => r ++ [(ERROR, "Model '" +:+ obj_name o +:+ "' has no UV maps.")])
       (set_reports (fun r => r ++ multi_selection_warning w) w)).
Proof.
  intros Ha Ho Ht Hu.
  cbv beta delta [validateRequirements bind gets obj_get when report modify ret].
  rewrite Ha, Ho, Ht, Hu. change (negb ("MESH" =? "MESH")%string) with false.
  cbv iota beta. unfold multi_selection_warning.
  destruct (1 <? length (selected_objects w))%nat eqn:E; [reflexivity|].
  f_equal. destruct w; unfold set_reports; simpl. now rewrite app_nil_r.
Qed.

Lemma multi_selection_is_warning w : Forall is_warning (multi_selection_warning w).
Proof. unfold multi_selection_warning. destruct (_ <? _)%nat; repeat constructor. Qed.

(** C8: [validateRequirements] checks, in this order, for an active mesh
    object, a UV layer, an active material, enabled nodes and a Principled
    BSDF node; the first failing check cancels with its error and later
    checks are not consulted.  With several Principled BSDF nodes the last
    one in the node list is returned, without an error. *)
Theorem validation_order (w : World) :
  (active_object w = None -> cancelled_with w "No active object selected.") /\
  (forall model o,
     active_object w = Some model -> objects w !! model = Some o ->
     (obj_type o <> "MESH" ->
      cancelled_with w ("Active object '" +:+ obj_name o +:+ "' is not a Mesh.")) /\
     (obj_type o = "MESH" ->
      (uv_layers o = [] ->
       cancelled_with w ("Model '" +:+ obj_name o +:+ "' has no UV maps.")) /\
      (uv_layers o <> [] ->
       (obj_active_material o = None ->
        cancelled_with w ("Model '" +:+ obj_name o +:+ "' has no active material.")) /\
       (forall material m,
          obj_active_material o = Some material -> materials w !! material = Some m ->
          (use_nodes m = false ->
           cancelled_with w ("Active material '" +:+ mat_name m +:+ "' on '"
                             +:+ obj_name o +:+ "' must have nodes enabled.")) /\
          (use_nodes m = true ->
           (List.filter is_principled (nodes m) = [] ->
            cancelled_with w ("Active material '" +:+ mat_name m
                              +:+ "' must contain a Principled BSDF node.")) /\
           (forall principled_node,
              last (List.filter is_principled (nodes m)) = Some principled_node ->
              finished_with w {| v_model := model; v_material := material;
                                 v_principled_node := principled_node |})))))).
Proof.
  split.
  { intros Ha. apply (cancelled_after_uv w w []); [|now rewrite app_nil_r|constructor].
    now apply validate_no_active. }
  intros model o Ha Ho. split.
  { intros Ht. apply (cancelled_after_uv w w []); [|now rewrite app_nil_r|constructor].
    now apply (validate_not_mesh w model o). }
  intros Ht. split.
  { intros Hu.
    apply (cancelled_after_uv w (set_reports (fun r => r ++ multi_selection_warning w) w)
             (multi_selection_warning w)); [|reflexivity|apply multi_selection_is_warning].
    now apply (validate_no_uv w model o). }
  intros Hu. destruct (uv_layers o) as [|first_layer rest] eqn:Hl; [congruence|].
  destruct (validate_uv_stage w model o first_layer rest Ha Ho Ht Hl)
    as (w1 & o1 & warnings & Hv & Ho1 & Hn & Hm & Hmat & Hr & Hw & _).
  rewrite (validate_material_run _ _ _ Ho1), Hm, Hn, Hmat in Hv.
  split.
  { intros Hnone. rewrite Hnone in Hv. eapply cancelled_after_uv; eauto. }
  intros material m Hsome Hmm. rewrite Hsome, Hmm in Hv. split.
  { intros Hun. rewrite Hun in Hv. simpl in Hv. eapply cancelled_after_uv; eauto. }
  intros Hun. rewrite Hun in Hv. simpl in Hv. split.
  { intros Hnil. rewrite Hnil in Hv. simpl in Hv. eapply cancelled_after_uv; eauto. }
  intros n Hlast. rewrite Hlast in Hv. now exists w1, warnings.
Qed.

Lemma find_render_layer_none layers :
  Forall (fun l => active_render l = false) layers -> find_render_layer layers = None.
Proof.
  induction 1 as [|l layers Hl _ IH]; simpl; [reflexivity|]. now rewrite Hl, IH.
Qed.

Lemma filter_unmarked layers :
  Forall (fun l => active_render l = false) layers -> List.filter active_render layers = [].
Proof.
  induction 1 as [|l layers Hl _ IH]; simpl; [reflexivity|]. now rewrite Hl.
Qed.

Lemma validate_material_keeps_objects model : keeps objects (validate_material model).
Proof. keeps_auto. Qed.

(** C9: when the mesh has UV layers but none is marked active-for-render,
    validation marks the first layer, reports a warning (no error), and
    goes on to the material checks; afterwards exactly one layer is
    marked. *)
Theorem uv_promotion (w : World) (model : nat) (o : Object)
    (first_layer : UVLayer) (rest : list UVLayer) :
  active_object w = Some model -> objects w !! model = Some o ->
  obj_type o = "MESH" -> uv_layers o = first_layer :: rest ->
  Forall (fun l => active_render l = false) (uv_layers o) ->
  exists w1 o1,
    validateRequirements w = validate_material model w1 /\
    reports w1 = reports w ++ multi_selection_warning w
                 ++ [promotion_warning o first_layer] /\
    materials w1 = materials w /\
    obj_active_material o1 = obj_active_material o /\
    objects (snd (validateRequirements w)) !! model = Some o1 /\
    uv_layers o1 = set_active_render true first_layer :: rest /\
    length (List.filter active_render (uv_layers o1)) = 1%nat.
Proof.
  intros Ha Ho Ht Hu Hall.
  destruct (validate_uv_stage w model o first_layer rest Ha Ho Ht Hu)
    as (w1 & o1 & warnings & Hv & Ho1 & Hn & Hm & Hmat & Hr & Hw & Hp).
  destruct (Hp (find_render_layer_none _ Hall)) as [Hl ->].
  exists w1, o1. split_and!; try assumption.
  - rewrite Hv, validate_material_keeps_objects. exact Ho1.
  - rewrite Hl. simpl. rewrite Hu in Hall. inversion Hall; subst.
    now rewrite filter_unmarked.
Qed.

(** * The session is restored *)

Lemma flags_alter (f : Object -> Object) i (l : list Object) :
  (forall o, obj_selected (f o) = obj_selected o) ->
  obj_selected <$> alter f i l = obj_selected <$> l.
Proof.
  intros Hf. revert i. induction l as [|o l IH]; intros [|i]; simpl; try reflexivity.
  - now rewrite Hf.
  - f_equal. apply IH.
Qed.

Lemma is_selected_flags objs i :
  is_selected objs i = default false ((obj_selected <$> objs) !! i).
Proof. unfold is_selected. rewrite list_lookup_fmap. now destruct (objs !! i). Qed.

Lemma selected_objects_flags w w' :
  selection_flags w' = selection_flags w -> selected_objects w' = selected_objects w.
Proof.
  unfold selection_flags, selected_objects. intros H.
  assert (Hl : length (objects w') = length (objects w)).
  { rewrite <- (length_fmap obj_selected (objects w')), H. apply length_fmap. }
  rewrite Hl. apply filter_ext. intros i. now rewrite !is_selected_flags, H.
Qed.

Lemma validate_keeps_scene : keeps scene validateRequirements.
Proof. keeps_auto. Qed.

Lemma validate_keeps_active : keeps active validateRequirements.
Proof. keeps_auto. Qed.

Lemma validate_keeps_flags : keeps selection_flags validateRequirements.
Proof.
  assert (H : forall model f, (forall o, obj_selected (f o) = obj_selected o) ->
                              keeps selection_flags (obj_update model f)).
  { intros model f Hf w. unfold selection_flags. simpl. now apply flags_alter. }
  unfold validateRequirements, ensure_active_uv, uv_set_active_render.
  repeat first [ keeps_step | apply H; reflexivity
               | lazymatch goal with
                 | |- keeps _ (obj_update _ _) => fail 1
                 | _ => keeps_open
                 end ].
Qed.

Lemma name_in_view_layer w i o :
  objects w !! i = Some o ->
  existsb (fun o' => String.eqb (obj_name o') (obj_name o)) (objects w) = true.
Proof.
  intros H. apply existsb_exists. exists o. split; [|apply String.eqb_refl].
  apply list_elem_of_In, list_elem_of_lookup. now exists i.
Qed.

Lemma reselect_run w obj o :
  objects w !! obj = Some o ->
  reselect obj w = (Ok tt, set_objects (alter (set_selected true) obj) w).
Proof.
  intros H.
  cbv beta iota delta [reselect bind gets in_view_layer when select_set obj_update
                       modify id].
  rewrite H. cbv iota beta. now rewrite (name_in_view_layer _ _ _ H).
Qed.

Lemma select_many_length S l : length (select_many S l) = length l.
Proof.
  revert l. induction S as [|i S IH]; intros l; simpl; [reflexivity|].
  unfold select_many in IH. now rewrite IH, length_alter.
Qed.

Lemma reselect_loop_run S w :
  (forall i, In i S -> (i < length (objects w))%nat) ->
  for_each S reselect w = (Ok tt, set_objects (select_many S) w).
Proof.
  revert w. induction S as [|i S IH]; intros w H; simpl.
  - unfold ret. f_equal. now destruct w.
  - destruct (lookup_lt_is_Some_2 (objects w) i (H i (or_introl eq_refl))) as [o Ho].
    rewrite (bind_Ok _ _ _ _ _ (reselect_run _ _ _ Ho)), IH; [reflexivity|].
    intros j Hj. simpl. rewrite length_alter. apply H. now right.
Qed.

Lemma select_many_lookup S (l : list Object) i :
  select_many S l !! i
  = (if existsb (Nat.eqb i) S then set_selected true else id) <$> l !! i.
Proof.
  revert l. induction S as [|j S IH]; intros l; simpl.
  - now destruct (l !! i).
  - unfold select_many in *. simpl. rewrite IH.
    destruct (Nat.eqb_spec i j) as [->|Hne]; simpl.
    + rewrite list_lookup_alter_eq. destruct (l !! j); simpl; [|reflexivity].
      now destruct (existsb _ S).
    + now rewrite list_lookup_alter_ne by congruence.
Qed.

Lemma existsb_filter_seq (p : nat -> bool) n i :
  existsb (Nat.eqb i) (List.filter p (seq 0 n)) = p i && (i <? n)%nat.
Proof.
  destruct (existsb _ _) eqn:E.
  - apply existsb_exists in E as (j & Hj & He). apply Nat.eqb_eq in He as <-.
    apply filter_In in Hj as [Hs Hp]. apply in_seq in Hs.
    rewrite Hp. symmetry. apply Nat.ltb_lt. lia.
  - symmetry. apply not_true_iff_false. intros H.
    apply andb_true_iff in H as [Hp Hlt]. apply Nat.ltb_lt in Hlt.
    apply not_true_iff_false in E. apply E. apply existsb_exists. exists i.
    split; [|apply Nat.eqb_refl]. apply filter_In. split; [apply in_seq; lia | exact Hp].
Qed.

(** Deselecting everything and reselecting the objects that were selected
    in [objs0] gives back the selection of [objs0]. *)
Lemma reselect_restores_flags (objs0 objs : list Object) :
  length objs = length objs0 ->
  obj_selected <$>
    select_many (List.filter (is_selected objs0) (seq 0 (length objs0)))
                (map (set_selected false) objs)
  = obj_selected <$> objs0.
Proof.
  intros Hl. apply list_eq. intros i.
  rewrite !list_lookup_fmap, select_many_lookup, existsb_filter_seq.
  change (map (set_selected false) objs) with (set_selected false <$> objs).
  rewrite list_lookup_fmap. unfold is_selected.
  destruct (objs0 !! i) as [o0|] eqn:E0.
  - apply lookup_lt_Some in E0 as Hlt.
    destruct (lookup_lt_is_Some_2 objs i) as [o Ho]; [lia|]. rewrite Ho. simpl.
    apply Nat.ltb_lt in Hlt. rewrite Hlt, andb_true_r. now destruct (obj_selected o0).
  - apply lookup_ge_None in E0. rewrite (proj2 (lookup_ge_None objs i)) by lia.
    reflexivity.
Qed.

Lemma restore_settings_run s w :
  (forall i, In i (original_selected_objects s) -> (i < length (objects w))%nat) ->
  (forall a, original_active_object s = Some a -> (a < length (objects w))%nat) ->
  exists w',
    restore_settings s w = (Ok tt, w') /\
    engine (scene w') = original_engine s /\
    samples (scene w') = original_render_samples s /\
    use_selected_to_active (scene w') = original_use_selected_to_active s /\
    objects w' = select_many (original_selected_objects s)
                             (map (set_selected false) (objects w)) /\
    active w' = match original_active_object s with
                | Some a => Some a
                | None => active w
                end /\
    frame w' = frame w /\ reports w' = reports w /\ images w' = images w /\
    fs_files w' = fs_files w /\ bake_log w' = bake_log w /\ host w' = host w /\
    materials w' = materials w.
Proof.
  intros HS Ha. unfold restore_settings.
  cbv beta iota delta [bind modify select_all_deselect].
  rewrite reselect_loop_run by (simpl; rewrite length_map; exact HS).
  destruct (original_active_object s) as [a|] eqn:Ea; simpl.
  - cbv beta iota delta [bind gets in_view_layer when modify id].
    destruct (lookup_lt_is_Some_2
                (select_many (original_selected_objects s)
                   (map (set_selected false) (objects w))) a) as [o Ho].
    { rewrite select_many_length, length_map. now apply Ha. }
    cbn [objects set_objects set_scene]. rewrite Ho.
    rewrite (name_in_view_layer (set_objects _ _) a o) by exact Ho.
    eexists. split; [reflexivity|]. simpl. tauto.
  - eexists. split; [reflexivity|]. simpl. tauto.
Qed.

Lemma execute_run w :
  execute w =
  let w0 := set_frame (fun _ => empty_frame) w in
  match validateRequirements w0 with
  | (Ok ReqCancelled, w1) => (Ok CANCELLED, w1)
  | (Ok (ReqFinished v), w1) =>
      finally_block (take_snapshot w1)
        (snd (try_block (get_props w0) (v_model v) (v_material v) w1))
  | (Exc e, w1) => (Exc e, w1)
  end.
Proof.
  cbv beta iota zeta delta [execute bind modify gets ret].
  destruct (validateRequirements _) as [[[|v]|e] w1]; try reflexivity.
  now destruct (try_block _ _ _ w1).
Qed.

Lemma validate_finished_active w v w1 :
  validateRequirements w = (Ok (ReqFinished v), w1) ->
  exists a, active w = Some a /\ (a < length (objects w))%nat.
Proof.
  intros Hv. destruct (active_object w) as [a|] eqn:Ea.
  - unfold active_object in Ea. destruct (active w) as [a'|]; [|discriminate].
    destruct (objects w !! a') eqn:Eo; [|discriminate].
    exists a'. split; [reflexivity|]. now apply lookup_lt_Some in Eo.
  - cbv beta iota delta [validateRequirements bind gets report modify ret] in Hv.
    rewrite Ea in Hv. discriminate.
Qed.

Lemma cleanup_keeps_objects : keeps objects cleanup_images.
Proof. keeps_auto. Qed.

Lemma cleanup_keeps_scene : keeps scene cleanup_images.
Proof. keeps_auto. Qed.

Lemma final_report_keeps_scene : keeps scene final_report.
Proof. keeps_auto. Qed.

Lemma final_report_keeps_objects : keeps objects final_report.
Proof. keeps_auto. Qed.

Lemma final_report_keeps_active : keeps active final_report.
Proof. keeps_auto. Qed.

(** Whatever [execute] returns, the snapshot has been put back. *)
Lemma restored_after_return (w w' : World) (status : Status) :
  execute w = (Ok status, w') ->
  engine (scene w') = engine (scene w) /\
  samples (scene w') = samples (scene w) /\
  use_selected_to_active (scene w') = use_selected_to_active (scene w) /\
  selected_objects w' = selected_objects w /\
  active w' = active w.
Proof.
  rewrite execute_run. cbv zeta.
  pose proof (validate_keeps_scene (set_frame (fun _ => empty_frame) w)) as Hsc.
  pose proof (validate_keeps_active (set_frame (fun _ => empty_frame) w)) as Hac.
  pose proof (validate_keeps_flags (set_frame (fun _ => empty_frame) w)) as Hfl.
  destruct (validateRequirements _) as [[[|v]|e] w1] eqn:Hv;
    unfold selection_flags in Hfl; simpl in Hsc, Hac, Hfl; [| |discriminate].
  - intros [= <- <-]. rewrite Hsc, Hac. split_and!; try reflexivity.
    now apply selected_objects_flags.
  - intros Hfin. unfold finally_block in Hfin.
    apply bind_inv_Ok in Hfin as ([] & w3 & Hclean & Hfin).
    apply bind_inv_Ok in Hfin as ([] & w4 & Hrest & Hfin).
    assert (Hlen : length (objects w3) = length (objects w1)).
    { pose proof (cleanup_keeps_objects
                    (snd (try_block (get_props (set_frame (fun _ => empty_frame) w))
                            (v_model v) (v_material v) w1))) as H3.
      rewrite Hclean in H3. simpl in H3.
      rewrite H3. apply (try_block_keeps_object_count _ _ _ w1). }
    destruct (validate_finished_active _ _ _ Hv) as (a & Ha & Halt).
    simpl in Ha, Halt.
    assert (Hlen0 : length (objects w1) = length (objects w)).
    { rewrite <- (length_fmap obj_selected (objects w1)), Hfl. apply length_fmap. }
    destruct (restore_settings_run (take_snapshot w1) w3)
      as (w4' & Hrun & He & Hs & Hu & Ho & Hact & _).
    { simpl. intros i Hi. unfold selected_objects in Hi.
      apply filter_In in Hi as [Hi _]. apply in_seq in Hi. lia. }
    { simpl. intros a' Ha'. rewrite Hac, Ha in Ha'. injection Ha' as <-. lia. }
    rewrite Hrun in Hrest. injection Hrest as <-.
    pose proof (final_report_keeps_scene w4') as Fs.
    pose proof (final_report_keeps_objects w4') as Fo.
    pose proof (final_report_keeps_active w4') as Fa.
    rewrite Hfin in Fs, Fo, Fa. simpl in *.
    rewrite Fs, Fa, He, Hs, Hu, Hact, Hsc, Hac, Ha.
    split_and!; try reflexivity.
    apply selected_objects_flags. unfold selection_flags.
    rewrite Fo, Ho. unfold selected_objects.
    rewrite (reselect_restores_flags (objects w1) (objects w3) Hlen). exact Hfl.
Qed.

(** * A failed bake stops the run *)

#[global] Instance log_within_preorder allowed : PreOrder (log_within allowed).
Proof.
  split.
  - intros w. exists []. split; [now rewrite app_nil_r | intros bt []].
  - intros w1 w2 w3 (l1 & H1 & A1) (l2 & H2 & A2). exists (l1 ++ l2). split.
    + now rewrite H2, H1, app_assoc.
    + intros bt Hin. apply in_app_or in Hin as [Hin|Hin]; auto.
Qed.

Lemma log_within_keeps allowed w w' : bake_log w' = bake_log w -> log_within allowed w w'.
Proof. intros H. exists []. split; [now rewrite app_nil_r | intros bt []]. Qed.

Lemma log_within_mono allowed allowed' w w' :
  (forall bt, In bt allowed -> In bt allowed') ->
  log_within allowed w w' -> log_within allowed' w w'.
Proof. intros Hsub (l & Hl & Ha). exists l. split; [exact Hl | auto]. Qed.

Lemma bake_respects_log allowed bake_type :
  In bake_type allowed -> respects (log_within allowed) (bpy_ops_object_bake bake_type).
Proof.
  intros Hin w. exists [bake_type]. split.
  - unfold bpy_ops_object_bake. repeat case_match; reflexivity.
  - intros bt [<-|[]]. exact Hin.
Qed.

Ltac log_leaf :=
  first [ apply bake_respects_log; simpl; tauto
        | apply (respects_of_keeps _ bake_log);
          [intros ? ?; apply log_within_keeps | solve [keeps_auto]] ].

Ltac log_open :=
  lazymatch goal with
  | |- respects _ ?m => let h := head_of m in progress unfold h
  end.

Ltac log_auto := repeat first [ respects_step | log_leaf | log_open ].

Lemma bake_diffuse_log img mt mat : respects (log_within ["DIFFUSE"]) (bake_diffuse img mt mat).
Proof. log_auto. Qed.
Lemma bake_roughness_log img mt mat : respects (log_within ["ROUGHNESS"]) (bake_roughness img mt mat).
Proof. log_auto. Qed.
Lemma bake_normal_log img mt mat : respects (log_within ["NORMAL"]) (bake_normal img mt mat).
Proof. log_auto. Qed.
Lemma bake_ao_log img mt mat : respects (log_within ["AO"]) (bake_ao img mt mat).
Proof. log_auto. Qed.

Lemma bind_inv_Ok_keeps {A B C} (proj : World -> C) (m : M A) (k : A -> M B) w b w' :
  keeps proj m -> bind m k w = (Ok b, w') ->
  exists a w1, proj w1 = proj w /\ k a w1 = (Ok b, w').
Proof.
  intros Hk H. apply bind_inv_Ok in H as (a & w1 & Hm & H).
  exists a, w1. split; [|exact H]. specialize (Hk w). now rewrite Hm in Hk.
Qed.

Lemma try_finally_inv_Ok {A} (m : M A) (f : M unit) w a w' :
  try_finally m f w = (Ok a, w') -> exists w1, m w = (Ok a, w1).
Proof.
  unfold try_finally. destruct (m w) as [r w1]. destruct (f w1) as [[[]|e] w2]; [|discriminate].
  intros [= -> <-]. now exists w1.
Qed.

Lemma bake_service_raises bake_type w msg :
  render_service (host w) bake_type = BakeRaises msg ->
  forall w', bpy_ops_object_bake bake_type w <> (Ok tt, w').
Proof. intros Hr w'. unfold bpy_ops_object_bake. now rewrite Hr. Qed.

(** Walk down a chain of binds that returned [Ok], carrying the host
    along. *)
Ltac chase_host Hr H :=
  repeat lazymatch type of H with
    | bind _ _ _ = (Ok _, _) =>
        let Hh := fresh "Hh" in
        apply (bind_inv_Ok_keeps host) in H as (? & ? & Hh & H);
        [rewrite <- Hh in Hr; clear Hh | solve [keeps_auto]]
    | try_finally _ _ _ = (Ok _, _) =>
        apply try_finally_inv_Ok in H as (? & H)
    end.

Lemma bake_diffuse_needs_service img mt mat w msg :
  render_service (host w) "DIFFUSE" = BakeRaises msg ->
  forall w', bake_diffuse img mt mat w <> (Ok tt, w').
Proof.
  intros Hr w' H. unfold bake_diffuse in H. chase_host Hr H.
  now apply (bake_service_raises _ _ _ Hr) in H.
Qed.

Lemma bake_roughness_needs_service img mt mat w msg :
  render_service (host w) "ROUGHNESS" = BakeRaises msg ->
  forall w', bake_roughness img mt mat w <> (Ok tt, w').
Proof.
  intros Hr w' H. unfold bake_roughness in H. chase_host Hr H.
  now apply (bake_service_raises _ _ _ Hr) in H.
Qed.

Lemma bake_normal_needs_service img mt mat w msg :
  render_service (host w) "NORMAL" = BakeRaises msg ->
  forall w', bake_normal img mt mat w <> (Ok tt, w').
Proof.
  intros Hr w' H. unfold bake_normal in H. chase_host Hr H.
  now apply (bake_service_raises _ _ _ Hr) in H.
Qed.

Lemma bake_ao_needs_service img mt mat w msg :
  render_service (host w) "AO" = BakeRaises msg ->
  forall w', bake_ao img mt mat w <> (Ok tt, w').
Proof.
  intros Hr w' H. unfold bake_ao in H. chase_host Hr H.
  now apply (bake_service_raises _ _ _ Hr) in H.
Qed.

Lemma bake_failed_false map_type e w b w' :
  bake_failed map_type e w = (Ok b, w') ->
  b = false /\ bake_successful (frame w') = Some false.
Proof.
  unfold bake_failed. intros H.
  apply bind_inv_Ok in H as (? & ? & _ & H).
  apply bind_inv_Ok in H as (? & ? & _ & H).
  apply bind_inv_Ok in H as (? & ? & _ & H).
  apply bind_inv_Ok in H as (? & ? & Ha & H).
  unfold assign_bake_successful, modify in Ha. injection Ha as _ <-.
  unfold ret in H. injection H as <- <-. now split.
Qed.

Lemma bake_body_true props model material map_type (bake_method : BakeMethod) w b w' :
  bind (allocate_buffer props model map_type)
       (fun img => bind (bake_method img map_type material)
                        (fun _ => bind (warn_if_solid map_type img) (fun _ => ret true))) w
  = (Ok b, w') -> b = true.
Proof.
  intros H.
  apply bind_inv_Ok in H as (? & ? & _ & H).
  apply bind_inv_Ok in H as (? & ? & _ & H).
  apply bind_inv_Ok in H as (? & ? & _ & H).
  unfold ret in H. now injection H as <- _.
Qed.

(** A round that ends in [break] has marked the run as failed. *)
Lemma bake_map_false props model material map_type bake_method w w' :
  bake_map props model material map_type bake_method w = (Ok false, w') ->
  bake_successful (frame w') = Some false.
Proof.
  unfold bake_map. intros H. apply bind_inv_Ok in H as (? & w1 & _ & H).
  unfold try_except in H.
  destruct (bind (allocate_buffer _ _ _) _ w1) as [[b|e] w2] eqn:Hb.
  - apply bake_body_true in Hb. congruence.
  - now apply bake_failed_false in H.
Qed.

(** A round whose bake method cannot return does not let the loop go on. *)
Lemma bake_map_not_true props model material map_type (bake_method : BakeMethod) w :
  (forall img w0 w1, host w0 = host w ->
     bake_method img map_type material w0 <> (Ok tt, w1)) ->
  forall w', bake_map props model material map_type bake_method w <> (Ok true, w').
Proof.
  intros Hm w' H. unfold bake_map in H.
  apply (bind_inv_Ok_keeps host) in H as (? & w1 & Hh1 & H); [|keeps_auto].
  unfold try_except in H.
  destruct (bind (allocate_buffer _ _ _) _ w1) as [[b|e] w2] eqn:Hb.
  - apply (bind_inv_Ok_keeps host) in Hb as (img & w3 & Hh3 & Hb); [|keeps_auto].
    apply bind_inv_Ok in Hb as ([] & w4 & Hbm & _).
    apply (Hm img w3 w4); [congruence | exact Hbm].
  - apply bake_failed_false in H as [? _]. discriminate.
Qed.

Lemma log_within_take_head t tys n w w' :
  log_within [t] w w' -> log_within (take (S n) (t :: tys)) w w'.
Proof. apply log_within_mono. intros bt [<-|[]]. now left. Qed.

Lemma log_within_take_tail t tys n w w' :
  log_within (take n tys) w w' -> log_within (take (S n) (t :: tys)) w w'.
Proof. apply log_within_mono. intros bt H. now right. Qed.

Lemma bake_loop_fail props model material h entries tys :
  Forall2 (step_facts props model material) entries tys ->
  forall i map_type bake_method,
  entries !! i = Some (map_type, true, bake_method) ->
  (forall w, host w = h ->
     forall w', bake_map props model material map_type bake_method w <> (Ok true, w')) ->
  forall w, host w = h ->
    host (snd (bake_loop props model material entries w)) = h /\
    fs_files (snd (bake_loop props model material entries w)) = fs_files w /\
    log_within (take (S i) tys) w (snd (bake_loop props model material entries w)) /\
    (fst (bake_loop props model material entries w) = Ok tt ->
     bake_successful (frame (snd (bake_loop props model material entries w))) = Some false).
Proof.
  induction 1 as [|[[mt sb] bm] t entries tys (Hh & Hf & Hl) _ IH];
    intros i map_type bake_method Hi Hnot w Hw; [discriminate|].
  simpl in Hh, Hf, Hl. simpl bake_loop.
  destruct i as [|i]; simpl in Hi.
  - injection Hi as -> -> ->. simpl. unfold bind.
    specialize (Hh w). specialize (Hf w). specialize (Hl w).
    destruct (bake_map _ _ _ _ _ w) as [[[|]|e] w1] eqn:Hb; simpl in *.
    + now apply Hnot in Hb.
    + split_and!; [congruence | exact Hf | now apply log_within_take_head |].
      intros _. now apply bake_map_false in Hb.
    + split_and!; [congruence | exact Hf | now apply log_within_take_head | discriminate].
  - destruct sb; simpl.
    + unfold bind. specialize (Hh w). specialize (Hf w). specialize (Hl w).
      destruct (bake_map _ _ _ _ _ w) as [[[|]|e] w1] eqn:Hb; simpl in *.
      * destruct (IH i map_type bake_method Hi Hnot w1) as (I1 & I2 & I3 & I4); [congruence|].
        split_and!; [exact I1 | congruence | | exact I4].
        etransitivity; [apply log_within_take_head; exact Hl |].
        now apply log_within_take_tail.
      * split_and!; [congruence | exact Hf | now apply log_within_take_head |].
        intros _. now apply bake_map_false in Hb.
      * split_and!; [congruence | exact Hf | now apply log_within_take_head | discriminate].
    + destruct (IH i map_type bake_method Hi Hnot w Hw) as (I1 & I2 & I3 & I4).
      split_and!; [exact I1 | exact I2 | now apply log_within_take_tail | exact I4].
Qed.

Lemma map_types_facts props model material :
  Forall2 (step_facts props model material) (map_types props) (snd <$> map_order).
Proof.
  repeat constructor; simpl; first [solve [keeps_auto] | log_auto].
Qed.

Lemma save_phase_skipped w :
  bake_successful (frame w) = Some false ->
  fs_files (snd (save_phase w)) = fs_files w /\
  bake_log (snd (save_phase w)) = bake_log w.
Proof.
  intros H. unfold save_phase, bind, read_local. rewrite H.
  destruct (baked_images (frame w)); simpl; now split.
Qed.

Lemma setup_keeps_host props model material : keeps host (setup_phase props model material).
Proof. keeps_auto. Qed.

Lemma setup_keeps_files props model material :
  keeps fs_files (setup_phase props model material).
Proof. keeps_auto. Qed.

Lemma setup_keeps_log props model material :
  keeps bake_log (setup_phase props model material).
Proof. keeps_auto. Qed.

Lemma try_except_bind_Ok {A B} (m : M A) (k : A -> M B) h w a w1 :
  m w = (Ok a, w1) -> try_except (bind m k) h w = try_except (k a) h w1.
Proof. intros H. unfold try_except, bind. now rewrite H. Qed.

Lemma try_except_bind_Exc {A B} (m : M A) (k : A -> M B) h w e w1 :
  m w = (Exc e, w1) -> try_except (bind m k) h w = h e w1.
Proof. intros H. unfold try_except, bind. now rewrite H. Qed.

(** The whole [try] statement when the service refuses a requested map:
    nothing is written and the log stops at that map's bake type. *)
Lemma try_block_fail props model material i map_type bake_method w :
  map_types props !! i = Some (map_type, true, bake_method) ->
  (forall w0, host w0 = host w ->
     forall w', bake_map props model material map_type bake_method w0 <> (Ok true, w')) ->
  fs_files (snd (try_block props model material w)) = fs_files w /\
  log_within (take (S i) (snd <$> map_order)) w (snd (try_block props model material w)).
Proof.
  intros Hi Hnot. unfold try_block.
  pose proof (setup_keeps_host props model material w) as Sh.
  pose proof (setup_keeps_files props model material w) as Sf.
  pose proof (setup_keeps_log props model material w) as Sl.
  destruct (setup_phase props model material w) as [[[]|e] w1] eqn:Hs; simpl in Sh, Sf, Sl.
  2:{ rewrite (try_except_bind_Exc _ _ _ _ _ _ Hs). simpl.
      split; [exact Sf | now apply log_within_keeps]. }
  rewrite (try_except_bind_Ok _ _ _ _ _ _ Hs).
  erewrite try_except_bind_Ok by reflexivity.
  erewrite try_except_bind_Ok by reflexivity.
  match goal with
  | |- context [try_except (bind (bake_loop _ _ _ _) _) _ ?w2] =>
      destruct (bake_loop_fail props model material (host w) _ _
                  (map_types_facts props model material) i map_type bake_method Hi Hnot w2)
        as (L1 & L2 & L3 & L4); [exact Sh|];
      destruct (bake_loop props model material (map_types props) w2) as [[[]|e] w3] eqn:Hl
  end; simpl in L1, L2, L3, L4.
  - rewrite (try_except_bind_Ok _ _ _ _ _ _ Hl).
    destruct (save_phase_skipped w3 (L4 eq_refl)) as [P1 P2].
    assert (Hfin : fs_files (snd (save_phase w3)) = fs_files w /\
                   log_within (take (S i) (snd <$> map_order)) w (snd (save_phase w3))).
    { split; [congruence|]. destruct L3 as (l & Hl' & Hal). exists l.
      split; [|exact Hal]. rewrite P2, Hl'. simpl. now rewrite Sl. }
    unfold try_except.
    destruct (save_phase w3) as [[[]|e] w4]; simpl in *; exact Hfin.
  - rewrite (try_except_bind_Exc _ _ _ _ _ _ Hl). simpl.
    split; [congruence|]. destruct L3 as (l & Hl' & Hal). exists l.
    split; [|exact Hal]. simpl. rewrite Hl'. simpl. now rewrite Sl.
Qed.

Lemma unique_name_free taken base : taken base = false -> unique_name taken base = base.
Proof. intros H. unfold unique_name. now rewrite H. Qed.

Lemma create_image_run name size map_type w :
  images w !! name = None ->
  create_image name size map_type w
  = (Ok name, set_images (insert name (table_buffer map_type size)) w).
Proof.
  intros Hn. unfold create_image, table_buffer.
  cbv beta iota delta [bind images_new].
  rewrite !unique_name_free by (cbv beta; now rewrite Hn).
  destruct (String.eqb map_type "Normal"); [|destruct (_ || _)];
    cbv beta iota delta [bind image_update modify ret set_images]; simpl;
    now rewrite !alter_insert_eq.
Qed.

Lemma obj_get_run w model o : objects w !! model = Some o -> obj_get model w = (Ok o, w).
Proof. intros H. unfold obj_get. now rewrite H. Qed.

Lemma allocate_buffer_run props model map_type w o imgs :
  objects w !! model = Some o -> baked_images (frame w) = Some imgs ->
  exists w1,
    allocate_buffer props model map_type w
    = (Ok (obj_name o +:+ "_" +:+ map_type), w1) /\
    images w1 = <[obj_name o +:+ "_" +:+ map_type :=
                    table_buffer map_type (props_texture_size props)]> (images w) /\
    image (frame w1) = Some (obj_name o +:+ "_" +:+ map_type) /\
    baked_images (frame w1) = Some (imgs ++ [obj_name o +:+ "_" +:+ map_type]) /\
    bake_successful (frame w1) = bake_successful (frame w) /\
    output_path (frame w1) = output_path (frame w) /\
    host w1 = host w /\ objects w1 = objects w /\ fs_files w1 = fs_files w /\
    active w1 = active w /\ materials w1 = materials w.
Proof.
  intros Ho Hb. unfold allocate_buffer.
  rewrite (bind_Ok _ _ _ _ _ (obj_get_run _ _ _ Ho)). cbv zeta.
  set (name := obj_name o +:+ "_" +:+ map_type).
  assert (Hrun : forall w0, images w0 !! name = None ->
            baked_images (frame w0) = Some imgs ->
            exists w1,
              bind (create_image name (props_texture_size props) map_type)
                (fun img => bind (assign_image (Some img))
                   (fun _ => bind (read_local "baked_images" baked_images)
                      (fun imgs => bind (assign_baked_images (imgs ++ [img]))
                         (fun _ => ret img)))) w0 = (Ok name, w1) /\
              images w1 = <[name := table_buffer map_type (props_texture_size props)]>
                            (images w0) /\
              image (frame w1) = Some name /\
              baked_images (frame w1) = Some (imgs ++ [name]) /\
              bake_successful (frame w1) = bake_successful (frame w0) /\
              output_path (frame w1) = output_path (frame w0) /\
              host w1 = host w0 /\ objects w1 = objects w0 /\ fs_files w1 = fs_files w0 /\
              active w1 = active w0 /\ materials w1 = materials w0).
  { intros w0 Hn Hb0. rewrite (bind_Ok _ _ _ _ _ (create_image_run _ _ _ _ Hn)).
    erewrite bind_Ok by reflexivity.
    erewrite bind_Ok by (unfold read_local; simpl; rewrite Hb0; reflexivity).
    erewrite bind_Ok by reflexivity.
    eexists. split; [reflexivity|]. simpl. tauto. }
  erewrite bind_Ok by reflexivity.
  destruct (images w !! name) eqn:Hi.
  - erewrite bind_Ok by reflexivity.
    destruct (Hrun (set_images (delete name) w)) as (w1 & -> & Hw1).
    { simpl. apply lookup_delete_eq. }
    { exact Hb. }
    exists w1. split; [reflexivity|]. simpl in Hw1.
    rewrite insert_delete_eq in Hw1. exact Hw1.
  - erewrite bind_Ok by reflexivity.
    destruct (Hrun w Hi Hb) as (w1 & -> & Hw1). now exists w1.
Qed.

Lemma list_remove_last x l : ~ In x l -> list_remove x (l ++ [x]) = l.
Proof.
  induction l as [|y l IH]; intros Hn; simpl.
  - now rewrite String.eqb_refl.
  - destruct (String.eqb_spec y x) as [->|Hne].
    + exfalso. apply Hn. now left.
    + f_equal. apply IH. intros Hin. apply Hn. now right.
Qed.

Lemma existsb_last x l : existsb (String.eqb x) (l ++ [x]) = true.
Proof. rewrite existsb_app. simpl. now rewrite String.eqb_refl, orb_true_r. Qed.

(** The handler on a round whose buffer is still in the session. *)
Lemma bake_failed_run map_type e w name imgs buffer :
  image (frame w) = Some name -> images w !! name = Some buffer ->
  baked_images (frame w) = Some (imgs ++ [name]) -> ~ In name imgs ->
  exists w1,
    bake_failed map_type e w = (Ok false, w1) /\
    images w1 !! name = None /\
    baked_images (frame w1) = Some imgs /\
    bake_successful (frame w1) = Some false.
Proof.
  intros Hi Hp Hb Hn. unfold bake_failed.
  erewrite bind_Ok by reflexivity.
  erewrite bind_Ok by reflexivity. cbn [frame set_reports]. rewrite Hi.
  erewrite bind_Ok.
  2:{ erewrite bind_Ok by reflexivity. cbn [images set_reports]. rewrite Hp.
      unfold when. erewrite bind_Ok by reflexivity.
      erewrite bind_Ok by (unfold read_local; simpl; rewrite Hb; reflexivity).
      rewrite existsb_last, (list_remove_last _ _ Hn). reflexivity. }
  erewrite bind_Ok by reflexivity.
  eexists. split; [reflexivity|]. simpl. rewrite lookup_delete_eq. tauto.
Qed.

Lemma methods_keep_round bake_method props :
  In bake_method (map snd (map_types props)) -> method_facts bake_method.
Proof.
  apply four_methods; intros img mt mat; split_and!; keeps_auto.
Qed.

(** A round whose bake method raises: the buffer it allocated is taken out
    of the session and out of the pending list, and the run is marked as
    failed. *)
Lemma bake_map_failure_run props model material map_type (bake_method : BakeMethod)
    w o imgs :
  method_facts bake_method ->
  (forall img w0 w1, host w0 = host w ->
     bake_method img map_type material w0 <> (Ok tt, w1)) ->
  objects w !! model = Some o -> baked_images (frame w) = Some imgs ->
  ~ In (obj_name o +:+ "_" +:+ map_type) imgs ->
  exists w1,
    bake_map props model material map_type bake_method w = (Ok false, w1) /\
    images w1 !! (obj_name o +:+ "_" +:+ map_type) = None /\
    baked_images (frame w1) = Some imgs /\
    bake_successful (frame w1) = Some false.
Proof.
  intros Hfacts Hnever Ho Hb Hn. unfold bake_map.
  erewrite bind_Ok by reflexivity.
  destruct (allocate_buffer_run props model map_type
              (set_frame (fun f => {| output_path := output_path f;
                                      bake_successful := bake_successful f;
                                      baked_images := baked_images f;
                                      image := None;
                                      image_node := image_node f |}) w) o imgs Ho Hb)
    as (w1 & Ha & Hi1 & Hf1 & Hb1 & _ & _ & Hh1 & _).
  set (name := obj_name o +:+ "_" +:+ map_type) in *.
  destruct (Hfacts name map_type material) as (K1 & K2 & K3 & K4).
  specialize (K1 w1). specialize (K2 w1). specialize (K3 w1).
  destruct (bake_method name map_type material w1) as [[[]|e] w2] eqn:Hm.
  { exfalso. apply (Hnever name w1 w2); [exact Hh1 | exact Hm]. }
  simpl in K1, K2, K3.
  assert (Hin : is_Some (images w2 !! name)).
  { apply elem_of_dom. rewrite K3, Hi1. apply elem_of_dom. rewrite lookup_insert_eq. eauto. }
  destruct Hin as [buffer Hbuf].
  assert (Hbody : bind (allocate_buffer props model map_type)
                    (fun img => bind (bake_method img map_type material)
                       (fun _ => bind (warn_if_solid map_type img) (fun _ => ret true)))
                    (set_frame (fun f => {| output_path := output_path f;
                                      bake_successful := bake_successful f;
                                      baked_images := baked_images f;
                                      image := None;
                                      image_node := image_node f |}) w)
                  = (Exc e, w2)).
  { rewrite (bind_Ok _ _ _ _ _ Ha). now rewrite (bind_Exc _ _ _ _ _ Hm). }
  unfold try_except. unfold assign_image, modify. cbv beta iota. rewrite Hbody.
  apply (bake_failed_run map_type e w2 name imgs buffer); congruence.
Qed.

Lemma later_not_within i j t bt :
  (i < j)%nat -> map_order !! j = Some (t, bt) ->
  ~ In bt (take (S i) (snd <$> map_order)).
Proof.
  intros Hlt Hj Hin.
  destruct j as [|[|[|[|j]]]]; simpl in Hj; try discriminate;
    injection Hj as <- <-;
    destruct i as [|[|[|i]]]; try lia; simpl in Hin;
    repeat (destruct Hin as [Hin|Hin]; [discriminate|]); exact Hin.
Qed.

Lemma validate_keeps_files : keeps fs_files validateRequirements.
Proof. keeps_auto. Qed.
Lemma validate_keeps_log : keeps bake_log validateRequirements.
Proof. keeps_auto. Qed.
Lemma validate_keeps_host : keeps host validateRequirements.
Proof. keeps_auto. Qed.
Lemma finally_keeps_files s : keeps fs_files (finally_block s).
Proof. keeps_auto. Qed.
Lemma finally_keeps_log s : keeps bake_log (finally_block s).
Proof. keeps_auto. Qed.

Lemma entry_needs_service props i map_type bake_type bake_method material w msg :
  map_order !! i = Some (map_type, bake_type) ->
  map_types props !! i = Some (map_type, true, bake_method) ->
  render_service (host w) bake_type = BakeRaises msg ->
  forall img w0 w1, host w0 = host w ->
    bake_method img map_type material w0 <> (Ok tt, w1).
Proof.
  intros Ho Hi Hr img w0 w1 Hh. rewrite <- Hh in Hr.
  destruct i as [|[|[|[|i]]]]; simpl in Ho, Hi; try discriminate;
    injection Ho as <- <-; injection Hi as _ <-.
  - eapply bake_diffuse_needs_service; eauto.
  - eapply bake_roughness_needs_service; eauto.
  - eapply bake_normal_needs_service; eauto.
  - eapply bake_ao_needs_service; eauto.
Qed.

(** C3: when the bake of a requested map type raises, no later map type
    in the order Diffuse, Roughness, Normal, AO is handed to the bake
    service, the save phase writes nothing, and the round's buffer is
    removed from the session and from the pending list. *)
Theorem bake_failure_stops (w : World) (i : nat) (map_type bake_type msg : string)
    (bake_method : BakeMethod) :
  map_order !! i = Some (map_type, bake_type) ->
  map_types (get_props w) !! i = Some (map_type, true, bake_method) ->
  render_service (host w) bake_type = BakeRaises msg ->
  (forall r w', execute w = (r, w') ->
     fs_files w' = fs_files w /\
     exists attempted,
       bake_log w' = bake_log w ++ attempted /\
       forall j t bt, (i < j)%nat -> map_order !! j = Some (t, bt) -> ~ In bt attempted) /\
  (forall model material w0 o imgs,
     host w0 = host w -> objects w0 !! model = Some o ->
     baked_images (frame w0) = Some imgs ->
     ~ In (obj_name o +:+ "_" +:+ map_type) imgs ->
     exists w1,
       bake_map (get_props w) model material map_type bake_method w0 = (Ok false, w1) /\
       images w1 !! (obj_name o +:+ "_" +:+ map_type) = None /\
       baked_images (frame w1) = Some imgs /\
       bake_successful (frame w1) = Some false).
Proof.
  intros Ho Hi Hr. split.
  - intros r w' Hex. rewrite execute_run in Hex. cbv zeta in Hex.
    pose proof (validate_keeps_files (set_frame (fun _ => empty_frame) w)) as Vf.
    pose proof (validate_keeps_log (set_frame (fun _ => empty_frame) w)) as Vl.
    pose proof (validate_keeps_host (set_frame (fun _ => empty_frame) w)) as Vh.
    destruct (validateRequirements _) as [[[|v]|e] w1]; simpl in Vf, Vl, Vh.
    1,3: injection Hex as <- <-; split; [exact Vf|]; exists []; split;
         [now rewrite app_nil_r | intros j t bt _ _ []].
    change (get_props (set_frame (fun _ => empty_frame) w)) with (get_props w) in Hex.
    destruct (try_block_fail (get_props w) (v_model v) (v_material v) i map_type
                bake_method w1 Hi) as (Tf & l & Tl & Tin).
    { intros w0 Hh. apply bake_map_not_true. intros img w2 w3 Hh2.
      eapply entry_needs_service; eauto. congruence. }
    pose proof (finally_keeps_files (take_snapshot w1)
                  (snd (try_block (get_props w) (v_model v) (v_material v) w1))) as Ff.
    pose proof (finally_keeps_log (take_snapshot w1)
                  (snd (try_block (get_props w) (v_model v) (v_material v) w1))) as Fl.
    rewrite Hex in Ff, Fl. simpl in Ff, Fl. split; [congruence|].
    exists l. split; [congruence|].
    intros j t bt Hlt Hj Hin. eapply later_not_within; eauto.
  - intros model material w0 o imgs Hh Hob Hb Hn.
    apply bake_map_failure_run; try assumption.
    + eapply methods_keep_round. apply in_map_iff. exists (map_type, true, bake_method).
      split; [reflexivity|]. apply list_elem_of_In, list_elem_of_lookup. eauto.
    + intros img w2 w3 Hh2. eapply entry_needs_service; eauto. congruence.
Qed.

(** * What is written for the Normal map *)

#[global] Instance writes_non_color_preorder : PreOrder writes_non_color.
Proof.
  split.
  - intros w. exists []. split; [now rewrite app_nil_r | constructor].
  - intros w1 w2 w3 (l1 & H1 & A1) (l2 & H2 & A2). exists (l1 ++ l2). split.
    + now rewrite H2, H1, app_assoc.
    + apply Forall_app. now split.
Qed.

Lemma writes_non_color_keeps w w' : fs_files w' = fs_files w -> writes_non_color w w'.
Proof. intros H. exists []. split; [now rewrite app_nil_r | constructor]. Qed.

Lemma image_get_run w img i : images w !! img = Some i -> image_get img w = (Ok i, w).
Proof. intros H. unfold image_get. now rewrite H. Qed.

Lemma ensure_non_color_run img w i :
  images w !! img = Some i ->
  exists w1 i1,
    ensure_non_color img w = (Ok tt, w1) /\
    images w1 !! img = Some i1 /\ colorspace i1 = "Non-Color" /\
    use_generated_float i1 = use_generated_float i /\
    fs_files w1 = fs_files w /\ host w1 = host w /\ frame w1 = frame w.
Proof.
  intros Hi. unfold ensure_non_color.
  rewrite (bind_Ok _ _ _ _ _ (image_get_run _ _ _ Hi)).
  destruct (String.eqb_spec (colorspace i) "Non-Color") as [Hc|Hc]; simpl.
  - exists w, i. now split_and!.
  - eexists _, _. split; [reflexivity|]. simpl. rewrite lookup_alter_eq, Hi. simpl.
    now split_and!.
Qed.

Lemma ensure_non_color_gone img w :
  images w !! img = None ->
  ensure_non_color img w = (Exc (ReferenceError "image has been removed"), w).
Proof. intros Hi. unfold ensure_non_color, bind, image_get. now rewrite Hi. Qed.

Lemma ensure_non_color_format img w i :
  images w !! img = Some i ->
  forall i1, images (snd (ensure_non_color img w)) !! img = Some i1 ->
             file_format i1 = file_format i.
Proof.
  intros Hi i1. unfold ensure_non_color.
  rewrite (bind_Ok _ _ _ _ _ (image_get_run _ _ _ Hi)).
  destruct (String.eqb (colorspace i) "Non-Color"); simpl.
  - rewrite Hi. now intros [= <-].
  - rewrite lookup_alter_eq, Hi. simpl. now intros [= <-].
Qed.

Lemma save_writes_non_color img (h : Exn -> M unit) w :
  (forall e, keeps fs_files (h e)) ->
  (forall i, images w !! img = Some i -> file_format i = "PNG") ->
  (ends_with "_Normal" img = true ->
   forall i, images w !! img = Some i -> colorspace i = "Non-Color") ->
  writes_non_color w (snd (try_except (image_save img) h w)).
Proof.
  intros Hh Hp Hc. unfold try_except, image_save.
  destruct (images w !! img) as [i|] eqn:Hi.
  - destruct (save_error (host w) (filepath_raw i)).
    + apply writes_non_color_keeps, Hh.
    + simpl. eexists. split; [reflexivity|]. repeat constructor.
      * unfold png_file. simpl. now apply Hp.
      * intros He. simpl in *. now apply Hc.
  - apply writes_non_color_keeps, Hh.
Qed.

(** Lines 149-163: the format, the colour-space check and the save, as
    one step. *)
Lemma check_and_save_non_color img (h : Exn -> M unit) :
  (forall e, keeps fs_files (h e)) ->
  respects writes_non_color
    (bind (image_update img (set_file_format "PNG"))
          (fun _ => bind (when (ends_with "_Normal" img) (ensure_non_color img))
                         (fun _ => try_except (image_save img) h))).
Proof.
  intros Hh w. erewrite bind_Ok by reflexivity.
  match goal with
  | |- writes_non_color _ (snd (_ ?x)) => set (w0 := x)
  end.
  transitivity w0; [now apply writes_non_color_keeps|].
  assert (Hp : forall i, images w0 !! img = Some i -> file_format i = "PNG").
  { intros i. unfold w0. simpl. rewrite lookup_alter_eq.
    destruct (images w !! img); simpl; [|discriminate]. now intros [= <-]. }
  clearbody w0.
  destruct (ends_with "_Normal" img) eqn:He; simpl.
  - destruct (images w0 !! img) as [i|] eqn:Hi.
    + pose proof (ensure_non_color_format img w0 i Hi) as Hfmt.
      destruct (ensure_non_color_run img w0 i Hi) as (w1 & i1 & Hr & Hi1 & Hc & _ & Hf & _).
      rewrite Hr in Hfmt. simpl in Hfmt.
      rewrite (bind_Ok _ _ _ _ _ Hr).
      etransitivity; [apply writes_non_color_keeps; exact Hf|].
      apply save_writes_non_color; [exact Hh | |].
      * intros i' Hi'. rewrite (Hfmt i' Hi'). now apply Hp.
      * intros _ i' Hi'. congruence.
    + rewrite (bind_Exc _ _ _ _ _ (ensure_non_color_gone img w0 Hi)). simpl.
      now apply writes_non_color_keeps.
  - erewrite bind_Ok by reflexivity.
    apply save_writes_non_color; [exact Hh | exact Hp | congruence].
Qed.

Ltac files_leaf :=
  first [ apply check_and_save_non_color; intros ?; solve [keeps_auto]
        | apply (respects_of_keeps _ fs_files);
          [intros ? ?; apply writes_non_color_keeps | solve [keeps_auto]] ].

Ltac files_auto := repeat first [ files_leaf | respects_step | log_open ].

Lemma save_phase_non_color : respects writes_non_color save_phase.
Proof. files_auto. Qed.

Lemma try_block_non_color props model material :
  respects writes_non_color (try_block props model material).
Proof.
  unfold try_block.
  respects_step; [|files_auto].
  respects_step; [files_auto|].
  respects_step; [files_auto|].
  respects_step; [files_auto|].
  respects_step; [|apply save_phase_non_color].
  apply (respects_of_keeps _ fs_files); [intros ? ?; apply writes_non_color_keeps|].
  apply bake_loop_keeps. intros map_type. apply four_methods; keeps_auto.
Qed.

Lemma execute_non_color : respects writes_non_color execute.
Proof.
  intros w. rewrite execute_run. cbv zeta.
  pose proof (validate_keeps_files (set_frame (fun _ => empty_frame) w)) as Vf.
  destruct (validateRequirements _) as [[[|v]|e] w1]; simpl in Vf;
    try (now apply writes_non_color_keeps).
  etransitivity; [apply writes_non_color_keeps; exact Vf|].
  etransitivity; [apply try_block_non_color|].
  apply writes_non_color_keeps, finally_keeps_files.
Qed.

Lemma in_list_remove x y l : In x (list_remove y l) -> In x l.
Proof.
  induction l as [|z l IH]; simpl; [tauto|].
  destruct (String.eqb z y); simpl; tauto.
Qed.

Lemma append_inj_l (a b c : string) : a +:+ b = a +:+ c -> b = c.
Proof. induction a as [|ch a IH]; simpl; [auto | intros [= H]; auto]. Qed.

Lemma read_local_Some {A} var (p : Frame -> option A) w a :
  p (frame w) = Some a -> read_local var p w = (Ok a, w).
Proof. intros H. unfold read_local. now rewrite H. Qed.

Lemma read_local_None {A} var (p : Frame -> option A) w :
  p (frame w) = None -> read_local var p w = (Exc (UnboundLocalError var), w).
Proof. intros H. unfold read_local. now rewrite H. Qed.

Lemma names_alter (f : Object -> Object) i (l : list Object) :
  (forall o, obj_name (f o) = obj_name o) ->
  obj_name <$> alter f i l = obj_name <$> l.
Proof.
  intros Hf. revert i. induction l as [|o l IH]; intros [|i]; simpl; try reflexivity.
  - now rewrite Hf.
  - f_equal. apply IH.
Qed.

Lemma obj_update_keeps_names model f :
  (forall o, obj_name (f o) = obj_name o) -> keeps object_names (obj_update model f).
Proof. intros Hf w. unfold object_names. simpl. now apply names_alter. Qed.

Lemma deselect_keeps_names : keeps object_names select_all_deselect.
Proof.
  intros w. unfold object_names. simpl.
  induction (objects w) as [|o l IH]; simpl; [reflexivity | f_equal; exact IH].
Qed.

Ltac names_auto :=
  repeat first
    [ keeps_step
    | apply obj_update_keeps_names; reflexivity
    | apply deselect_keeps_names
    | lazymatch goal with
      | |- keeps _ (obj_update _ _) => fail 1
      | |- keeps _ select_all_deselect => fail 1
      | _ => keeps_open
      end ].

Lemma validate_keeps_names : keeps object_names validateRequirements.
Proof. names_auto. Qed.

Lemma setup_keeps_names props model material :
  keeps object_names (setup_phase props model material).
Proof. names_auto. Qed.

Lemma validate_finished_model w v w1 :
  validateRequirements w = (Ok (ReqFinished v), w1) -> active_object w = Some (v_model v).
Proof.
  intros Hv. destruct (active_object w) as [a|] eqn:Ea.
  2:{ cbv beta iota delta [validateRequirements bind gets report modify ret] in Hv.
      rewrite Ea in Hv. discriminate. }
  assert (Ho : is_Some (objects w !! a)).
  { unfold active_object in Ea. destruct (active w) as [a'|]; [|discriminate].
    destruct (objects w !! a') eqn:E; [|discriminate]. injection Ea as <-. eauto. }
  destruct Ho as [o Ho].
  destruct (String.eqb_spec (obj_type o) "MESH") as [Ht|Ht].
  2:{ rewrite (validate_not_mesh _ _ _ Ea Ho Ht) in Hv. discriminate. }
  destruct (uv_layers o) as [|first_layer rest] eqn:Hu.
  { rewrite (validate_no_uv _ _ _ Ea Ho Ht Hu) in Hv. discriminate. }
  destruct (validate_uv_stage w a o first_layer rest Ea Ho Ht Hu)
    as (w' & o1 & ? & Hrun & Ho1 & _).
  rewrite Hrun, (validate_material_run _ _ _ Ho1) in Hv.
  destruct (obj_active_material o1); [|discriminate].
  destruct (materials w' !! n); [|discriminate].
  destruct (negb (use_nodes m)); [discriminate|].
  destruct (last _); [|discriminate].
  now injection Hv as <- _.
Qed.

Lemma ends_with_append (suffix a : string) : ends_with suffix (a +:+ suffix) = true.
Proof.
  induction a as [|c a IH]; simpl.
  - destruct suffix; simpl; [reflexivity|]. now rewrite Ascii.eqb_refl, String.eqb_refl.
  - now rewrite IH, orb_true_r.
Qed.

Lemma length_append (a b : string) :
  String.length (a +:+ b) = (String.length a + String.length b)%nat.
Proof. induction a as [|c a IH]; [reflexivity|]. simpl. now rewrite <- IH. Qed.

(** C5 as amended: for a model whose name is at most 56 bytes, so that
    the name of its Normal buffer fits the 63 bytes Blender keeps, a
    Normal-map buffer that is written to disk is written in Non-Color,
    whatever happened to its colour space before the save.  The file is
    written in the PNG format that line 149 sets; the precision flag of
    the buffer is set at creation and checked before the bake, and by
    nothing before the save. *)
Theorem normal_map_written_non_color (w : World) (model : nat) (o : Object)
    (f : SavedFile) :
  active_object w = Some model -> objects w !! model = Some o ->
  (String.length (obj_name o) <= 56)%nat ->
  In f (written_by_run w) -> sf_image f = obj_name o +:+ "_Normal" ->
  sf_colorspace f = "Non-Color" /\ sf_format f = "PNG" /\
  (String.length (sf_image f) <= max_name_length)%nat.
Proof.
  intros Ha Ho Hlen Hin Hname. unfold written_by_run in Hin.
  destruct (execute_non_color w) as (new & Hn & Hg).
  rewrite Hn, drop_app_length in Hin.
  rewrite Forall_forall in Hg. destruct (Hg f) as [Hpng Hnc]; [now apply list_elem_of_In|].
  split_and!.
  - apply Hnc. rewrite Hname. apply ends_with_append.
  - exact Hpng.
  - rewrite Hname, length_append. unfold max_name_length. simpl. lia.
Qed.

(** * [execute] returns when the setup phase succeeds *)

#[global] Instance frame_mono_preorder P : PreOrder (frame_mono P).
Proof. split; unfold frame_mono; [now intros w | intros w1 w2 w3; tauto]. Qed.

Lemma frame_mono_frame P w w' : frame w' = frame w -> frame_mono P w w'.
Proof. unfold frame_mono. now intros ->. Qed.

Lemma assign_frame_mono P (f : Frame -> Frame) :
  (forall fr, P fr -> P (f fr)) -> respects (frame_mono P) (modify (set_frame f)).
Proof. intros Hf w H. simpl. now apply Hf. Qed.

Ltac bound_leaf :=
  first
    [ solve [auto]
    | apply assign_frame_mono; unfold locals_bound; intros ? ?; simpl in *;
      split_and?; solve [eauto | tauto]
    | apply (respects_of_keeps _ frame);
      [intros ? ?; apply frame_mono_frame | solve [keeps_auto]] ].

Ltac bound_open :=
  lazymatch goal with
  | |- respects _ (modify _) => fail
  | |- respects _ ?m => let h := head_of m in progress unfold h
  end.

Ltac bound_auto := repeat first [ bound_leaf | respects_step | bound_open ].

Lemma bake_map_stays_bound props model material map_type (bake_method : BakeMethod) :
  (forall img mt mat, respects (frame_mono locals_bound) (bake_method img mt mat)) ->
  respects (frame_mono locals_bound) (bake_map props model material map_type bake_method).
Proof. intros Hm. bound_auto. Qed.

Lemma methods_stay_bound props bake_method :
  In bake_method (map snd (map_types props)) ->
  forall img mt mat, respects (frame_mono locals_bound) (bake_method img mt mat).
Proof.
  revert bake_method.
  apply (four_methods
           (fun bm => forall img mt mat, respects (frame_mono locals_bound) (bm img mt mat)));
    intros img mt mat; bound_auto.
Qed.

Lemma bake_loop_stays_bound props model material entries :
  (forall bake_method, In bake_method (map snd entries) ->
     forall img mt mat, respects (frame_mono locals_bound) (bake_method img mt mat)) ->
  respects (frame_mono locals_bound) (bake_loop props model material entries).
Proof.
  induction entries as [|[[map_type should_bake] bake_method] entries IH]; intros H; simpl.
  - apply respects_ret. apply _.
  - assert (Hrest : respects (frame_mono locals_bound)
                      (bake_loop props model material entries)).
    { apply IH. intros bm Hin. apply H. now right. }
    destruct should_bake; simpl; [|exact Hrest].
    apply respects_bind; [apply _ | | intros [|]; [exact Hrest | apply respects_ret; apply _]].
    apply bake_map_stays_bound. apply H. now left.
Qed.

Lemma save_phase_stays_bound : respects (frame_mono locals_bound) save_phase.
Proof. bound_auto. Qed.

Lemma setup_binds_output_path props model material w w1 :
  setup_phase props model material w = (Ok tt, w1) ->
  is_Some (output_path (frame w1)).
Proof.
  intros H. unfold setup_phase in H.
  do 7 (apply bind_inv_Ok in H as (? & ? & _ & H)).
  apply bind_inv_Ok in H as ([] & w8 & Ha & H).
  assert (Hb : is_Some (output_path (frame w8))).
  { unfold assign_output_path, modify in Ha. injection Ha as <-. simpl. eauto. }
  match type of H with
  | ?m w8 = _ =>
      assert (Hk : respects (frame_mono (fun fr => is_Some (output_path fr))) m)
  end.
  { bound_auto. }
  specialize (Hk w8 Hb). now rewrite H in Hk.
Qed.

Lemma try_block_binds props model material w w1 :
  setup_phase props model material w = (Ok tt, w1) ->
  locals_bound (frame (snd (try_block props model material w))).
Proof.
  intros Hs. pose proof (setup_binds_output_path _ _ _ _ _ Hs) as Ho.
  unfold try_block.
  rewrite (try_except_bind_Ok _ _ _ _ _ _ Hs).
  erewrite try_except_bind_Ok by reflexivity.
  erewrite try_except_bind_Ok by reflexivity.
  match goal with
  | |- context [try_except ?m _ ?w3] =>
      assert (Hb : locals_bound (frame w3))
        by (unfold locals_bound; simpl; split_and!; eauto);
      assert (Hres : respects (frame_mono locals_bound) m);
      [| specialize (Hres w3 Hb); unfold try_except;
         destruct (m w3) as [[[]|e] w4] ]
  end.
  - apply respects_bind; [apply _ | | intros _; apply save_phase_stays_bound].
    apply bake_loop_stays_bound. apply methods_stay_bound.
  - exact Hres.
  - simpl in Hres. destruct Hres as (H1 & H2 & H3).
    unfold locals_bound. simpl. split_and!; eauto.
Qed.

Lemma cleanup_returns w :
  is_Some (baked_images (frame w)) ->
  exists w', cleanup_images w = (Ok tt, w') /\ frame w' = frame w /\
             objects w' = objects w.
Proof.
  intros [imgs Hb]. unfold cleanup_images.
  rewrite (bind_Ok _ _ _ _ _ (read_local_Some _ _ _ _ Hb)).
  clear Hb. revert w. induction imgs as [|img imgs IH]; intros w; simpl.
  - now exists w.
  - assert (Hstep : exists w1,
              bind (in_images img)
                (fun present => when present
                   (try_except (images_remove img) (fun _ => ret tt))) w = (Ok tt, w1) /\
              frame w1 = frame w /\ objects w1 = objects w).
    { unfold bind, in_images, gets. destruct (images w !! img); simpl; eauto. }
    destruct Hstep as (w1 & Hs & Hf & Ho). rewrite (bind_Ok _ _ _ _ _ Hs).
    destruct (IH w1) as (w' & Hr & Hf' & Ho'). exists w'. split; [exact Hr|].
    split; congruence.
Qed.

Lemma final_report_returns w :
  locals_bound (frame w) -> exists status w', final_report w = (Ok status, w').
Proof.
  intros ([path Hp] & [ok Hk] & _). unfold final_report.
  rewrite (bind_Ok _ _ _ _ _ (read_local_Some _ _ _ _ Hk)).
  destruct ok.
  - rewrite (bind_Ok _ _ _ _ _ (read_local_Some _ _ _ _ Hp)). eauto.
  - eauto.
Qed.

(** On a session that passes validation and whose setup phase raises
    nothing, [execute] returns a status. *)
Lemma execute_returns w : setup_succeeds w -> exists status w', execute w = (Ok status, w').
Proof.
  intros (v & w1 & w2 & Hv & Hs). rewrite execute_run. cbv zeta. rewrite Hv.
  change (get_props (set_frame (fun _ => empty_frame) w)) with (get_props w).
  pose proof (try_block_binds _ _ _ _ _ Hs) as Hb.
  pose proof (try_block_keeps_object_count (get_props w) (v_model v) (v_material v) w1)
    as Hlen.
  set (w3 := snd (try_block (get_props w) (v_model v) (v_material v) w1)) in *.
  simpl in Hlen.
  destruct (cleanup_returns w3) as (w4 & Hc & Hf4 & Ho4); [apply Hb|].
  destruct (validate_finished_active _ _ _ Hv) as (a & Ha & Halt).
  pose proof (validate_keeps_active (set_frame (fun _ => empty_frame) w)) as Vac.
  pose proof (validate_keeps_flags (set_frame (fun _ => empty_frame) w)) as Vfl.
  rewrite Hv in Vac, Vfl. unfold selection_flags in Vfl. simpl in Vac, Vfl, Ha, Halt.
  assert (Hlen1 : length (objects w1) = length (objects w)).
  { rewrite <- (length_fmap obj_selected (objects w1)), Vfl. apply length_fmap. }
  destruct (restore_settings_run (take_snapshot w1) w4)
    as (w5 & Hr & _ & _ & _ & _ & _ & Hf5 & _).
  { simpl. intros i Hi. unfold selected_objects in Hi.
    apply filter_In in Hi as [Hi _]. apply in_seq in Hi. rewrite Ho4. lia. }
  { simpl. intros a' Ha'. rewrite Vac, Ha in Ha'. injection Ha' as <-. rewrite Ho4. lia. }
  destruct (final_report_returns w5) as (status & w6 & Hfin); [now rewrite Hf5, Hf4|].
  exists status, w6. unfold finally_block.
  rewrite (bind_Ok _ _ _ _ _ Hc), (bind_Ok _ _ _ _ _ Hr). exact Hfin.
Qed.

(** C1: on a valid input, once [execute] has returned, the render engine,
    the Cycles sample count, the selected-to-active flag, the selected
    objects and the active object are what they were when the operator
    was invoked; and [execute] does return whenever validation passes and
    the setup phase raises nothing. *)
Theorem execute_restores_session (w : World) :
  (forall status w',
     execute w = (Ok status, w') ->
     engine (scene w') = engine (scene w) /\
     samples (scene w') = samples (scene w) /\
     use_selected_to_active (scene w') = use_selected_to_active (scene w) /\
     selected_objects w' = selected_objects w /\
     active w' = active w) /\
  (setup_succeeds w -> exists status w', execute w = (Ok status, w')).
Proof.
  split.
  - intros status w'. apply restored_after_return.
  - apply execute_returns.
Qed.

(** * The statements on the concrete session *)

Lemma execute_restores_session_witness :
  execute ex_world = (Ok FINISHED, snd (execute ex_world)) /\
  selected_objects (snd (execute ex_world)) = [0; 1]%nat /\
  active (snd (execute ex_world)) = Some 0%nat /\
  engine (scene (snd (execute ex_world))) = "BLENDER_EEVEE_NEXT" /\
  exists status w', execute ex_world = (Ok status, w').
Proof.
  assert (H : execute ex_world = (Ok FINISHED, snd (execute ex_world)))
    by (vm_compute; reflexivity).
  destruct (execute_restores_session ex_world) as [Hrestored Hreturns].
  destruct (Hrestored FINISHED (snd (execute ex_world)) H) as (He & _ & _ & Hs & Ha).
  split; [exact H|]. rewrite Hs, Ha, He. split_and!; try reflexivity.
  apply Hreturns.
  exists {| v_model := 0; v_material := 0; v_principled_node := ex_principled |},
    (snd (validateRequirements (set_frame (fun _ => empty_frame) ex_world))),
    (snd (setup_phase (get_props ex_world) 0 0
            (snd (validateRequirements (set_frame (fun _ => empty_frame) ex_world))))).
  split; vm_compute; reflexivity.
Defined.

Lemma bake_failure_stops_witness :
  (forall r w', execute ex_failing_world = (r, w') ->
     fs_files w' = fs_files ex_failing_world /\
     exists attempted,
       bake_log w' = bake_log ex_failing_world ++ attempted /\
       forall j t bt, (2 < j)%nat -> map_order !! j = Some (t, bt) -> ~ In bt attempted) /\
  (forall model material w0 o imgs,
     host w0 = host ex_failing_world -> objects w0 !! model = Some o ->
     baked_images (frame w0) = Some imgs ->
     ~ In (obj_name o +:+ "_" +:+ "Normal") imgs ->
     exists w1,
       bake_map (get_props ex_failing_world) model material "Normal" bake_normal w0
       = (Ok false, w1) /\
       images w1 !! (obj_name o +:+ "_" +:+ "Normal") = None /\
       baked_images (frame w1) = Some imgs /\
       bake_successful (frame w1) = Some false).
Proof.
  apply (bake_failure_stops ex_failing_world 2 "Normal" "NORMAL"
           "No valid selected objects" bake_normal); reflexivity.
Defined.

Lemma normal_map_written_non_color_witness :
  sf_image (nth 2 (written_by_run ex_resetting_world) ex_no_file) = "Cube_Normal" /\
  sf_colorspace (nth 2 (written_by_run ex_resetting_world) ex_no_file) = "Non-Color" /\
  sf_format (nth 2 (written_by_run ex_resetting_world) ex_no_file) = "PNG" /\
  (String.length (sf_image (nth 2 (written_by_run ex_resetting_world) ex_no_file))
   <= max_name_length)%nat.
Proof.
  split; [vm_compute; reflexivity|].
  apply (normal_map_written_non_color ex_resetting_world 0 ex_cube
           (nth 2 (written_by_run ex_resetting_world) ex_no_file)).
  - reflexivity.
  - reflexivity.
  - simpl. lia.
  - vm_compute. tauto.
  - vm_compute. reflexivity.
Defined.

Lemma normal_map_float_not_rechecked :
  ~ normal_map_written_as_claimed ex_resetting_world.
Proof.
  intros H.
  destruct (H 0%nat ex_cube (nth 2 (written_by_run ex_resetting_world) ex_no_file))
    as [_ Hf].
  - reflexivity.
  - reflexivity.
  - vm_compute. tauto.
  - vm_compute. reflexivity.
  - vm_compute in Hf. discriminate.
Qed.

(** C2, on the session whose output directory cannot be created: the
    [finally] block reads [baked_images] before it was ever assigned, so
    [execute] ends in [UnboundLocalError] and nothing is restored. *)
Theorem setup_failure_skips_teardown :
  fst (execute ex_readonly_world) = Exc (UnboundLocalError "baked_images") /\
  bake_log (snd (execute ex_readonly_world)) = [] /\
  engine (scene ex_readonly_world) = "BLENDER_EEVEE_NEXT" /\
  engine (scene (snd (execute ex_readonly_world))) = "CYCLES" /\
  samples (scene ex_readonly_world) = 4096%Z /\
  samples (scene (snd (execute ex_readonly_world))) = 32%Z /\
  use_selected_to_active (scene ex_readonly_world) = true /\
  use_selected_to_active (scene (snd (execute ex_readonly_world))) = false /\
  selected_objects ex_readonly_world = [0; 1]%nat /\
  selected_objects (snd (execute ex_readonly_world)) = [0]%nat /\
  reports (snd (execute ex_readonly_world))
  = [(WARNING, "More than one object selected. Baking only the active object.");
     (WARNING, "No UV map was active for render on 'Cube'. Automatically set 'UVMap' as active for render.");
     (ERROR, "Error during bake setup: [Errno 13] Permission denied")].
Proof. vm_compute. repeat split. Qed.

(** C4, on the material in which a Math node is already named
    [BakeTargetNode]: the node that [add_bake_image_node] inserts gets the
    name [BakeTargetNode.001], [remove_bake_image_node] removes the Math
    node instead, and the inserted node is still in the graph when
    [bake_diffuse] returns and when [execute] returns. *)
Theorem bake_node_left_behind :
  let inserted :=
    {| node_id := 4; node_name := "BakeTargetNode.001"; node_type := "TEX_IMAGE";
       node_label := "Bake Target (Cube_Diffuse)"; node_image := Some "Cube_Diffuse";
       node_select := true |} in
  let w0 := snd (allocate_buffer (get_props ex_clash_world) 0 "Diffuse"
                   (ex_loop_world ex_clash_world)) in
  nodes <$> materials w0 !! 0%nat = Some [ex_principled; ex_output; ex_math] /\
  fst (bake_diffuse "Cube_Diffuse" "Diffuse" 0 w0) = Ok tt /\
  nodes <$> materials (snd (bake_diffuse "Cube_Diffuse" "Diffuse" 0 w0)) !! 0%nat
  = Some [ex_principled; ex_output; inserted] /\
  fst (execute ex_clash_world) = Ok FINISHED /\
  nodes <$> materials (snd (execute ex_clash_world)) !! 0%nat
  = Some [ex_principled; ex_output; inserted].
Proof. vm_compute. repeat split. Qed.

Lemma has_pixel_data_ex_buffer pixels :
  pixels <> [] -> has_pixel_data (ex_buffer pixels).
Proof.
  intros Hp. unfold has_pixel_data. simpl. split_and!; try discriminate; [reflexivity|].
  now destruct pixels.
Qed.

Lemma solid_color_detection_witness :
  is_image_solid_color (ex_buffer ex_flat_pixels) = true /\
  is_image_solid_color (ex_buffer ex_relief_pixels) = false /\
  fst (bake_map (get_props ex_world) 0 0 "Normal" bake_normal (ex_loop_world ex_world))
  = Ok true /\
  last (reports (snd (bake_map (get_props ex_world) 0 0 "Normal" bake_normal
                        (ex_loop_world ex_world))))
  = Some (WARNING, solid_warning "Cube_Normal").
Proof.
  destruct (solid_color_detection (ex_buffer ex_flat_pixels) ex_flat_pixels)
    as (Hflat & _ & Hwarn);
    [apply has_pixel_data_ex_buffer; discriminate | reflexivity |].
  destruct (solid_color_detection (ex_buffer ex_relief_pixels) ex_relief_pixels)
    as (_ & Hrelief & _);
    [apply has_pixel_data_ex_buffer; discriminate | reflexivity |].
  assert (H1 : is_image_solid_color (ex_buffer ex_flat_pixels) = true).
  { apply Hflat. intros p Hc j Hj. unfold complete in Hc. simpl in Hc.
    assert (Hp : (p = 0 \/ p = 1)%nat) by lia.
    assert (Hj4 : (j = 0 \/ j = 1 \/ j = 2 \/ j = 3)%nat) by (simpl in Hj; lia).
    destruct Hp as [-> | ->]; destruct Hj4 as [-> | [-> | [-> | ->]]];
      vm_compute; discriminate. }
  assert (H2 : is_image_solid_color (ex_buffer ex_relief_pixels) = false).
  { apply Hrelief. exists 1%nat. split; [unfold complete; simpl; lia|].
    exists 0%nat. split; [simpl; lia | vm_compute; reflexivity]. }
  split; [exact H1|]. split; [exact H2|].
  rewrite (Hwarn H1 (get_props ex_world) 0%nat 0%nat bake_normal
             (ex_loop_world ex_world) "Cube_Normal"
             (snd (allocate_buffer (get_props ex_world) 0 "Normal"
                     (snd (assign_image None (ex_loop_world ex_world)))))
             (snd (bake_normal "Cube_Normal" "Normal" 0
                     (snd (allocate_buffer (get_props ex_world) 0 "Normal"
                             (snd (assign_image None (ex_loop_world ex_world)))))))).
  - cbn [fst snd reports set_reports]. split; [reflexivity | apply last_snoc].
  - vm_compute. reflexivity.
  - vm_compute. reflexivity.
  - vm_compute. reflexivity.
Defined.

Lemma solid_color_edge_cases_witness :
  is_image_solid_color (new_image 512 512 true) = false /\
  is_image_solid_color ex_unreadable = false /\
  is_image_solid_color ex_empty_copy = true /\
  is_image_solid_color ex_no_channels = true.
Proof.
  split_and!.
  - apply (proj1 (solid_color_edge_cases (new_image 512 512 true))). now left.
  - apply (proj1 (proj2 (solid_color_edge_cases ex_unreadable)) "Couldn't load image buffer").
    reflexivity.
  - apply (proj1 (proj2 (proj2 (proj2 (solid_color_edge_cases ex_empty_copy))))).
    + unfold has_pixel_data. simpl. split_and!; [reflexivity | lia | lia | lia].
    + reflexivity.
  - apply (proj2 (proj2 (proj2 (proj2 (solid_color_edge_cases ex_no_channels)))))
      with (pixels := ex_relief_pixels).
    + unfold has_pixel_data. simpl. split_and!; [reflexivity | lia | lia | lia].
    + reflexivity.
    + reflexivity.
Defined.

Lemma validation_order_witness :
  cancelled_with (set_active None ex_world) "No active object selected." /\
  finished_with ex_twin_world
    {| v_model := 0; v_material := 0; v_principled_node := ex_second_principled |}.
Proof.
  split.
  - apply (proj1 (validation_order (set_active None ex_world))). reflexivity.
  - destruct (validation_order ex_twin_world) as [_ H].
    destruct (H 0%nat ex_cube eq_refl eq_refl) as [_ H1].
    destruct (H1 eq_refl) as [_ H2].
    destruct H2 as [_ H3]; [discriminate|].
    destruct (H3 0%nat ex_twin_material eq_refl eq_refl) as [_ H4].
    destruct (H4 eq_refl) as [_ H5].
    exact (H5 ex_second_principled eq_refl).
Defined.

Lemma uv_promotion_witness :
  exists w1 o1,
    validateRequirements ex_world = validate_material 0 w1 /\
    reports w1 = reports ex_world ++ multi_selection_warning ex_world
                 ++ [promotion_warning ex_cube {| uv_name := "UVMap"; active_render := false |}] /\
    materials w1 = materials ex_world /\
    obj_active_material o1 = obj_active_material ex_cube /\
    objects (snd (validateRequirements ex_world)) !! 0%nat = Some o1 /\
    uv_layers o1 = [ {| uv_name := "UVMap"; active_render := true |} ] /\
    length (List.filter active_render (uv_layers o1)) = 1%nat.
Proof.
  apply (uv_promotion ex_world 0 ex_cube {| uv_name := "UVMap"; active_render := false |} []);
    try reflexivity.
  repeat constructor.
Defined.

(** ** [poll] *)

Lemma active_object_lookup w a :
  active_object w = Some a -> active w = Some a /\ is_Some (objects w !! a).
Proof.
  unfold active_object. destruct (active w) as [a'|]; [|discriminate].
  destruct (objects w !! a') eqn:E; [|discriminate]. intros [= <-]. eauto.
Qed.

Lemma find_render_layer_Some layers r :
  find_render_layer layers = Some r ->
  exists l, layers !! r = Some l /\ active_render l = true.
Proof.
  revert r. induction layers as [|l layers IH]; intros r; simpl; [discriminate|].
  destruct (active_render l) eqn:E.
  - intros [= <-]. now exists l.
  - destruct (find_render_layer layers) as [r'|]; [|discriminate].
    intros [= <-]. now apply IH.
Qed.

(** What a successful validation has checked, on the session it returns. *)
Lemma validate_finished_facts w v w' :
  validateRequirements w = (Ok (ReqFinished v), w') ->
  active w' = Some (v_model v) /\
  exists o m,
    objects w' !! v_model v = Some o /\ obj_type o = "MESH" /\
    (exists layer, In layer (uv_layers o) /\ active_render layer = true) /\
    is_Some (uv_active o) /\
    obj_active_material o = Some (v_material v) /\
    materials w' !! v_material v = Some m /\ use_nodes m = true /\
    In (v_principled_node v) (nodes m) /\
    node_type (v_principled_node v) = "BSDF_PRINCIPLED".
Proof.
  intros Hv. destruct (active_object w) as [a|] eqn:Ea.
  2:{ rewrite (validate_no_active _ Ea) in Hv. discriminate. }
  destruct (active_object_lookup _ _ Ea) as [Hact [o Ho]].
  destruct (String.eqb_spec (obj_type o) "MESH") as [Ht|Ht].
  2:{ rewrite (validate_not_mesh _ _ _ Ea Ho Ht) in Hv. discriminate. }
  destruct (uv_layers o) as [|first_layer rest] eqn:Hu.
  { rewrite (validate_no_uv _ _ _ Ea Ho Ht Hu) in Hv. discriminate. }
  rewrite (validate_to_uv _ _ _ _ _ Ea Ho Ht Hu) in Hv. cbv zeta in Hv.
  (* the session and the object that reach the material checks *)
  assert (Hstage : exists w1 o1,
            validate_material a w1 = (Ok (ReqFinished v), w') /\
            active w1 = Some a /\ objects w1 !! a = Some o1 /\ obj_type o1 = "MESH" /\
            (exists layer, In layer (uv_layers o1) /\ active_render layer = true) /\
            is_Some (uv_active o1)).
  { destruct (find_render_layer (uv_layers o)) as [r|] eqn:Hf.
    - apply find_render_layer_Some in Hf as (l & Hl & Hr).
      assert (Hin : exists layer, In layer (uv_layers o) /\ active_render layer = true).
      { exists l. split; [|exact Hr]. apply list_elem_of_In, list_elem_of_lookup. eauto. }
      erewrite ensure_active_uv_run in Hv by (simpl; exact Ho).
      destruct (uv_active o) eqn:Hua.
      + eexists _, o. split; [exact Hv|]. simpl. rewrite Hua. split_and!; eauto.
      + eexists _, _. split; [exact Hv|]. simpl.
        rewrite list_lookup_alter_eq, Ho. simpl. split_and!; eauto.
    - assert (Hin : exists layer,
                In layer (alter (set_active_render true) 0%nat (uv_layers o)) /\
                active_render layer = true).
      { rewrite Hu. exists (set_active_render true first_layer). split; [now left | reflexivity]. }
      erewrite ensure_active_uv_run in Hv
        by (simpl; rewrite list_lookup_alter_eq, Ho; reflexivity).
      simpl in Hv. destruct (uv_active o) eqn:Hua.
      + eexists _, (set_uv_layers (alter (set_active_render true) 0%nat) o).
        split; [exact Hv|]. simpl.
        rewrite list_lookup_alter_eq, Ho. simpl. rewrite Hua.
        split_and!; eauto.
      + eexists _, (set_uv_active (Some 0%nat)
                      (set_uv_layers (alter (set_active_render true) 0%nat) o)).
        split; [exact Hv|]. simpl.
        rewrite !list_lookup_alter_eq, Ho. simpl.
        split_and!; eauto. }
  destruct Hstage as (w1 & o1 & Hm & Ha1 & Ho1 & Ht1 & Hl1 & Hu1).
  rewrite (validate_material_run _ _ _ Ho1) in Hm.
  destruct (obj_active_material o1) as [material|] eqn:Hmat; [|discriminate].
  destruct (materials w1 !! material) as [m|] eqn:Hmm; [|discriminate].
  destruct (use_nodes m) eqn:Hun; simpl in Hm; [|discriminate].
  destruct (last (List.filter is_principled (nodes m))) as [n|] eqn:Hlast; [|discriminate].
  injection Hm as <- <-. simpl. split; [exact Ha1|].
  exists o1, m. split_and!; try assumption.
  - apply last_Some in Hlast as [l' Hl']. 
    assert (Hin : In n (List.filter is_principled (nodes m))).
    { rewrite Hl'. apply in_or_app. right. now left. }
    now apply filter_In in Hin.
  - apply last_Some in Hlast as [l' Hl'].
    assert (Hin : In n (List.filter is_principled (nodes m))).
    { rewrite Hl'. apply in_or_app. right. now left. }
    apply filter_In in Hin as [_ Hp]. now apply String.eqb_eq in Hp.
Qed.

Lemma poll_false_cases w :
  poll w = false ->
  active_object w = None \/
  exists a o, active_object w = Some a /\ objects w !! a = Some o /\ obj_type o <> "MESH".
Proof.
  unfold poll. destruct (active_object w) as [a|] eqn:Ea; [|now left].
  destruct (active_object_lookup _ _ Ea) as [_ [o Ho]]. rewrite Ho.
  intros Hne. right. exists a, o. split_and!; try reflexivity; [exact Ho|].
  now apply String.eqb_neq.
Qed.

(** X1: the operator's [poll] is the condition of the first two checks of
    validation.  Where [poll] is false, validation cancels at once with one
    error report and [execute] returns [CANCELLED]; validation succeeds
    only where [poll] is true. *)
Theorem poll_guards_validation (w : World) :
  (poll w = false ->
   exists msg,
     validateRequirements w
     = (Ok ReqCancelled, set_reports (fun r => r ++ [(ERROR, msg)]) w) /\
     fst (execute w) = Ok CANCELLED) /\
  (forall v w', validateRequirements w = (Ok (ReqFinished v), w') -> poll w = true).
Proof.
  split.
  - intros Hp. apply poll_false_cases in Hp as [Ha | (a & o & Ha & Ho & Ht)].
    + eexists. split; [now apply validate_no_active|].
      rewrite execute_run. cbv zeta. now rewrite validate_no_active.
    + eexists. split; [now apply (validate_not_mesh w a o)|].
      rewrite execute_run. cbv zeta. now erewrite validate_not_mesh by eassumption.
  - intros v w' Hv. destruct (poll w) eqn:Hp; [reflexivity|].
    apply poll_false_cases in Hp as [Ha | (a & o & Ha & Ho & Ht)].
    + rewrite (validate_no_active _ Ha) in Hv. discriminate.
    + rewrite (validate_not_mesh _ _ _ Ha Ho Ht) in Hv. discriminate.
Qed.

(** X2: what a successful validation guarantees to its caller. *)
Theorem validation_result_sound (w w' : World) (v : Validated) :
  validateRequirements w = (Ok (ReqFinished v), w') ->
  active w' = Some (v_model v) /\
  exists o m,
    objects w' !! v_model v = Some o /\ obj_type o = "MESH" /\
    (exists layer, In layer (uv_layers o) /\ active_render layer = true) /\
    is_Some (uv_active o) /\
    obj_active_material o = Some (v_material v) /\
    materials w' !! v_material v = Some m /\ use_nodes m = true /\
    In (v_principled_node v) (nodes m) /\
    node_type (v_principled_node v) = "BSDF_PRINCIPLED".
Proof. apply validate_finished_facts. Qed.

#[global] Instance reports_grow_preorder : PreOrder reports_grow.
Proof.
  split.
  - intros w. exists []. now rewrite app_nil_r.
  - intros w1 w2 w3 [l1 H1] [l2 H2]. exists (l1 ++ l2). now rewrite H2, H1, app_assoc.
Qed.

Lemma reports_grow_keeps w w' : reports w' = reports w -> reports_grow w w'.
Proof. intros H. exists []. now rewrite app_nil_r. Qed.

Lemma report_grows sev msg : respects reports_grow (report sev msg).
Proof. intros w. now exists [(sev, msg)]. Qed.

Ltac grow_leaf :=
  first [ apply report_grows
        | apply (respects_of_keeps _ reports);
          [intros ? ?; apply reports_grow_keeps | solve [keeps_auto]] ].

Ltac grow_open :=
  lazymatch goal with
  | |- respects _ (report _ _) => fail
  | |- respects _ ?m => let h := head_of m in progress unfold h
  end.

Ltac grow_auto := repeat first [ grow_leaf | respects_step | grow_open ].

Lemma validate_reports_grow : respects reports_grow validateRequirements.
Proof. grow_auto. Qed.

Lemma fmap_alter_same {A B} (g : A -> B) (f : A -> A) i (l : list A) :
  (forall x, g (f x) = g x) -> g <$> alter f i l = g <$> l.
Proof.
  intros Hf. revert i. induction l as [|x l IH]; intros [|i]; simpl; try reflexivity.
  - now rewrite Hf.
  - f_equal. apply IH.
Qed.

Lemma obj_update_keeps_identity model f :
  (forall o, obj_name (f o) = obj_name o /\ obj_type (f o) = obj_type o /\
             obj_selected (f o) = obj_selected o /\
             material_slots (f o) = material_slots o /\
             active_material_index (f o) = active_material_index o /\
             uv_name <$> uv_layers (f o) = uv_name <$> uv_layers o) ->
  keeps object_identity (obj_update model f).
Proof.
  intros Hf w. unfold object_identity. simpl. apply fmap_alter_same.
  intros o. destruct (Hf o) as (-> & -> & -> & -> & -> & ->). reflexivity.
Qed.

Lemma validate_keeps_identity : keeps object_identity validateRequirements.
Proof.
  unfold validateRequirements, ensure_active_uv, uv_set_active_render.
  repeat first
    [ keeps_step
    | apply obj_update_keeps_identity; intros ?; simpl; split_and!;
      first [ reflexivity | apply fmap_alter_same; reflexivity ]
    | lazymatch goal with
      | |- keeps _ (obj_update _ _) => fail 1
      | _ => keeps_open
      end ].
Qed.

Lemma validate_keeps_materials : keeps materials validateRequirements.
Proof. keeps_auto. Qed.
Lemma validate_keeps_images : keeps images validateRequirements.
Proof. keeps_auto. Qed.
Lemma validate_keeps_dirs : keeps fs_dirs validateRequirements.
Proof. keeps_auto. Qed.
Lemma validate_keeps_frame : keeps frame validateRequirements.
Proof. keeps_auto. Qed.

(** X3: validation reads the session; all it ever writes are report lines
    and the UV flags ([active_render] of a layer, the active layer) of
    the active object. *)
Theorem validation_writes_uv_flags_only (w : World) :
  let w' := snd (validateRequirements w) in
  scene w' = scene w /\ active w' = active w /\ materials w' = materials w /\
  images w' = images w /\ fs_dirs w' = fs_dirs w /\ fs_files w' = fs_files w /\
  bake_log w' = bake_log w /\ frame w' = frame w /\
  object_identity w' = object_identity w /\
  exists new, reports w' = reports w ++ new.
Proof.
  cbv zeta. split_and!.
  - apply validate_keeps_scene.
  - apply validate_keeps_active.
  - apply validate_keeps_materials.
  - apply validate_keeps_images.
  - apply validate_keeps_dirs.
  - apply validate_keeps_files.
  - apply validate_keeps_log.
  - apply validate_keeps_frame.
  - apply validate_keeps_identity.
  - apply validate_reports_grow.
Qed.

Lemma find_slot_lookup material slots k i :
  find_slot material slots k = Some i ->
  (k <= i)%nat /\ slots !! (i - k)%nat = Some (Some material).
Proof.
  revert k. induction slots as [|slot slots IH]; intros k; simpl; [discriminate|].
  destruct slot as [x|]; simpl.
  - destruct (Nat.eqb_spec x material) as [->|Hne].
    + intros [= <-]. split; [lia|]. now rewrite Nat.sub_diag.
    + intros H. apply IH in H as [Hle Hl]. split; [lia|].
      replace (i - k)%nat with (S (i - S k)) by lia. exact Hl.
  - intros H. apply IH in H as [Hle Hl]. split; [lia|].
    replace (i - k)%nat with (S (i - S k)) by lia. exact Hl.
Qed.

(** The setup phase with registered properties, on a session that holds
    the model: the directory step, then the material-slot step. *)
Lemma setup_phase_cases p model material w o :
  objects w !! model = Some o ->
  setup_phase (RegisteredProps p) model material w
  = let path := resolved_output_path (host w) p in
    let w0 := bake_session model path w in
    let slot_step (w1 : World) : Res unit * World :=
      if same_material (obj_active_material o) material then (Ok tt, w1)
      else match find_slot material (material_slots o) 0 with
           | Some i => (Ok tt, set_objects (alter (set_active_material_index i) model) w1)
           | None =>
               match materials w !! material with
               | Some m =>
                   (Exc (RuntimeError ("Material '" +:+ mat_name m
                                       +:+ "' missing from object.")),
                    set_reports (fun r => r ++ [(ERROR, "Original material '" +:+ mat_name m
                                                         +:+ "' not found in object slots.")]) w1)
               | None => (Exc (ReferenceError "material has been removed"), w1)
               end
           end in
    if existsb (String.eqb path) (fs_dirs w) then slot_step w0
    else match makedirs_error (host w) path with
         | Some msg => (Exc (OSError msg), w0)
         | None => slot_step (set_fs_dirs (fun d => d ++ [path]) w0)
         end.
Proof.
  intros Ho. cbv zeta. unfold setup_phase, resolved_output_path.
  cbv beta iota delta [bind modify gets select_all_deselect select_set obj_update
                       bpy_path_abspath assign_output_path props_subfolder_for_size
                       ret raise when read_local os_path_exists os_makedirs obj_get
                       props_output_folder props_texture_size mat_get report].
  assert (Hlook : alter (set_selected true) model (map (set_selected false) (objects w))
                  !! model = Some (set_selected true (set_selected false o))).
  { rewrite list_lookup_alter_eq.
    change (map (set_selected false) (objects w)) with (set_selected false <$> objects w).
    now rewrite list_lookup_fmap, Ho. }
  assert (Hlook2 : forall i,
            alter (set_active_material_index i) model
              (alter (set_selected true) model (map (set_selected false) (objects w)))
            !! model
            = Some (set_active_material_index i (set_selected true (set_selected false o)))).
  { intros i. now rewrite list_lookup_alter_eq, Hlook. }
  change (obj_active_material o)
    with (obj_active_material (set_selected true (set_selected false o))).
  change (material_slots o)
    with (material_slots (set_selected true (set_selected false o))).
  assert (Hfound : forall i,
            find_slot material (material_slots (set_selected true (set_selected false o))) 0
            = Some i ->
            same_material
              (obj_active_material
                 (set_active_material_index i (set_selected true (set_selected false o))))
              material = true).
  { intros i Hi. apply find_slot_lookup in Hi as [_ Hi]. rewrite Nat.sub_0_r in Hi.
    unfold obj_active_material. simpl in *. rewrite Hi. simpl. apply Nat.eqb_refl. }
  destruct (same_material _ material) eqn:Hsame;
    [|destruct (find_slot material _ 0) as [i|] eqn:Hslot;
      [specialize (Hfound i eq_refl)|destruct (materials w !! material) as [m|] eqn:Hmat]];
  destruct (subfolder_for_size p);
    cbn [fst snd frame set_frame output_path host set_objects set_active set_scene
         fs_dirs objects set_fs_dirs];
    destruct (existsb _ (fs_dirs w)); cbn [negb];
    try destruct (makedirs_error _ _);
    repeat (progress (cbn [fst snd negb frame set_frame output_path host set_objects
                           set_active set_scene fs_dirs objects set_fs_dirs materials
                           set_reports set_materials];
                      rewrite ?Hlook2, ?Hlook, ?Hsame, ?Hslot, ?Hmat, ?Hfound));
    reflexivity.
Qed.

Lemma setup_phase_run p model material w o :
  objects w !! model = Some o -> obj_active_material o = Some material ->
  setup_phase (RegisteredProps p) model material w
  = let path := resolved_output_path (host w) p in
    let w0 := bake_session model path w in
    if existsb (String.eqb path) (fs_dirs w) then (Ok tt, w0)
    else match makedirs_error (host w) path with
         | Some msg => (Exc (OSError msg), w0)
         | None => (Ok tt, set_fs_dirs (fun d => d ++ [path]) w0)
         end.
Proof.
  intros Ho Hm. rewrite (setup_phase_cases _ _ _ _ _ Ho). cbv zeta.
  rewrite Hm. simpl same_material. now rewrite Nat.eqb_refl.
Qed.

Lemma setup_phase_no_model p model material w :
  objects w !! model = None ->
  setup_phase (RegisteredProps p) model material w
  = let path := resolved_output_path (host w) p in
    let w0 := bake_session model path w in
    if existsb (String.eqb path) (fs_dirs w)
    then (Exc (ReferenceError "object has been removed"), w0)
    else match makedirs_error (host w) path with
         | Some msg => (Exc (OSError msg), w0)
         | None => (Exc (ReferenceError "object has been removed"),
                    set_fs_dirs (fun d => d ++ [path]) w0)
         end.
Proof.
  intros Ho. cbv zeta. unfold setup_phase, resolved_output_path.
  cbv beta iota delta [bind modify gets select_all_deselect select_set obj_update
                       bpy_path_abspath assign_output_path props_subfolder_for_size
                       ret raise when read_local os_path_exists os_makedirs obj_get
                       props_output_folder props_texture_size mat_get report].
  assert (Hlook : alter (set_selected true) model (map (set_selected false) (objects w))
                  !! model = None).
  { rewrite list_lookup_alter_eq.
    change (map (set_selected false) (objects w)) with (set_selected false <$> objects w).
    now rewrite list_lookup_fmap, Ho. }
  destruct (subfolder_for_size p);
    cbn [fst snd frame set_frame output_path host set_objects set_active set_scene
         fs_dirs objects set_fs_dirs];
    destruct (existsb _ (fs_dirs w)); cbn [negb];
    try destruct (makedirs_error _ _);
    repeat (progress (cbn [fst snd negb frame set_frame output_path host set_objects
                           set_active set_scene fs_dirs objects set_fs_dirs materials
                           set_reports set_materials];
                      rewrite ?Hlook));
    reflexivity.
Qed.

(** [MockProps] has no [subfolder_for_size]: the setup phase stops at
    line 71, after the settings and the selection were changed. *)
Lemma setup_phase_mock model material w :
  setup_phase MockProps model material w
  = (Exc (AttributeError "subfolder_for_size"),
     bake_session model (abspath (host w) "//baked_textures") w).
Proof. reflexivity. Qed.

Lemma filter_eqb_seq m s n :
  List.filter (fun i => Nat.eqb i m) (seq s n)
  = if (s <=? m)%nat && (m <? s + n)%nat then [m] else [].
Proof.
  revert s. induction n as [|n IH]; intros s; simpl.
  - destruct (Nat.leb_spec s m), (Nat.ltb_spec m (s + 0)); simpl; try reflexivity. lia.
  - rewrite IH. destruct (Nat.eqb_spec s m) as [->|Hne].
    + destruct (Nat.leb_spec (S m) m); [lia|]. simpl.
      destruct (Nat.leb_spec m m); [|lia]. destruct (Nat.ltb_spec m (m + S n)); [|lia].
      reflexivity.
    + destruct (Nat.leb_spec (S s) m), (Nat.leb_spec s m),
        (Nat.ltb_spec m (S s + n)), (Nat.ltb_spec m (s + S n)); simpl;
        try reflexivity; lia.
Qed.

Lemma only_model_selected (objs : list Object) model :
  (model < length objs)%nat ->
  List.filter (is_selected (alter (set_selected true) model (map (set_selected false) objs)))
    (seq 0 (length objs)) = [model].
Proof.
  intros Hlt.
  rewrite (filter_ext_in _ (fun i => Nat.eqb i model)).
  - rewrite filter_eqb_seq. destruct (Nat.leb_spec 0 model); [|lia].
    destruct (Nat.ltb_spec model (0 + length objs)); [reflexivity | lia].
  - intros i Hi. apply in_seq in Hi. unfold is_selected.
    change (map (set_selected false) objs) with (set_selected false <$> objs).
    destruct (Nat.eqb_spec i model) as [->|Hne].
    + rewrite list_lookup_alter_eq, list_lookup_fmap.
      destruct (lookup_lt_is_Some_2 objs model Hlt) as [o ->]. reflexivity.
    + rewrite list_lookup_alter_ne by congruence. rewrite list_lookup_fmap.
      destruct (lookup_lt_is_Some_2 objs i) as [o ->]; [lia | reflexivity].
Qed.

Lemma bake_session_selected model path w :
  (model < length (objects w))%nat ->
  selected_objects (bake_session model path w) = [model].
Proof.
  intros Hlt. unfold selected_objects. simpl.
  rewrite length_alter, length_map. now apply only_model_selected.
Qed.

Lemma existsb_snoc_self path (dirs : list string) :
  existsb (String.eqb path) (dirs ++ [path]) = true.
Proof. rewrite existsb_app. simpl. now rewrite String.eqb_refl, orb_true_r. Qed.

Lemma setup_phase_post (props : PropsObj) (model material : nat) (w w1 : World) :
  setup_phase props model material w = (Ok tt, w1) ->
  exists p o,
    props = RegisteredProps p /\
    engine (scene w1) = "CYCLES" /\ samples (scene w1) = 32%Z /\
    use_selected_to_active (scene w1) = false /\
    active w1 = Some model /\ selected_objects w1 = [model] /\
    output_path (frame w1) = Some (resolved_output_path (host w) p) /\
    existsb (String.eqb (resolved_output_path (host w) p)) (fs_dirs w1) = true /\
    objects w1 !! model = Some o /\ obj_active_material o = Some material.
Proof.
  intros H. destruct props as [p|]; [|rewrite setup_phase_mock in H; discriminate].
  destruct (objects w !! model) as [o|] eqn:Ho.
  2:{ rewrite (setup_phase_no_model _ _ _ _ Ho) in H. cbv zeta in H.
      repeat case_match; discriminate. }
  pose proof (lookup_lt_Some _ _ _ Ho) as Hlt.
  rewrite (setup_phase_cases _ _ _ _ _ Ho) in H. cbv zeta in H.
  set (path := resolved_output_path (host w) p) in *.
  assert (Hlook : forall w0,
            objects w0 = objects (bake_session model path w) ->
            objects w0 !! model = Some (set_selected true (set_selected false o))).
  { intros w0 ->. simpl. rewrite list_lookup_alter_eq.
    change (map (set_selected false) (objects w)) with (set_selected false <$> objects w).
    now rewrite list_lookup_fmap, Ho. }
  assert (Hslot : forall w0,
            objects w0 = objects (bake_session model path w) ->
            scene w0 = scene (bake_session model path w) ->
            active w0 = Some model -> frame w0 = frame (bake_session model path w) ->
            existsb (String.eqb path) (fs_dirs w0) = true ->
            (if same_material (obj_active_material o) material then (Ok tt, w0)
             else match find_slot material (material_slots o) 0 with
                  | Some i =>
                      (Ok tt, set_objects (alter (set_active_material_index i) model) w0)
                  | None =>
                      match materials w !! material with
                      | Some m =>
                          (Exc (RuntimeError ("Material '" +:+ mat_name m
                                              +:+ "' missing from object.")),
                           set_reports
                             (fun r => r ++ [(ERROR, "Original material '" +:+ mat_name m
                                                     +:+ "' not found in object slots.")]) w0)
                      | None => (Exc (ReferenceError "material has been removed"), w0)
                      end
                  end) = (Ok tt, w1) ->
            exists o1,
              engine (scene w1) = "CYCLES" /\ samples (scene w1) = 32%Z /\
              use_selected_to_active (scene w1) = false /\
              active w1 = Some model /\ selected_objects w1 = [model] /\
              output_path (frame w1) = Some path /\
              existsb (String.eqb path) (fs_dirs w1) = true /\
              objects w1 !! model = Some o1 /\ obj_active_material o1 = Some material).
  { intros w0 Hobj Hsc Hact Hfr Hdir Hrun.
    assert (Hsel0 : selected_objects w0 = [model]).
    { rewrite <- (bake_session_selected model path w Hlt).
      unfold selected_objects. now rewrite Hobj. }
    destruct (same_material (obj_active_material o) material) eqn:Hsame.
    - injection Hrun as <-. exists (set_selected true (set_selected false o)).
      rewrite Hsc, Hfr. split_and!; try first [reflexivity | assumption].
      + now apply Hlook.
      + change (obj_active_material (set_selected true (set_selected false o)))
          with (obj_active_material o).
        unfold same_material in Hsame. destruct (obj_active_material o) as [x|]; [|discriminate].
        apply Nat.eqb_eq in Hsame. now subst.
    - destruct (find_slot material (material_slots o) 0) as [i|] eqn:Hfs.
      2:{ destruct (materials w !! material); discriminate. }
      injection Hrun as <-.
      exists (set_active_material_index i (set_selected true (set_selected false o))).
      simpl. rewrite Hsc, Hfr. split_and!; try first [reflexivity | assumption].
      + rewrite <- Hsel0. apply selected_objects_flags. unfold selection_flags. simpl.
        apply flags_alter. reflexivity.
      + rewrite list_lookup_alter_eq, (Hlook w0 Hobj). reflexivity.
      + apply find_slot_lookup in Hfs as [_ Hfs]. rewrite Nat.sub_0_r in Hfs.
        unfold obj_active_material. simpl. now rewrite Hfs. }
  exists p. 
  destruct (existsb (String.eqb path) (fs_dirs w)) eqn:Hdir.
  - destruct (Hslot _ eq_refl eq_refl eq_refl eq_refl Hdir H) as (o1 & Hres).
    exists o1. split; [reflexivity | exact Hres].
  - destruct (makedirs_error (host w) path); [discriminate|].
    assert (Hd : existsb (String.eqb path)
                   (fs_dirs (set_fs_dirs (fun d => d ++ [path])
                               (bake_session model path w))) = true)
      by (simpl; apply existsb_snoc_self).
    destruct (Hslot (set_fs_dirs (fun d => d ++ [path]) (bake_session model path w))
                eq_refl eq_refl eq_refl eq_refl Hd H) as (o1 & Hres).
    exists o1. split; [reflexivity | exact Hres].
Qed.

(** X4: what the setup phase has established when it raises nothing:
    Cycles with 32 samples, selected-to-active off, the model alone
    selected and active with the material in its active slot, the output
    path bound and its directory on disk. *)
Theorem setup_phase_establishes (props : PropsObj) (model material : nat)
    (w w1 : World) :
  setup_phase props model material w = (Ok tt, w1) ->
  exists p o,
    props = RegisteredProps p /\
    engine (scene w1) = "CYCLES" /\ samples (scene w1) = 32%Z /\
    use_selected_to_active (scene w1) = false /\
    active w1 = Some model /\ selected_objects w1 = [model] /\
    output_path (frame w1) = Some (resolved_output_path (host w) p) /\
    existsb (String.eqb (resolved_output_path (host w) p)) (fs_dirs w1) = true /\
    objects w1 !! model = Some o /\ obj_active_material o = Some material.
Proof. apply setup_phase_post. Qed.

Lemma setup_keeps_pending props model material :
  keeps (fun w => baked_images (frame w)) (setup_phase props model material).
Proof. keeps_auto. Qed.

Lemma setup_keeps_images props model material :
  keeps images (setup_phase props model material).
Proof. keeps_auto. Qed.

(** [execute] when validation passes and the setup phase raises [e]: the
    handler of line 168 reports and the [finally] block stops at its
    first statement. *)
Lemma execute_setup_fails w v w1 e w2 :
  validateRequirements (set_frame (fun _ => empty_frame) w) = (Ok (ReqFinished v), w1) ->
  setup_phase (get_props w) (v_model v) (v_material v) w1 = (Exc e, w2) ->
  execute w
  = (Exc (UnboundLocalError "baked_images"),
     snd (assign_bake_successful false
            (set_reports (fun r => r ++ [(ERROR, "Error during bake setup: "
                                                  +:+ exn_message e)]) w2))).
Proof.
  intros Hv Hs. rewrite execute_run. cbv zeta. rewrite Hv.
  change (get_props (set_frame (fun _ => empty_frame) w)) with (get_props w).
  unfold try_block. rewrite (try_except_bind_Exc _ _ _ _ _ _ Hs).
  pose proof (validate_keeps_frame (set_frame (fun _ => empty_frame) w)) as Vf.
  pose proof (setup_keeps_pending (get_props w) (v_model v) (v_material v) w1) as Sp.
  rewrite Hv in Vf. rewrite Hs in Sp. simpl in Vf, Sp. rewrite Vf in Sp. simpl in Sp.
  unfold finally_block, cleanup_images.
  erewrite bind_Exc; [reflexivity|].
  erewrite bind_Exc; [reflexivity|].
  apply read_local_None. simpl. exact Sp.
Qed.

(** X5: an exception raised by the setup phase is reported, but it is not
    what [execute] ends with: the [finally] block reads [baked_images],
    which is assigned after the setup statements only, so [execute]
    raises [UnboundLocalError] and leaves the session as the setup phase
    left it. *)
Theorem setup_error_escapes (w : World) (v : Validated) (w1 w2 : World) (e : Exn) :
  validateRequirements (set_frame (fun _ => empty_frame) w) = (Ok (ReqFinished v), w1) ->
  setup_phase (get_props w) (v_model v) (v_material v) w1 = (Exc e, w2) ->
  exists w',
    execute w = (Exc (UnboundLocalError "baked_images"), w') /\
    reports w' = reports w2 ++ [(ERROR, "Error during bake setup: " +:+ exn_message e)] /\
    scene w' = scene w2 /\ objects w' = objects w2 /\ active w' = active w2 /\
    images w' = images w /\ fs_files w' = fs_files w /\ bake_log w' = bake_log w.
Proof.
  intros Hv Hs. eexists. split; [exact (execute_setup_fails _ _ _ _ _ Hv Hs)|].
  pose proof (validate_keeps_images (set_frame (fun _ => empty_frame) w)) as Vi.
  pose proof (validate_keeps_files (set_frame (fun _ => empty_frame) w)) as Vf.
  pose proof (validate_keeps_log (set_frame (fun _ => empty_frame) w)) as Vl.
  pose proof (setup_keeps_images (get_props w) (v_model v) (v_material v) w1) as Si.
  pose proof (setup_keeps_files (get_props w) (v_model v) (v_material v) w1) as Sf.
  pose proof (setup_keeps_log (get_props w) (v_model v) (v_material v) w1) as Sl.
  rewrite Hv in Vi, Vf, Vl. rewrite Hs in Si, Sf, Sl. simpl in *.
  split_and!; congruence.
Qed.

Lemma get_props_unregistered w : autobake_props w = None -> get_props w = MockProps.
Proof. unfold get_props. now intros ->. Qed.

(** X6: without registered properties ([scene.autobake_props] missing)
    the [MockProps] fallback of [execute] cannot complete a run: it has
    no [subfolder_for_size], so line 71 raises; [execute] never returns
    [FINISHED], and once validation has passed it ends in
    [UnboundLocalError] with nothing baked and nothing written. *)
Theorem unregistered_props_never_finish (w : World) :
  autobake_props w = None ->
  (forall w', execute w <> (Ok FINISHED, w')) /\
  (forall v w1,
     validateRequirements (set_frame (fun _ => empty_frame) w) = (Ok (ReqFinished v), w1) ->
     fst (execute w) = Exc (UnboundLocalError "baked_images") /\
     fs_dirs (snd (execute w)) = fs_dirs w /\
     fs_files (snd (execute w)) = fs_files w /\
     bake_log (snd (execute w)) = bake_log w).
Proof.
  intros Hp. apply get_props_unregistered in Hp.
  assert (Hrun : forall v w1,
            validateRequirements (set_frame (fun _ => empty_frame) w)
            = (Ok (ReqFinished v), w1) ->
            execute w
            = (Exc (UnboundLocalError "baked_images"),
               snd (assign_bake_successful false
                      (set_reports
                         (fun r => r ++ [(ERROR, "Error during bake setup: "
                                           +:+ exn_message (AttributeError "subfolder_for_size"))])
                         (bake_session (v_model v)
                            (abspath (host w1) "//baked_textures") w1))))).
  { intros v w1 Hv. apply (execute_setup_fails _ _ _ _ _ Hv).
    rewrite Hp. apply setup_phase_mock. }
  split.
  - intros w' He.
    destruct (validateRequirements (set_frame (fun _ => empty_frame) w))
      as [[[|v]|e] w1] eqn:Hv.
    + rewrite execute_run in He. cbv zeta in He. rewrite Hv in He. discriminate.
    + rewrite (Hrun _ _ eq_refl) in He. discriminate.
    + rewrite execute_run in He. cbv zeta in He. rewrite Hv in He. discriminate.
  - intros v w1 Hv. rewrite (Hrun _ _ Hv). simpl.
    pose proof (validate_keeps_dirs (set_frame (fun _ => empty_frame) w)) as Vd.
    pose proof (validate_keeps_files (set_frame (fun _ => empty_frame) w)) as Vf.
    pose proof (validate_keeps_log (set_frame (fun _ => empty_frame) w)) as Vl.
    rewrite Hv in Vd, Vf, Vl. now split_and!.
Qed.

(** X7: the material-slot checks of lines 79-94.  The second check (line 92)
    can never fire, on any session; and after a successful validation
    neither check fires: the setup phase raises neither of their two
    errors and reports nothing. *)
Theorem material_slot_checks_pass (props : PropsObj) :
  (forall model material w,
     fst (setup_phase props model material w)
     <> Exc (RuntimeError "Failed to set active material.")) /\
  (forall w v w1,
     validateRequirements w = (Ok (ReqFinished v), w1) ->
     (forall name,
        fst (setup_phase props (v_model v) (v_material v) w1)
        <> Exc (RuntimeError ("Material '" +:+ name +:+ "' missing from object."))) /\
     fst (setup_phase props (v_model v) (v_material v) w1)
     <> Exc (RuntimeError "Failed to set active material.") /\
     reports (snd (setup_phase props (v_model v) (v_material v) w1)) = reports w1).
Proof.
  split.
  - intros model material w. destruct props as [p|].
    2:{ rewrite setup_phase_mock. discriminate. }
    destruct (objects w !! model) as [o|] eqn:Ho.
    + rewrite (setup_phase_cases _ _ _ _ _ Ho). cbv zeta.
      repeat case_match; simpl; discriminate.
    + rewrite (setup_phase_no_model _ _ _ _ Ho). cbv zeta.
      repeat case_match; simpl; discriminate.
  - intros w v w1 Hv.
    destruct (validate_finished_facts _ _ _ Hv) as (_ & o & m & Ho & _ & _ & _ & Hm & _).
    destruct props as [p|].
    2:{ rewrite setup_phase_mock.
        split_and!; try intros name; first [discriminate | reflexivity]. }
    rewrite (setup_phase_run _ _ _ _ _ Ho Hm). cbv zeta.
    repeat case_match; simpl; split_and!; try intros name;
      first [discriminate | reflexivity].
Qed.

(** X8: the buffer of a round is named [<model.name>_<map_type>] exactly,
    when that name fits the 63 bytes Blender keeps for a name: an image of
    that name that is already in the session is replaced, not
    side-stepped with a numeric suffix, the new buffer has the size,
    alpha, fill colour, colour space and precision of the map-type table,
    every other image is left alone, and the name is appended to the
    pending list. *)
Theorem buffer_replaces_stale_image (props : PropsObj) (model : nat) (map_type : string)
    (w : World) (o : Object) (imgs : list string) :
  objects w !! model = Some o -> baked_images (frame w) = Some imgs ->
  (String.length (obj_name o +:+ "_" +:+ map_type) <= max_name_length)%nat ->
  exists w1 buffer,
    allocate_buffer props model map_type w
    = (Ok (obj_name o +:+ "_" +:+ map_type), w1) /\
    images w1 !! (obj_name o +:+ "_" +:+ map_type) = Some buffer /\
    buffer_settings buffer
    = buffer_settings (table_buffer map_type (props_texture_size props)) /\
    (forall other, other <> obj_name o +:+ "_" +:+ map_type ->
                   images w1 !! other = images w !! other) /\
    baked_images (frame w1) = Some (imgs ++ [obj_name o +:+ "_" +:+ map_type]) /\
    image (frame w1) = Some (obj_name o +:+ "_" +:+ map_type).
Proof.
  intros Ho Hb _.
  destruct (allocate_buffer_run props model map_type w o imgs Ho Hb)
    as (w1 & Hrun & Hi & Him & Hp & _).
  exists w1, (table_buffer map_type (props_texture_size props)).
  split; [exact Hrun|]. rewrite Hi. split_and!.
  - apply lookup_insert_eq.
  - reflexivity.
  - intros other Hne. now apply lookup_insert_ne.
  - exact Hp.
  - exact Him.
Qed.

Lemma validate_cancelled_last w w' :
  validateRequirements w = (Ok ReqCancelled, w') ->
  exists msg, last (reports w') = Some (ERROR, msg).
Proof.
  intros Hv. destruct (active_object w) as [a|] eqn:Ea.
  2:{ rewrite (validate_no_active _ Ea) in Hv. injection Hv as <-.
      eexists. simpl. apply last_snoc. }
  destruct (active_object_lookup _ _ Ea) as [Hact [o Ho]].
  destruct (String.eqb_spec (obj_type o) "MESH") as [Ht|Ht].
  2:{ rewrite (validate_not_mesh _ _ _ Ea Ho Ht) in Hv. injection Hv as <-.
      eexists. simpl. apply last_snoc. }
  destruct (uv_layers o) as [|first_layer rest] eqn:Hu.
  { rewrite (validate_no_uv _ _ _ Ea Ho Ht Hu) in Hv. injection Hv as <-.
    eexists. simpl. apply last_snoc. }
  destruct (validate_uv_stage w a o first_layer rest Ea Ho Ht Hu)
    as (w1 & o1 & ? & Hrun & Ho1 & _).
  rewrite Hrun, (validate_material_run _ _ _ Ho1) in Hv.
  repeat case_match; try discriminate; injection Hv as <-;
    eexists; simpl; apply last_snoc.
Qed.

Lemma final_report_last w status w' :
  final_report w = (Ok status, w') ->
  exists msg, last (reports w')
              = Some (match status with FINISHED => INFO | CANCELLED => ERROR end, msg).
Proof.
  unfold final_report. intros H.
  apply bind_inv_Ok in H as (ok & w1 & Hr & H).
  unfold read_local in Hr. destruct (bake_successful (frame w)) as [b|]; [|discriminate].
  injection Hr as <- <-. destruct b.
  - apply bind_inv_Ok in H as (path & w1 & Hr & H).
    unfold read_local in Hr. destruct (output_path (frame w)); [|discriminate].
    injection Hr as <- <-. injection H as <- <-. eexists. simpl. apply last_snoc.
  - injection H as <- <-. eexists. simpl. apply last_snoc.
Qed.

(** X9: [execute] never returns silently: when it returns [FINISHED] its
    last report is an [INFO] line, when it returns [CANCELLED] its last
    report is an [ERROR] line. *)
Theorem status_matches_last_report (w w' : World) (status : Status) :
  execute w = (Ok status, w') ->
  exists msg, last (reports w')
              = Some (match status with FINISHED => INFO | CANCELLED => ERROR end, msg).
Proof.
  rewrite execute_run. cbv zeta.
  destruct (validateRequirements _) as [[[|v]|e] w1] eqn:Hv; [| |discriminate].
  - intros [= <- <-]. now apply validate_cancelled_last in Hv.
  - unfold finally_block. intros H.
    apply bind_inv_Ok in H as (? & ? & _ & H).
    apply bind_inv_Ok in H as (? & ? & _ & H).
    now apply final_report_last in H.
Qed.

Lemma bake_loop_nothing_requested p model material :
  bake_diffuse_p p = false -> bake_roughness_p p = false ->
  bake_normal_p p = false -> bake_ao_p p = false ->
  bake_loop (RegisteredProps p) model material (map_types (RegisteredProps p)) = ret tt.
Proof. intros Hd Hr Hn Ha. unfold map_types. simpl. now rewrite Hd, Hr, Hn, Ha. Qed.

(** X10: with no map type requested, a run whose setup succeeds bakes
    nothing and writes nothing, and still returns [FINISHED] with the
    report that the maps were saved; the output directory has been
    created all the same. *)
Theorem nothing_requested_still_finishes (w : World) (p : Props) :
  autobake_props w = Some p ->
  bake_diffuse_p p = false -> bake_roughness_p p = false ->
  bake_normal_p p = false -> bake_ao_p p = false ->
  setup_succeeds w ->
  exists w',
    execute w = (Ok FINISHED, w') /\
    bake_log w' = bake_log w /\ fs_files w' = fs_files w /\
    images w' = images w /\ materials w' = materials w /\
    last (reports w')
    = Some (INFO, "Baking process finished. Maps saved to: "
                  +:+ resolved_output_path (host w) p) /\
    existsb (String.eqb (resolved_output_path (host w) p)) (fs_dirs w') = true.
Proof.
  intros Hp Hd Hr Hn Ha (v & w1 & w2 & Hv & Hs).
  assert (Hprops : get_props w = RegisteredProps p) by (unfold get_props; now rewrite Hp).
  rewrite Hprops in Hs.
  destruct (setup_phase_post _ _ _ _ _ Hs)
    as (p' & o & [= <-] & _ & _ & _ & _ & _ & Hpath & Hdir & _).
  rewrite execute_run. cbv zeta. rewrite Hv.
  change (get_props (set_frame (fun _ => empty_frame) w)) with (get_props w).
  rewrite Hprops. unfold try_block.
  rewrite (try_except_bind_Ok _ _ _ _ _ _ Hs).
  erewrite try_except_bind_Ok by reflexivity.
  erewrite try_except_bind_Ok by reflexivity.
  rewrite (bake_loop_nothing_requested _ _ _ Hd Hr Hn Ha).
  erewrite try_except_bind_Ok by reflexivity.
  match goal with
  | |- context [try_except save_phase ?h ?w3] =>
      assert (Hsave : try_except save_phase h w3 = (Ok tt, w3)) by reflexivity;
      rewrite Hsave; clear Hsave; set (w4 := w3)
  end.
  cbn [snd]. unfold finally_block.
  assert (Hclean : cleanup_images w4 = (Ok tt, w4)) by reflexivity.
  rewrite (bind_Ok _ _ _ _ _ Hclean).
  pose proof (validate_keeps_active (set_frame (fun _ => empty_frame) w)) as Vac.
  pose proof (validate_keeps_flags (set_frame (fun _ => empty_frame) w)) as Vfl.
  pose proof (validate_keeps_files (set_frame (fun _ => empty_frame) w)) as Vf.
  pose proof (validate_keeps_log (set_frame (fun _ => empty_frame) w)) as Vl.
  pose proof (validate_keeps_images (set_frame (fun _ => empty_frame) w)) as Vi.
  pose proof (validate_keeps_materials (set_frame (fun _ => empty_frame) w)) as Vm.
  pose proof (validate_keeps_host (set_frame (fun _ => empty_frame) w)) as Vh.
  pose proof (setup_keeps_files (RegisteredProps p) (v_model v) (v_material v) w1) as Sf.
  pose proof (setup_keeps_log (RegisteredProps p) (v_model v) (v_material v) w1) as Sl.
  pose proof (setup_keeps_images (RegisteredProps p) (v_model v) (v_material v) w1) as Si.
  assert (Sm : keeps materials (setup_phase (RegisteredProps p) (v_model v) (v_material v)))
    by keeps_auto.
  assert (Sn : keeps (fun w => length (objects w))
                 (setup_phase (RegisteredProps p) (v_model v) (v_material v)))
    by keeps_auto.
  specialize (Sm w1). specialize (Sn w1).
  rewrite Hv in Vac, Vfl, Vf, Vl, Vi, Vm, Vh. rewrite Hs in Sf, Sl, Si, Sm, Sn.
  unfold selection_flags in Vfl. simpl in Vac, Vfl, Vf, Vl, Vi, Vm, Vh, Sf, Sl, Si, Sm, Sn.
  destruct (validate_finished_active _ _ _ Hv) as (a & Hact & Halt).
  simpl in Hact, Halt.
  assert (Hlen1 : length (objects w1) = length (objects w)).
  { rewrite <- (length_fmap obj_selected (objects w1)), Vfl. apply length_fmap. }
  destruct (restore_settings_run (take_snapshot w1) w4)
    as (w5 & Hrest & _ & _ & _ & _ & _ & Hf5 & Hr5 & Hi5 & Hfs5 & Hl5 & _ & Hm5).
  { simpl. intros i Hi. unfold selected_objects in Hi.
    apply filter_In in Hi as [Hi _]. apply in_seq in Hi. lia. }
  { simpl. intros a' Ha'. rewrite Vac, Hact in Ha'. injection Ha' as <-. lia. }
  assert (Hd5 : fs_dirs w5 = fs_dirs w4).
  { assert (Rd : keeps fs_dirs (restore_settings (take_snapshot w1))) by keeps_auto.
    specialize (Rd w4). now rewrite Hrest in Rd. }
  rewrite (bind_Ok _ _ _ _ _ Hrest).
  unfold final_report.
  erewrite bind_Ok by (apply read_local_Some; rewrite Hf5; reflexivity).
  cbv iota.
  erewrite bind_Ok by (apply read_local_Some; rewrite Hf5; simpl; exact Hpath).
  eexists. split; [reflexivity|]. simpl.
  rewrite Hl5, Hfs5, Hi5, Hm5, Hr5. simpl.
  rewrite Vh in Hdir |- *.
  split_and!; try congruence.
  - apply last_snoc.
  - rewrite Hd5. exact Hdir.
Qed.

#[global] Instance settings_follow_log_preorder : PreOrder settings_follow_log.
Proof.
  split.
  - intros w. exists []. rewrite app_nil_r. now split_and!.
  - intros w1 w2 w3 (l1 & L1 & P1 & N1) (l2 & L2 & P2 & N2). exists (l1 ++ l2).
    unfold attempted in *. rewrite !existsb_app. split_and!.
    + now rewrite L2, L1, app_assoc.
    + rewrite P2, P1.
      destruct (existsb (String.eqb "DIFFUSE") l1), (existsb (String.eqb "DIFFUSE") l2); reflexivity.
    + rewrite N2, N1.
      destruct (existsb (String.eqb "NORMAL") l1), (existsb (String.eqb "NORMAL") l2); reflexivity.
Qed.

Lemma settings_follow_view w w' : settings_view w' = settings_view w -> settings_follow_log w w'.
Proof.
  unfold settings_follow_log, settings_view, pass_settings, normal_settings. intros H.
  exists []. rewrite app_nil_r. simpl.
  injection H as -> -> -> -> -> -> -> ->. now split_and!.
Qed.

Lemma bake_scene bake_type w : scene (snd (bpy_ops_object_bake bake_type w)) = scene w.
Proof. unfold bpy_ops_object_bake. repeat case_match; reflexivity. Qed.

Lemma bake_logs bake_type w :
  bake_log (snd (bpy_ops_object_bake bake_type w)) = bake_log w ++ [bake_type].
Proof. unfold bpy_ops_object_bake. repeat case_match; reflexivity. Qed.

Lemma diffuse_settings_follow :
  respects settings_follow_log
    (bind (modify (set_scene (set_passes false false true)))
          (fun _ => bpy_ops_object_bake "DIFFUSE")).
Proof.
  intros w. exists ["DIFFUSE"]. unfold bind, modify.
  rewrite bake_scene, bake_logs. now split_and!.
Qed.

Lemma normal_settings_follow :
  respects settings_follow_log
    (bind (modify (set_scene (set_normal_axes "TANGENT" "POS_X" "POS_Y" "POS_Z")))
          (fun _ => bpy_ops_object_bake "NORMAL")).
Proof.
  intros w. exists ["NORMAL"]. unfold bind, modify.
  rewrite bake_scene, bake_logs. now split_and!.
Qed.

Lemma other_bake_settings_follow bake_type :
  attempted "DIFFUSE" [bake_type] = false -> attempted "NORMAL" [bake_type] = false ->
  respects settings_follow_log (bpy_ops_object_bake bake_type).
Proof.
  intros Hd Hn w. exists [bake_type]. rewrite bake_scene, bake_logs, Hd, Hn. now split_and!.
Qed.

Ltac settings_leaf :=
  first [ solve [auto]
        | apply diffuse_settings_follow
        | apply normal_settings_follow
        | apply other_bake_settings_follow; reflexivity
        | apply (respects_of_keeps _ settings_view);
          [intros ? ?; apply settings_follow_view | solve [keeps_auto]] ].

Ltac settings_open :=
  lazymatch goal with
  | |- respects _ (bpy_ops_object_bake _) => fail
  | |- respects _ ?m => let h := head_of m in progress unfold h
  end.

Ltac settings_auto := repeat first [ settings_leaf | respects_step | settings_open ].

Lemma methods_settings_follow props bake_method :
  In bake_method (map snd (map_types props)) ->
  forall img mt mat, respects settings_follow_log (bake_method img mt mat).
Proof.
  revert bake_method.
  apply (four_methods
           (fun bm => forall img mt mat, respects settings_follow_log (bm img mt mat)));
    intros img mt mat; settings_auto.
Qed.

Lemma bake_map_settings_follow props model material map_type (bake_method : BakeMethod) :
  (forall img mt mat, respects settings_follow_log (bake_method img mt mat)) ->
  respects settings_follow_log (bake_map props model material map_type bake_method).
Proof. intros Hm. settings_auto. Qed.

Lemma bake_loop_respects R `{!PreOrder R} props model material entries :
  (forall map_type (bake_method : BakeMethod),
     In bake_method (map snd entries) ->
     respects R (bake_map props model material map_type bake_method)) ->
  respects R (bake_loop props model material entries).
Proof.
  induction entries as [|[[map_type should_bake] bake_method] entries IH]; intros H; simpl.
  - now apply respects_ret.
  - assert (Hrest : respects R (bake_loop props model material entries)).
    { apply IH. intros mt bm Hin. apply H. now right. }
    destruct should_bake; simpl; [|exact Hrest].
    apply respects_bind; [assumption | | intros [|]; [exact Hrest | now apply respects_ret]].
    apply H. now left.
Qed.

Lemma try_block_settings_follow props model material :
  respects settings_follow_log (try_block props model material).
Proof.
  unfold try_block.
  respects_step; [|settings_auto].
  respects_step; [settings_auto|].
  respects_step; [settings_auto|].
  respects_step; [settings_auto|].
  respects_step; [|settings_auto].
  apply bake_loop_respects; [apply _|]. intros map_type bm Hin.
  apply bake_map_settings_follow. now apply (methods_settings_follow props).
Qed.

Lemma execute_settings_follow : respects settings_follow_log execute.
Proof.
  intros w. rewrite execute_run. cbv zeta.
  assert (Vk : keeps settings_view validateRequirements) by keeps_auto.
  specialize (Vk (set_frame (fun _ => empty_frame) w)).
  destruct (validateRequirements _) as [[[|v]|e] w1]; simpl in Vk;
    try (now apply settings_follow_view).
  etransitivity; [apply settings_follow_view; exact Vk|].
  etransitivity; [apply try_block_settings_follow|].
  apply settings_follow_view.
  assert (Fk : keeps settings_view (finally_block (take_snapshot w1))) by keeps_auto.
  apply Fk.
Qed.

(** X11: the [finally] block restores the engine, the sample count and the
    selected-to-active flag only.  The pass flags written by
    [bake_diffuse] and the normal-space settings written by [bake_normal]
    stay in the scene after [execute], whatever its outcome: they are the
    caller's exactly when no Diffuse (no Normal) bake was attempted. *)
Theorem bake_settings_stay_changed (w : World) :
  exists attempted_types,
    bake_log (snd (execute w)) = bake_log w ++ attempted_types /\
    pass_settings (scene (snd (execute w)))
    = (if attempted "DIFFUSE" attempted_types then (false, false, true)
       else pass_settings (scene w)) /\
    normal_settings (scene (snd (execute w)))
    = (if attempted "NORMAL" attempted_types then ("TANGENT", "POS_X", "POS_Y", "POS_Z")
       else normal_settings (scene w)).
Proof. apply execute_settings_follow. Qed.

Lemma save_phase_rounds :
  save_phase
  = bind (read_local "bake_successful" bake_successful) (fun ok =>
      bind (read_local "baked_images" baked_images) (fun imgs =>
        when (ok && negb (length imgs =? 0)%nat) (for_each imgs save_round))).
Proof. reflexivity. Qed.

Lemma save_round_gone img w :
  images w !! img = None -> save_round img w = (Ok tt, w).
Proof. intros H. unfold save_round, bind, in_images, gets. now rewrite H. Qed.

Lemma save_round_run img w i path :
  images w !! img = Some i -> output_path (frame w) = Some path ->
  exists w1 g,
    save_round img w = (Ok tt, w1) /\
    images w1 = alter g img (images w) /\
    use_generated_float (g i) = use_generated_float i /\
    colorspace (g i) = (if ends_with "_Normal" img then "Non-Color" else colorspace i) /\
    host w1 = host w /\ output_path (frame w1) = Some path /\
    baked_images (frame w1) = baked_images (frame w) /\
    fs_files w1 = fs_files w ++ option_list (saved_file (host w) path (images w) img) /\
    reports w1 = reports w ++ option_list (save_report (host w) path (images w) img) /\
    bake_successful (frame w1)
    = (if save_fails (host w) path (images w) img then Some false
       else bake_successful (frame w)).
Proof.
  intros Hi Hp. unfold save_round, saved_file, save_report, save_fails, save_raises, file_of.
  cbv beta iota zeta delta [bind in_images gets read_local image_update modify when
                            ensure_non_color image_get try_except image_save report
                            assign_bake_successful ret].
  rewrite Hi, Hp.
  destruct (ends_with "_Normal" img) eqn:Hn.
  - cbn [images set_images]. rewrite !lookup_alter_eq, Hi.
    cbn [fmap option_fmap option_map colorspace set_file_format set_filepath_raw].
    destruct (String.eqb_spec (colorspace i) "Non-Color") as [Hc|Hc]; cbn [negb].
    + cbn [images set_images host]. rewrite !lookup_alter_eq, Hi.
      cbn [fmap option_fmap option_map colorspace set_file_format set_filepath_raw
           filepath_raw file_format use_generated_float].
      destruct (save_error (host w) _) as [msg|];
        (eexists _, _; split; [reflexivity|];
         split; [cbn [images set_images set_fs_files set_frame set_reports];
                 rewrite ?alter_alter_eq; reflexivity|]);
        simpl; rewrite ?app_nil_r, ?Hc; now split_and!.
    + cbn [images set_images host]. rewrite !lookup_alter_eq, Hi.
      cbn [fmap option_fmap option_map colorspace set_file_format set_filepath_raw
           filepath_raw file_format use_generated_float set_colorspace].
      destruct (save_error (host w) _) as [msg|];
        (eexists _, _; split; [reflexivity|];
         split; [cbn [images set_images set_fs_files set_frame set_reports];
                 rewrite ?alter_alter_eq; reflexivity|]);
        simpl; rewrite ?app_nil_r; now split_and!.
  - cbn [images set_images host]. rewrite !lookup_alter_eq, Hi.
    cbn [fmap option_fmap option_map colorspace set_file_format set_filepath_raw
         filepath_raw file_format use_generated_float].
    destruct (save_error (host w) _) as [msg|];
      (eexists _, _; split; [reflexivity|];
       split; [cbn [images set_images set_fs_files set_frame set_reports];
               rewrite ?alter_alter_eq; reflexivity|]);
      simpl; rewrite ?app_nil_r; now split_and!.
Qed.

(** The settings that a round writes into the image do not change what
    a later round would write for it. *)
Lemma saved_file_alter h path (m : gmap string Image) g img i :
  m !! img = Some i ->
  use_generated_float (g i) = use_generated_float i ->
  colorspace (g i) = (if ends_with "_Normal" img then "Non-Color" else colorspace i) ->
  forall k,
    saved_file h path (alter g img m) k = saved_file h path m k /\
    save_report h path (alter g img m) k = save_report h path m k /\
    save_fails h path (alter g img m) k = save_fails h path m k.
Proof.
  intros Hi Hf Hc k. unfold saved_file, save_report, save_fails, save_raises, file_of.
  destruct (decide (k = img)) as [->|Hne].
  - rewrite lookup_alter_eq, Hi. simpl. rewrite Hf, Hc.
    now destruct (ends_with "_Normal" img).
  - now rewrite lookup_alter_ne by congruence.
Qed.

Lemma omap_ext_all {A B} (f g : A -> option B) (l : list A) :
  (forall x, f x = g x) -> omap f l = omap g l.
Proof.
  intros H. induction l as [|x l IH]; simpl; [reflexivity|].
  rewrite H. destruct (g x); [f_equal|]; exact IH.
Qed.

Lemma existsb_ext_all {A} (f g : A -> bool) (l : list A) :
  (forall x, f x = g x) -> existsb f l = existsb g l.
Proof. intros H. induction l as [|x l IH]; simpl; [reflexivity|]. now rewrite H, IH. Qed.

(** The save loop (lines 145-165) over the pending list [imgs]. *)
Lemma save_loop_run imgs : forall w path,
  output_path (frame w) = Some path ->
  exists w',
    for_each imgs save_round w = (Ok tt, w') /\
    fs_files w' = fs_files w ++ omap (saved_file (host w) path (images w)) imgs /\
    reports w' = reports w ++ omap (save_report (host w) path (images w)) imgs /\
    bake_successful (frame w')
    = (if existsb (save_fails (host w) path (images w)) imgs then Some false
       else bake_successful (frame w)) /\
    baked_images (frame w') = baked_images (frame w) /\
    output_path (frame w') = Some path /\ host w' = host w /\
    dom (images w') = dom (images w).
Proof.
  induction imgs as [|img imgs IH]; intros w path Hp.
  - exists w. simpl. rewrite !app_nil_r. now split_and!.
  - simpl for_each. destruct (images w !! img) as [i|] eqn:Hi.
    + destruct (save_round_run img w i path Hi Hp)
        as (w1 & g & Hrun & Hi1 & Hf & Hc & Hh & Hp1 & Hb1 & Hfs & Hr & Hok).
      destruct (IH w1 path Hp1) as (w' & Hloop & Lf & Lr & Lok & Lb & Lp & Lh & Ld).
      exists w'. rewrite (bind_Ok _ _ _ _ _ Hrun). split; [exact Hloop|].
      pose proof (saved_file_alter (host w) path (images w) g img i Hi Hf Hc) as Hinv.
      rewrite Hh, Hi1 in Lf, Lr, Lok.
      rewrite (omap_ext_all _ (saved_file (host w) path (images w))) in Lf
        by (intros k; apply Hinv).
      rewrite (omap_ext_all _ (save_report (host w) path (images w))) in Lr
        by (intros k; apply Hinv).
      rewrite (existsb_ext_all _ (save_fails (host w) path (images w))) in Lok
        by (intros k; apply Hinv).
      simpl. rewrite Lf, Lr, Lok, Lb, Lp, Lh, Ld, Hfs, Hr, Hok, Hb1, Hh, Hi1.
      split_and!; try reflexivity.
      * destruct (saved_file (host w) path (images w) img); simpl;
          now rewrite <- app_assoc.
      * destruct (save_report (host w) path (images w) img); simpl;
          now rewrite <- app_assoc.
      * destruct (save_fails (host w) path (images w) img); simpl; [|reflexivity].
        now destruct (existsb _ imgs).
      * apply dom_alter_L.
    + rewrite (bind_Ok _ _ _ _ _ (save_round_gone _ _ Hi)).
      destruct (IH w path Hp) as (w' & Hloop & Lf & Lr & Lok & Lb & Lp & Lh & Ld).
      exists w'. split; [exact Hloop|]. simpl.
      assert (H1 : saved_file (host w) path (images w) img = None)
        by (unfold saved_file; now rewrite Hi).
      assert (H2 : save_report (host w) path (images w) img = None)
        by (unfold save_report, save_raises; now rewrite Hi).
      assert (H3 : save_fails (host w) path (images w) img = false)
        by (unfold save_fails, save_raises; now rewrite Hi).
      rewrite H1, H2, H3. simpl. now split_and!.
Qed.

(** The save phase on a run that is successful so far. *)
Lemma save_phase_run w imgs path :
  bake_successful (frame w) = Some true -> baked_images (frame w) = Some imgs ->
  output_path (frame w) = Some path ->
  exists w',
    save_phase w = (Ok tt, w') /\
    fs_files w' = fs_files w ++ omap (saved_file (host w) path (images w)) imgs /\
    reports w' = reports w ++ omap (save_report (host w) path (images w)) imgs /\
    bake_successful (frame w')
    = Some (negb (existsb (save_fails (host w) path (images w)) imgs)) /\
    baked_images (frame w') = Some imgs /\
    output_path (frame w') = Some path /\ host w' = host w /\
    dom (images w') = dom (images w).
Proof.
  intros Hok Hb Hp. rewrite save_phase_rounds.
  rewrite (bind_Ok _ _ _ _ _ (read_local_Some _ _ _ _ Hok)).
  rewrite (bind_Ok _ _ _ _ _ (read_local_Some _ _ _ _ Hb)).
  destruct imgs as [|img imgs].
  - exists w. simpl. rewrite !app_nil_r. now split_and!.
  - change (true && negb (length (img :: imgs) =? 0)%nat) with true. cbv iota beta delta [when].
    destruct (save_loop_run (img :: imgs) w path Hp)
      as (w' & Hloop & Lf & Lr & Lok & Lb & Lp & Lh & Ld).
    exists w'. split; [exact Hloop|]. rewrite Lok, Lb, Hok, Hb.
    split_and!; try assumption; try reflexivity.
    now destruct (existsb _ (img :: imgs)).
Qed.


Lemma cleanup_round_run img w :
  exists w1,
    bind (in_images img)
      (fun present => when present (try_except (images_remove img) (fun _ => ret tt))) w
    = (Ok tt, w1) /\
    images w1 = delete img (images w) /\ frame w1 = frame w.
Proof.
  unfold bind, in_images, gets. destruct (images w !! img) eqn:Hi; simpl.
  - eexists. split; [reflexivity|]. now split.
  - exists w. split; [reflexivity|]. split; [|reflexivity].
    symmetry. now apply delete_id.
Qed.

Lemma cleanup_removes w imgs :
  baked_images (frame w) = Some imgs ->
  exists w',
    cleanup_images w = (Ok tt, w') /\
    (forall img, In img imgs -> images w' !! img = None) /\
    (forall k, images w !! k = None -> images w' !! k = None) /\
    (forall k, ~ In k imgs -> images w' !! k = images w !! k).
Proof.
  intros Hb. unfold cleanup_images.
  rewrite (bind_Ok _ _ _ _ _ (read_local_Some _ _ _ _ Hb)). clear Hb.
  revert w. induction imgs as [|img imgs IH]; intros w; simpl.
  - exists w. split; [reflexivity|]. split; [intros ? []|]. now split.
  - destruct (cleanup_round_run img w) as (w1 & Hrun & Hi & _).
    rewrite (bind_Ok _ _ _ _ _ Hrun).
    destruct (IH w1) as (w' & Hloop & Hgone & Hstay & Hother).
    exists w'. split; [exact Hloop|]. split_and!.
    + intros k [<-|Hin]; [|now apply Hgone].
      apply Hstay. rewrite Hi. apply lookup_delete_eq.
    + intros k Hk. apply Hstay. rewrite Hi.
      destruct (decide (img = k)) as [->|Hne]; [apply lookup_delete_eq|].
      now rewrite lookup_delete_ne.
    + intros k Hk. rewrite Hother by tauto. rewrite Hi.
      rewrite lookup_delete_ne; [reflexivity|]. intros ->. apply Hk. now left.
Qed.

Lemma saved_file_image h path m img f :
  saved_file h path m img = Some f -> sf_image f = img.
Proof.
  unfold saved_file. destruct (m !! img); [|discriminate].
  destruct (save_fails _ _ _ _); [discriminate|]. now intros [= <-].
Qed.

Lemma omap_saved_images h path m imgs f :
  In f (omap (saved_file h path m) imgs) -> In (sf_image f) imgs.
Proof.
  intros Hin. apply list_elem_of_In, list_elem_of_omap in Hin as (img & Hin & Hs).
  apply saved_file_image in Hs as ->. now apply list_elem_of_In.
Qed.

(** The files of the [try] statement belong to images of the pending
    list it ends with. *)
Lemma try_block_saves_pending props model material w :
  exists new,
    fs_files (snd (try_block props model material w)) = fs_files w ++ new /\
    (new = [] \/
     exists imgs,
       baked_images (frame (snd (try_block props model material w))) = Some imgs /\
       forall f, In f new -> In (sf_image f) imgs).
Proof.
  unfold try_block.
  pose proof (setup_keeps_files props model material w) as Sf.
  destruct (setup_phase props model material w) as [[[]|e] w1] eqn:Hs; simpl in Sf.
  2:{ rewrite (try_except_bind_Exc _ _ _ _ _ _ Hs). simpl. exists [].
      split; [now rewrite app_nil_r | now left]. }
  pose proof (setup_binds_output_path _ _ _ _ _ Hs) as Ho.
  rewrite (try_except_bind_Ok _ _ _ _ _ _ Hs).
  erewrite try_except_bind_Ok by reflexivity.
  erewrite try_except_bind_Ok by reflexivity.
  match goal with
  | |- context [try_except (bind (bake_loop ?p ?m ?mt ?es) _) _ ?w3] =>
      assert (Hb : locals_bound (frame w3))
        by (unfold locals_bound; simpl; split_and!; eauto);
      assert (Hf3 : fs_files w3 = fs_files w) by exact Sf;
      pose proof (bake_loop_stays_bound p m mt es (methods_stay_bound p) w3 Hb) as Hb4;
      assert (Lf : keeps fs_files (bake_loop p m mt es))
        by (apply bake_loop_keeps; intros map_type; apply four_methods; keeps_auto);
      specialize (Lf w3);
      destruct (bake_loop p m mt es w3) as [[[]|e] w4] eqn:Hl
  end; simpl in Hb4, Lf.
  2:{ rewrite (try_except_bind_Exc _ _ _ _ _ _ Hl). simpl. exists [].
      split; [rewrite app_nil_r; congruence | now left]. }
  rewrite (try_except_bind_Ok _ _ _ _ _ _ Hl).
  destruct Hb4 as ([path Hp] & [ok Hok] & [imgs Hi]).
  destruct ok.
  - destruct (save_phase_run w4 imgs path Hok Hi Hp)
      as (w5 & Hrun & Hf & _ & _ & Hb5 & _).
    unfold try_except. rewrite Hrun. simpl.
    exists (omap (saved_file (host w4) path (images w4)) imgs).
    split; [rewrite Hf; congruence|]. right. exists imgs. split; [exact Hb5|].
    intros f. apply omap_saved_images.
  - assert (Hrun : save_phase w4 = (Ok tt, w4)).
    { rewrite save_phase_rounds.
      rewrite (bind_Ok _ _ _ _ _ (read_local_Some _ _ _ _ Hok)).
      now rewrite (bind_Ok _ _ _ _ _ (read_local_Some _ _ _ _ Hi)). }
    unfold try_except. rewrite Hrun. simpl. exists [].
    split; [rewrite app_nil_r; congruence | now left].
Qed.

Lemma restore_keeps_images s : keeps images (restore_settings s).
Proof. keeps_auto. Qed.

Lemma final_report_keeps_images : keeps images final_report.
Proof. keeps_auto. Qed.

(** X13: when [execute] returns, no image that the run saved to disk is
    left in [bpy.data.images]: the cleanup of lines 177-183 removes every
    pending image. *)
Theorem saved_images_leave_session (w w' : World) (status : Status) :
  execute w = (Ok status, w') ->
  forall f, In f (written_by_run w) -> images w' !! sf_image f = None.
Proof.
  intros Hex f Hin. unfold written_by_run in Hin. rewrite Hex in Hin. simpl in Hin.
  rewrite execute_run in Hex. cbv zeta in Hex.
  pose proof (validate_keeps_files (set_frame (fun _ => empty_frame) w)) as Vf.
  destruct (validateRequirements _) as [[[|v]|e] w1] eqn:Hv; simpl in Vf; [| |discriminate].
  { injection Hex as <- <-. rewrite Vf in Hin.
    rewrite drop_all in Hin. destruct Hin. }
  destruct (try_block_saves_pending (get_props (set_frame (fun _ => empty_frame) w))
              (v_model v) (v_material v) w1) as (new & Hnew & Hpend).
  set (w3 := snd (try_block _ _ _ w1)) in *.
  pose proof (finally_keeps_files (take_snapshot w1) w3) as Ff.
  rewrite Hex in Ff. simpl in Ff.
  rewrite Ff, Hnew, Vf in Hin. simpl in Hin. rewrite drop_app_length in Hin.
  destruct Hpend as [-> | (imgs & Hb & Himgs)]; [destruct Hin|].
  unfold finally_block in Hex.
  apply bind_inv_Ok in Hex as ([] & w4 & Hclean & Hex).
  apply bind_inv_Ok in Hex as ([] & w5 & Hrest & Hex).
  destruct (cleanup_removes w3 imgs Hb) as (w4' & Hrun & Hgone & _).
  rewrite Hrun in Hclean. injection Hclean as ->.
  pose proof (restore_keeps_images (take_snapshot w1) w4) as Ri.
  pose proof (final_report_keeps_images w5) as Fi.
  rewrite Hrest in Ri. rewrite Hex in Fi. simpl in Ri, Fi.
  rewrite Fi, Ri. apply Hgone. now apply Himgs.
Qed.

Lemma mat_get_run mat w m : materials w !! mat = Some m -> mat_get mat w = (Ok m, w).
Proof. intros H. unfold mat_get. now rewrite H. Qed.

Lemma mat_update_run mat f w m :
  materials w !! mat = Some m ->
  exists w1, mat_update mat f w = (Ok tt, w1) /\ materials w1 !! mat = Some (f m).
Proof.
  intros H. eexists. split; [reflexivity|]. simpl. now rewrite list_lookup_alter_eq, H.
Qed.

Lemma fresh_not_used ns n : In n ns -> has_id (fresh_node_id ns) n = false.
Proof.
  intros Hin. unfold has_id, fresh_node_id. apply Nat.eqb_neq.
  assert (H : (node_id n <= list_max (map node_id ns))%nat).
  { pose proof (proj1 (list_max_le (map node_id ns) _) (le_n _)) as Hall.
    rewrite Forall_forall in Hall. apply Hall, list_elem_of_In, in_map, Hin. }
  lia.
Qed.

Lemma filter_fresh id (ns : list Node) n :
  (forall u, In u ns -> has_id id u = false) -> has_id id n = true ->
  List.filter (fun x => negb (has_id id x)) (ns ++ [n]) = ns.
Proof.
  intros Hns Hn. rewrite List.filter_app. simpl. rewrite Hn. simpl. rewrite app_nil_r.
  induction ns as [|u ns IH]; simpl; [reflexivity|].
  rewrite (Hns u) by now left. simpl. f_equal. apply IH. intros v Hv. apply Hns. now right.
Qed.

Lemma update_fresh id (f : Node -> Node) (ns : list Node) n :
  (forall u, In u ns -> has_id id u = false) -> has_id id n = true ->
  map (fun x => if has_id id x then f x else x) (ns ++ [n]) = ns ++ [f n].
Proof.
  intros Hns Hn. rewrite List.map_app. simpl. rewrite Hn. f_equal.
  induction ns as [|u ns IH]; simpl; [reflexivity|].
  rewrite (Hns u) by now left. f_equal. apply IH. intros v Hv. apply Hns. now right.
Qed.

Lemma kept_not_named ns :
  name_reserved ns -> name_taken (kept_nodes ns) bake_node_name = false.
Proof.
  intros Hres. unfold name_taken. apply not_true_iff_false. intros H.
  apply existsb_exists in H as (n & Hin & Hn). apply String.eqb_eq in Hn.
  apply filter_In in Hin as [Hin Hk]. unfold is_stale_bake_node in Hk.
  rewrite (Hres n Hin Hn), Hn in Hk. discriminate.
Qed.

Lemma same_id_same_node (ns : list Node) a b :
  NoDup (node_id <$> ns) -> In a ns -> In b ns -> node_id a = node_id b -> a = b.
Proof.
  induction ns as [|n ns IH]; intros Hnd Ha Hb He; [destruct Ha|].
  simpl in Hnd. apply NoDup_cons in Hnd as [Hn Hnd].
  assert (Hin : forall x, In x ns -> node_id x ∈ node_id <$> ns).
  { intros x Hx. apply list_elem_of_fmap. exists x. split; [reflexivity|].
    now apply list_elem_of_In. }
  destruct Ha as [<-|Ha], Hb as [<-|Hb]; try reflexivity.
  - exfalso. apply Hn. rewrite He. now apply Hin.
  - exfalso. apply Hn. rewrite <- He. now apply Hin.
  - now apply IH.
Qed.

(** The loop of lines 388-391 over the nodes [l]. *)
Lemma remove_nodes_run mat (l : list Node) : forall w m,
  materials w !! mat = Some m ->
  exists w1 a,
    for_each l (fun node => nodes_remove mat (node_id node)) w = (Ok tt, w1) /\
    materials w1 !! mat
    = Some (with_nodes
              (List.filter (fun n => negb (existsb (fun s => has_id (node_id s) n) l))
                           (nodes m)) a m).
Proof.
  induction l as [|s l IH]; intros w m Hm; simpl.
  - exists w, (nodes_active m). split; [reflexivity|]. rewrite Hm. f_equal.
    unfold with_nodes. destruct m as [mn un ns na]; simpl. f_equal.
    clear. induction ns as [|n ns IHn]; simpl; [reflexivity | now rewrite <- IHn].
  - destruct (mat_update_run mat
                (fun m => {| mat_name := mat_name m; use_nodes := use_nodes m;
                             nodes := List.filter (fun n => negb (has_id (node_id s) n))
                                                  (nodes m);
                             nodes_active := match nodes_active m with
                                             | Some a => if Nat.eqb a (node_id s) then None
                                                         else Some a
                                             | None => None
                                             end |}) w m Hm) as (w1 & Hrun & Hm1).
    unfold nodes_remove at 1. rewrite (bind_Ok _ _ _ _ _ Hrun).
    destruct (IH w1 _ Hm1) as (w2 & a & Hloop & Hm2).
    exists w2, a. split; [exact Hloop|]. rewrite Hm2. f_equal. unfold with_nodes. simpl.
    f_equal. clear. induction (nodes m) as [|n ns IHn]; simpl; [reflexivity|].
    destruct (has_id (node_id s) n); simpl; [exact IHn|].
    destruct (existsb _ l); simpl; [exact IHn | now rewrite IHn].
Qed.

Lemma stale_removed (ns : list Node) :
  NoDup (node_id <$> ns) ->
  List.filter (fun n => negb (existsb (fun s => has_id (node_id s) n)
                                      (List.filter is_stale_bake_node ns))) ns
  = kept_nodes ns.
Proof.
  intros Hnd. unfold kept_nodes. apply filter_ext_in. intros n Hn. f_equal.
  destruct (is_stale_bake_node n) eqn:Hs.
  - apply existsb_exists. exists n. split; [now apply filter_In|].
    unfold has_id. apply Nat.eqb_refl.
  - apply not_true_iff_false. intros H. apply existsb_exists in H as (s & Hin & Hid).
    apply filter_In in Hin as [Hin Hst]. unfold has_id in Hid. apply Nat.eqb_eq in Hid.
    rewrite (same_id_same_node ns n s Hnd Hn Hin Hid) in Hs. congruence.
Qed.

Lemma nodes_new_run mat idname w m :
  materials w !! mat = Some m ->
  exists w1,
    nodes_new mat idname w = (Ok (fresh_node_id (nodes m)), w1) /\
    materials w1 !! mat
    = Some (set_nodes
              (fun ns => ns ++
                 [{| node_id := fresh_node_id (nodes m);
                     node_name := unique_name (name_taken (nodes m))
                                    (default_node_name idname);
                     node_type := node_type_of_idname idname;
                     node_label := ""; node_image := None; node_select := false |}]) m).
Proof.
  intros Hm. unfold nodes_new. rewrite (bind_Ok _ _ _ _ _ (mat_get_run _ _ _ Hm)).
  cbv zeta. eexists. split; [reflexivity|]. simpl. now rewrite list_lookup_alter_eq, Hm.
Qed.

Lemma node_update_run mat id f w m :
  materials w !! mat = Some m ->
  exists w1,
    node_update mat id f w = (Ok tt, w1) /\
    materials w1 !! mat
    = Some (set_nodes (map (fun n => if has_id id n then f n else n)) m).
Proof. intros Hm. unfold node_update. now apply mat_update_run. Qed.

Lemma node_assign_name_run mat id s w m :
  materials w !! mat = Some m ->
  exists w1,
    node_assign_name mat id s w = (Ok tt, w1) /\
    materials w1 !! mat
    = Some (set_nodes
              (map (fun n =>
                      if has_id id n
                      then set_node_name
                             (unique_name
                                (name_taken (List.filter (fun n => negb (has_id id n))
                                                         (nodes m))) s) n
                      else n)) m).
Proof.
  intros Hm. unfold node_assign_name. rewrite (bind_Ok _ _ _ _ _ (mat_get_run _ _ _ Hm)).
  cbv zeta. now apply node_update_run.
Qed.

Ltac norm_mat H :=
  unfold set_nodes, with_nodes, set_nodes_active in H;
  cbn [nodes mat_name use_nodes nodes_active] in H.

(** [add_bake_image_node] on a well-formed node list in which the name
    [BakeTargetNode] is not taken by a node of another type. *)
Lemma add_bake_image_node_run mat img w m :
  materials w !! mat = Some m ->
  NoDup (node_id <$> nodes m) -> name_reserved (nodes m) ->
  exists w1,
    add_bake_image_node mat img w = (Ok (fresh_node_id (kept_nodes (nodes m))), w1) /\
    materials w1 !! mat
    = Some (with_nodes
              (kept_nodes (nodes m)
               ++ [bake_target_node (fresh_node_id (kept_nodes (nodes m))) img])
              (Some (fresh_node_id (kept_nodes (nodes m)))) m).
Proof.
  intros Hm Hnd Hres. unfold add_bake_image_node.
  rewrite (bind_Ok _ _ _ _ _ (mat_get_run _ _ _ Hm)).
  destruct (remove_nodes_run mat (List.filter is_stale_bake_node (nodes m)) w m Hm)
    as (w1 & a & Hloop & Hm1).
  rewrite (stale_removed _ Hnd) in Hm1.
  rewrite (bind_Ok _ _ _ _ _ Hloop).
  set (kept := kept_nodes (nodes m)) in *. set (id := fresh_node_id kept).
  assert (Hfresh : forall u, In u kept -> has_id id u = false)
    by (intros u; apply fresh_not_used).
  destruct (nodes_new_run mat "ShaderNodeTexImage" w1 _ Hm1) as (w2 & Hrun2 & Hm2).
  norm_mat Hm2. cbn [nodes with_nodes] in Hrun2. fold id in Hrun2, Hm2.
  rewrite (bind_Ok _ _ _ _ _ Hrun2).
  match type of Hm2 with
  | context [kept ++ [?n]] => set (n0 := n) in *
  end.
  assert (Hn0 : has_id id n0 = true) by apply Nat.eqb_refl.
  destruct (node_assign_name_run mat id bake_node_name w2 _ Hm2) as (w3 & Hrun3 & Hm3).
  norm_mat Hm3.
  rewrite (filter_fresh id kept n0 Hfresh Hn0) in Hm3.
  assert (Hnt : name_taken kept bake_node_name = false) by (apply kept_not_named, Hres).
  rewrite (unique_name_free _ _ Hnt) in Hm3.
  erewrite (update_fresh id _ kept) in Hm3; [|exact Hfresh|apply Nat.eqb_refl].
  rewrite (bind_Ok _ _ _ _ _ Hrun3).
  destruct (node_update_run mat id (set_node_label ("Bake Target (" +:+ img +:+ ")"))
              w3 _ Hm3) as (w4 & Hrun4 & Hm4).
  norm_mat Hm4.
  erewrite (update_fresh id _ kept) in Hm4; [|exact Hfresh|apply Nat.eqb_refl].
  rewrite (bind_Ok _ _ _ _ _ Hrun4).
  destruct (node_update_run mat id (set_node_image (Some img)) w4 _ Hm4)
    as (w5 & Hrun5 & Hm5).
  norm_mat Hm5.
  erewrite (update_fresh id _ kept) in Hm5; [|exact Hfresh|apply Nat.eqb_refl].
  rewrite (bind_Ok _ _ _ _ _ Hrun5).
  destruct (node_update_run mat id (set_node_select true) w5 _ Hm5)
    as (w6 & Hrun6 & Hm6).
  norm_mat Hm6.
  erewrite (update_fresh id _ kept) in Hm6; [|exact Hfresh|apply Nat.eqb_refl].
  rewrite (bind_Ok _ _ _ _ _ Hrun6).
  destruct (mat_update_run mat (set_nodes_active (Some id)) w6 _ Hm6)
    as (w7 & Hrun7 & Hm7).
  rewrite (bind_Ok _ _ _ _ _ Hrun7).
  norm_mat Hm7. exists w7. split; [reflexivity|]. rewrite Hm7. reflexivity.
Qed.

Lemma find_bake_target (kept : list Node) id img :
  name_taken kept bake_node_name = false ->
  List.find (fun n => String.eqb (node_name n) bake_node_name)
            (kept ++ [bake_target_node id img])
  = Some (bake_target_node id img).
Proof.
  intros Hnt. induction kept as [|n kept IH]; simpl; [reflexivity|].
  simpl in Hnt. apply orb_false_iff in Hnt as [Hn Hnt]. rewrite Hn. now apply IH.
Qed.

(** [remove_bake_image_node] right after [add_bake_image_node]. *)
Lemma remove_bake_image_node_run mat img w m kept a :
  materials w !! mat
  = Some (with_nodes (kept ++ [bake_target_node (fresh_node_id kept) img]) a m) ->
  name_taken kept bake_node_name = false ->
  exists w1,
    remove_bake_image_node mat w = (Ok tt, w1) /\
    materials w1 !! mat
    = Some (with_nodes kept
              (match a with
               | Some x => if Nat.eqb x (fresh_node_id kept) then None else Some x
               | None => None
               end) m).
Proof.
  intros Hm Hnt. unfold remove_bake_image_node, nodes_get.
  rewrite (bind_Ok _ _ _ _ _ (bind_Ok _ _ _ _ _ (mat_get_run _ _ _ Hm))).
  cbn [nodes with_nodes]. rewrite (find_bake_target _ _ _ Hnt).
  cbn [fmap option_fmap option_map node_id bake_target_node].
  destruct (mat_update_run mat
              (fun m => {| mat_name := mat_name m; use_nodes := use_nodes m;
                           nodes := List.filter
                                      (fun n => negb (has_id (fresh_node_id kept) n))
                                      (nodes m);
                           nodes_active := match nodes_active m with
                                           | Some a => if Nat.eqb a (fresh_node_id kept)
                                                       then None else Some a
                                           | None => None
                                           end |}) w _ Hm) as (w1 & Hrun & Hm1).
  exists w1. split; [exact Hrun|]. rewrite Hm1. unfold with_nodes. simpl. f_equal. f_equal.
  apply filter_fresh; [intros u; apply fresh_not_used | apply Nat.eqb_refl].
Qed.

Lemma snd_try_finally {A} (m : M A) (f : M unit) w :
  snd (try_finally m f w) = snd (f (snd (m w))).
Proof.
  unfold try_finally. destruct (m w) as [r w1]. simpl.
  now destruct (f w1) as [[[]|e] w2].
Qed.

Lemma try_finally_bind_Ok {A B} (m : M A) (k : A -> M B) (f : M unit) w a w1 :
  m w = (Ok a, w1) -> try_finally (bind m k) f w = try_finally (k a) f w1.
Proof. intros H. unfold try_finally, bind. now rewrite H. Qed.

(** Lines 423-438 and their like: whatever the steps [k] between the
    insertion of the node and the end of the [try] block do, the
    [finally] block removes the inserted node. *)
Lemma bake_body_releases (k : M unit) mat img w m :
  keeps materials k -> keeps (fun w => image_node (frame w)) k ->
  materials w !! mat = Some m ->
  NoDup (node_id <$> nodes m) -> name_reserved (nodes m) ->
  materials (snd (try_finally
                    (bind (add_bake_image_node mat img)
                          (fun n => bind (assign_image_node (Some n)) (fun _ => k)))
                    (release_bake_node mat) w)) !! mat
  = Some (released m).
Proof.
  intros Hkm Hkf Hm Hnd Hres. rewrite snd_try_finally.
  destruct (add_bake_image_node_run mat img w m Hm Hnd Hres) as (w1 & Hadd & Hm1).
  rewrite (bind_Ok _ _ _ _ _ Hadd).
  erewrite bind_Ok by reflexivity.
  match goal with
  | |- context [k ?w2] =>
      pose proof (Hkm w2) as Km; pose proof (Hkf w2) as Kf;
      set (w3 := snd (k w2)) in *
  end.
  simpl in Km, Kf.
  unfold release_bake_node, bind, gets. rewrite Kf.
  rewrite <- Km in Hm1.
  destruct (remove_bake_image_node_run mat img w3 m _ _ Hm1 (kept_not_named _ Hres))
    as (w4 & Hrem & Hm4).
  rewrite Hrem. simpl. rewrite Hm4. now rewrite Nat.eqb_refl.
Qed.

Lemma ensure_non_color_keeps_materials img : keeps materials (ensure_non_color img).
Proof. keeps_auto. Qed.

Lemma bake_keeps_materials ty : keeps materials (bpy_ops_object_bake ty).
Proof. keeps_auto. Qed.

Lemma bake_keeps_image_node ty :
  keeps (fun w => image_node (frame w)) (bpy_ops_object_bake ty).
Proof. keeps_auto. Qed.

(** Name the session in which the [try] block of a bake method starts. *)
Ltac enter_try w0 :=
  match goal with
  | |- context [try_finally _ _ ?w] => set (w0 := w) in *
  end.

Lemma methods_release_node props bake_method :
  In bake_method (map snd (map_types props)) ->
  forall img mt mat w m,
    materials w !! mat = Some m ->
    NoDup (node_id <$> nodes m) -> name_reserved (nodes m) ->
    is_Some (images w !! img) ->
    materials (snd (bake_method img mt mat w)) !! mat = Some (released m).
Proof.
  revert bake_method.
  apply (four_methods
           (fun bm => forall img mt mat w m,
              materials w !! mat = Some m ->
              NoDup (node_id <$> nodes m) -> name_reserved (nodes m) ->
              is_Some (images w !! img) ->
              materials (snd (bm img mt mat w)) !! mat = Some (released m)));
    intros img mt mat w m Hm Hnd Hres [i Hi].
  - (* Diffuse *)
    unfold bake_diffuse. erewrite bind_Ok by reflexivity.
    apply bake_body_releases; try assumption; keeps_auto.
  - (* Roughness *)
    unfold bake_roughness. erewrite bind_Ok by reflexivity.
    enter_try w0.
    destruct (ensure_non_color_run img w0 i Hi) as (w1 & i1 & Hrun & _).
    pose proof (ensure_non_color_keeps_materials img w0) as Km.
    rewrite (try_finally_bind_Ok _ _ _ _ _ _ Hrun).
    rewrite Hrun in Km. simpl in Km.
    assert (Hm1 : materials w1 !! mat = Some m) by (rewrite Km; exact Hm).
    apply bake_body_releases; try assumption; keeps_auto.
  - (* Normal *)
    unfold bake_normal. erewrite bind_Ok by reflexivity.
    enter_try w0.
    destruct (ensure_non_color_run img w0 i Hi) as (w1 & i1 & Hrun & Hi1 & _).
    pose proof (ensure_non_color_keeps_materials img w0) as Km.
    rewrite (try_finally_bind_Ok _ _ _ _ _ _ Hrun).
    rewrite Hrun in Km. simpl in Km.
    assert (Hm1 : materials w1 !! mat = Some m) by (rewrite Km; exact Hm).
    rewrite (try_finally_bind_Ok _ _ _ _ _ _ (image_get_run _ _ _ Hi1)).
    destruct (use_generated_float i1); cbn [negb when].
    + erewrite try_finally_bind_Ok by reflexivity.
      apply bake_body_releases; try assumption; keeps_auto.
    + erewrite try_finally_bind_Ok by reflexivity.
      apply bake_body_releases; try assumption; keeps_auto.
  - (* AO *)
    unfold bake_ao. erewrite bind_Ok by reflexivity.
    enter_try w0.
    destruct (ensure_non_color_run img w0 i Hi) as (w1 & i1 & Hrun & _).
    pose proof (ensure_non_color_keeps_materials img w0) as Km.
    rewrite (try_finally_bind_Ok _ _ _ _ _ _ Hrun).
    rewrite Hrun in Km. simpl in Km.
    assert (Hm1 : materials w1 !! mat = Some m) by (rewrite Km; exact Hm).
    apply bake_body_releases; try assumption; keeps_auto.
Qed.

Lemma filter_not_named (ns : list Node) s :
  name_taken ns s = false ->
  List.filter (fun n => String.eqb (node_name n) s) ns = [].
Proof.
  induction ns as [|n ns IH]; simpl; [reflexivity|].
  intros H. apply orb_false_iff in H as [Hn Hnt]. rewrite Hn. now apply IH.
Qed.

Lemma kept_subset ns n : In n (kept_nodes ns) -> In n ns.
Proof. unfold kept_nodes. intros H. now apply filter_In in H. Qed.

(** X14: [add_bake_image_node] on a node list with distinct node identities
    in which no node of another type is named [BakeTargetNode]: the stale
    bake-target nodes are gone, every other node is kept in place, and
    the one new node is last, named [BakeTargetNode], selected, active
    and bound to the image; it is the only node of that name. *)
Theorem add_bake_image_node_inserts_one (mat : nat) (img : string) (w : World)
    (m : Material) :
  materials w !! mat = Some m ->
  NoDup (node_id <$> nodes m) -> name_reserved (nodes m) ->
  exists id w1 m1,
    add_bake_image_node mat img w = (Ok id, w1) /\
    materials w1 !! mat = Some m1 /\
    nodes m1 = kept_nodes (nodes m) ++ [bake_target_node id img] /\
    nodes_active m1 = Some id /\
    (forall n, In n (kept_nodes (nodes m)) -> node_id n <> id) /\
    List.filter (fun n => String.eqb (node_name n) bake_node_name) (nodes m1)
    = [bake_target_node id img].
Proof.
  intros Hm Hnd Hres.
  destruct (add_bake_image_node_run mat img w m Hm Hnd Hres) as (w1 & Hadd & Hm1).
  eexists _, w1, _. split; [exact Hadd|]. split; [exact Hm1|].
  cbn [nodes nodes_active with_nodes]. split_and!; try reflexivity.
  - intros n Hin He. apply fresh_not_used in Hin. unfold has_id in Hin.
    apply Nat.eqb_neq in Hin. contradiction.
  - rewrite List.filter_app, (filter_not_named _ _ (kept_not_named _ Hres)). reflexivity.
Qed.

(** X15: every bake method takes its node out again.  On a node list with
    distinct identities in which no node of another type is named
    [BakeTargetNode], and for an image that is in the session, the
    material's nodes after the method are the caller's nodes without
    stale bake-target nodes, whether the bake succeeded or raised; the
    material is left without an active node. *)
Theorem bake_methods_release_node (props : PropsObj) (bake_method : BakeMethod)
    (img mt : string) (mat : nat) (w : World) (m : Material) :
  In bake_method (map snd (map_types props)) ->
  materials w !! mat = Some m ->
  NoDup (node_id <$> nodes m) -> name_reserved (nodes m) ->
  is_Some (images w !! img) ->
  exists m',
    materials (snd (bake_method img mt mat w)) !! mat = Some m' /\
    nodes m' = kept_nodes (nodes m) /\ nodes_active m' = None /\
    name_taken (nodes m') bake_node_name = false.
Proof.
  intros Hin Hm Hnd Hres Hi. exists (released m).
  split; [now apply (methods_release_node props)|].
  split; [reflexivity|]. split; [reflexivity|]. now apply kept_not_named.
Qed.

Lemma try_finally_inv_Ok_both {A} (m : M A) (f : M unit) w a w' :
  try_finally m f w = (Ok a, w') -> exists w1, m w = (Ok a, w1) /\ f w1 = (Ok tt, w').
Proof.
  unfold try_finally. destruct (m w) as [r w1]. destruct (f w1) as [[[]|e] w2] eqn:Hf;
    [|discriminate].
  intros [= -> <-]. now exists w1.
Qed.

Lemma release_keeps_log mat : keeps bake_log (release_bake_node mat).
Proof. keeps_auto. Qed.

(** Walk down a chain of binds that returned [Ok], carrying the bake log
    along. *)
Ltac chase_log Hl H :=
  repeat lazymatch type of H with
    | bind _ _ _ = (Ok _, _) =>
        let Hk := fresh "Hk" in
        apply (bind_inv_Ok_keeps bake_log) in H as (? & ? & Hk & H);
        [rewrite <- Hk in Hl; clear Hk | solve [keeps_auto]]
    end.

Ltac method_logs :=
  let H := fresh "H" in
  let Hl := fresh "Hl" in
  let Hf := fresh "Hf" in
  let L := fresh "L" in
  intros H;
  match goal with
  | |- bake_log _ = bake_log ?w ++ _ => remember (bake_log w) as L eqn:Hl
  end;
  symmetry in Hl;
  apply (bind_inv_Ok_keeps bake_log) in H as (? & ? & Hk & H); [|solve [keeps_auto]];
  rewrite <- Hk in Hl; clear Hk;
  apply try_finally_inv_Ok_both in H as (? & H & Hf);
  chase_log Hl H;
  match type of Hf with
  | release_bake_node ?mat ?w2 = _ =>
      pose proof (release_keeps_log mat w2) as Hk; rewrite Hf in Hk; simpl in Hk;
      rewrite Hk
  end;
  match type of H with
  | bpy_ops_object_bake ?ty ?wk = _ =>
      pose proof (bake_logs ty wk) as Hb; rewrite H in Hb; simpl in Hb;
      rewrite Hb, Hl; reflexivity
  end.

Lemma bake_diffuse_logs img mt mat w w' :
  bake_diffuse img mt mat w = (Ok tt, w') -> bake_log w' = bake_log w ++ ["DIFFUSE"].
Proof. unfold bake_diffuse. method_logs. Qed.

Lemma bake_roughness_logs img mt mat w w' :
  bake_roughness img mt mat w = (Ok tt, w') -> bake_log w' = bake_log w ++ ["ROUGHNESS"].
Proof. unfold bake_roughness. method_logs. Qed.

Lemma bake_normal_logs img mt mat w w' :
  bake_normal img mt mat w = (Ok tt, w') -> bake_log w' = bake_log w ++ ["NORMAL"].
Proof. unfold bake_normal. method_logs. Qed.

Lemma bake_ao_logs img mt mat w w' :
  bake_ao img mt mat w = (Ok tt, w') -> bake_log w' = bake_log w ++ ["AO"].
Proof. unfold bake_ao. method_logs. Qed.

Lemma at_most_keeps ty {A} (m : M A) : keeps bake_log m -> bakes_at_most ty m.
Proof. intros H w. left. apply H. Qed.

Lemma at_most_bake ty : bakes_at_most ty (bpy_ops_object_bake ty).
Proof. intros w. right. apply bake_logs. Qed.

Lemma at_most_after ty {A B} (m : M A) (k : A -> M B) :
  keeps bake_log m -> (forall a, bakes_at_most ty (k a)) -> bakes_at_most ty (bind m k).
Proof.
  intros Hm Hk w. unfold bind. specialize (Hm w).
  destruct (m w) as [[a|e] w1]; simpl in *; [|now left].
  rewrite <- Hm. apply Hk.
Qed.

Lemma at_most_before ty {A B} (m : M A) (k : A -> M B) :
  bakes_at_most ty m -> (forall a, keeps bake_log (k a)) -> bakes_at_most ty (bind m k).
Proof.
  intros Hm Hk w. unfold bind. specialize (Hm w).
  destruct (m w) as [[a|e] w1]; simpl in *; [|exact Hm].
  now rewrite Hk.
Qed.

Lemma at_most_try_finally ty {A} (m : M A) (f : M unit) :
  bakes_at_most ty m -> keeps bake_log f -> bakes_at_most ty (try_finally m f).
Proof.
  intros Hm Hf w. rewrite snd_try_finally, Hf. apply Hm.
Qed.

Lemma at_most_try_except ty {A} (m : M A) (h : Exn -> M A) :
  bakes_at_most ty m -> (forall e, keeps bake_log (h e)) ->
  bakes_at_most ty (try_except m h).
Proof.
  intros Hm Hh w. unfold try_except. specialize (Hm w).
  destruct (m w) as [[a|e] w1]; simpl in *; [exact Hm|].
  now rewrite Hh.
Qed.

Ltac at_most_body :=
  repeat first
    [ apply at_most_bake
    | apply at_most_after; [solve [keeps_auto] | intros ?]
    | lazymatch goal with
      | |- bakes_at_most _ (when _ _) => fail
      | |- bakes_at_most _ (match ?x with _ => _ end) => destruct x
      end ].

Lemma bake_diffuse_at_most img mt mat : bakes_at_most "DIFFUSE" (bake_diffuse img mt mat).
Proof.
  unfold bake_diffuse. apply at_most_after; [keeps_auto | intros _].
  apply at_most_try_finally; [|keeps_auto]. at_most_body.
Qed.

Lemma bake_roughness_at_most img mt mat :
  bakes_at_most "ROUGHNESS" (bake_roughness img mt mat).
Proof.
  unfold bake_roughness. apply at_most_after; [keeps_auto | intros _].
  apply at_most_try_finally; [|keeps_auto]. at_most_body.
Qed.

Lemma bake_normal_at_most img mt mat : bakes_at_most "NORMAL" (bake_normal img mt mat).
Proof.
  unfold bake_normal. apply at_most_after; [keeps_auto | intros _].
  apply at_most_try_finally; [|keeps_auto]. at_most_body.
Qed.

Lemma bake_ao_at_most img mt mat : bakes_at_most "AO" (bake_ao img mt mat).
Proof.
  unfold bake_ao. apply at_most_after; [keeps_auto | intros _].
  apply at_most_try_finally; [|keeps_auto]. at_most_body.
Qed.

Lemma bake_failed_keeps_log map_type e : keeps bake_log (bake_failed map_type e).
Proof. keeps_auto. Qed.

Lemma bake_map_at_most props model material map_type (bake_method : BakeMethod) ty :
  (forall img mt mat, bakes_at_most ty (bake_method img mt mat)) ->
  bakes_at_most ty (bake_map props model material map_type bake_method).
Proof.
  intros Hm. unfold bake_map. apply at_most_after; [keeps_auto | intros _].
  apply at_most_try_except; [|intros e; apply bake_failed_keeps_log].
  apply at_most_after; [keeps_auto | intros img].
  apply at_most_before; [apply Hm | intros _; keeps_auto].
Qed.

(** A round that lets the loop go on has baked. *)
Lemma bake_map_true_logs props model material map_type (bake_method : BakeMethod) ty :
  (forall img mt mat w w', bake_method img mt mat w = (Ok tt, w') ->
                           bake_log w' = bake_log w ++ [ty]) ->
  forall w w', bake_map props model material map_type bake_method w = (Ok true, w') ->
               bake_log w' = bake_log w ++ [ty].
Proof.
  intros Hm w w' H. unfold bake_map in H.
  remember (bake_log w) as L eqn:Hl. symmetry in Hl.
  apply (bind_inv_Ok_keeps bake_log) in H as (? & w1 & Hk & H); [|keeps_auto].
  rewrite <- Hk in Hl. clear Hk.
  unfold try_except in H.
  destruct (bind (allocate_buffer _ _ _) _ w1) as [[b|e] w2] eqn:Hb.
  2:{ apply bake_failed_false in H as [? _]. discriminate. }
  injection H as -> ->.
  apply (bind_inv_Ok_keeps bake_log) in Hb as (img & w3 & Hk & Hb); [|keeps_auto].
  rewrite <- Hk in Hl. clear Hk.
  apply bind_inv_Ok in Hb as ([] & w4 & Hrun & Hb).
  apply Hm in Hrun.
  assert (Hw : keeps bake_log
                 (bind (warn_if_solid map_type img) (fun _ => ret true))) by keeps_auto.
  specialize (Hw w4). rewrite Hb in Hw. simpl in Hw. now rewrite Hw, Hrun, Hl.
Qed.

Lemma map_types_bake props model material :
  Forall2 (round_bakes props model material) (map_types props) map_order.
Proof.
  unfold map_types, map_order.
  apply Forall2_cons; split; [split; [reflexivity | split] |
  apply Forall2_cons; split; [split; [reflexivity | split] |
  apply Forall2_cons; split; [split; [reflexivity | split] |
  apply Forall2_cons; split; [split; [reflexivity | split] | constructor]]]]; simpl.
  - apply bake_map_at_most, bake_diffuse_at_most.
  - apply bake_map_true_logs, bake_diffuse_logs.
  - apply bake_map_at_most, bake_roughness_at_most.
  - apply bake_map_true_logs, bake_roughness_logs.
  - apply bake_map_at_most, bake_normal_at_most.
  - apply bake_map_true_logs, bake_normal_logs.
  - apply bake_map_at_most, bake_ao_at_most.
  - apply bake_map_true_logs, bake_ao_logs.
Qed.

Lemma requested_of_map_types props : requested_of (map_types props) map_order = requested props.
Proof.
  unfold requested, map_types, map_order. simpl.
  destruct (props_bake_diffuse props), (props_bake_roughness props),
    (props_bake_normal props), (props_bake_ao props); reflexivity.
Qed.

(** The loop bakes a prefix of the requested types, in order. *)
Lemma bake_loop_prefix props model material entries order :
  Forall2 (round_bakes props model material) entries order ->
  forall w, exists attempted_types,
    bake_log (snd (bake_loop props model material entries w))
    = bake_log w ++ attempted_types /\
    attempted_types `prefix_of` (snd <$> requested_of entries order).
Proof.
  induction 1 as [|[[mt sb] bm] r entries order (_ & Hmost & Htrue) _ IH]; intros w.
  - exists []. simpl. split; [now rewrite app_nil_r | reflexivity].
  - simpl in Hmost, Htrue. simpl bake_loop. destruct sb; simpl.
    + unfold bind. specialize (Hmost w). specialize (Htrue w).
      destruct (bake_map props model material mt bm w) as [[[|]|e] w1] eqn:Hb;
        simpl in Hmost.
      * destruct (IH w1) as (l & Hl & Hp). exists (snd r :: l). split.
        -- rewrite Hl, (Htrue w1 eq_refl). now rewrite <- app_assoc.
        -- now apply prefix_cons.
      * destruct Hmost as [Hm|Hm].
        -- exists []. split; [now rewrite app_nil_r | apply prefix_nil].
        -- exists [snd r]. split; [exact Hm|]. apply prefix_cons, prefix_nil.
      * destruct Hmost as [Hm|Hm].
        -- exists []. split; [now rewrite app_nil_r | apply prefix_nil].
        -- exists [snd r]. split; [exact Hm|]. apply prefix_cons, prefix_nil.
    + apply IH.
Qed.

Lemma save_phase_keeps_log : keeps bake_log save_phase.
Proof. keeps_auto. Qed.

Lemma try_block_prefix props model material w :
  exists attempted_types,
    bake_log (snd (try_block props model material w)) = bake_log w ++ attempted_types /\
    attempted_types `prefix_of` (snd <$> requested props).
Proof.
  unfold try_block.
  pose proof (setup_keeps_log props model material w) as Sl.
  destruct (setup_phase props model material w) as [[[]|e] w1] eqn:Hs; simpl in Sl.
  2:{ rewrite (try_except_bind_Exc _ _ _ _ _ _ Hs). simpl. exists [].
      split; [now rewrite app_nil_r | apply prefix_nil]. }
  rewrite (try_except_bind_Ok _ _ _ _ _ _ Hs).
  erewrite try_except_bind_Ok by reflexivity.
  erewrite try_except_bind_Ok by reflexivity.
  match goal with
  | |- context [try_except (bind (bake_loop ?p ?m ?mt ?es) _) _ ?w3] =>
      destruct (bake_loop_prefix p m mt es map_order (map_types_bake p m mt) w3)
        as (l & Hl & Hp);
      destruct (bake_loop p m mt es w3) as [[[]|e] w4] eqn:Hloop
  end; simpl in Hl; rewrite Sl in Hl; rewrite requested_of_map_types in Hp.
  - rewrite (try_except_bind_Ok _ _ _ _ _ _ Hloop).
    exists l. split; [|exact Hp].
    pose proof (save_phase_keeps_log w4) as Kl.
    unfold try_except. destruct (save_phase w4) as [[[]|e] w5]; simpl in *; congruence.
  - rewrite (try_except_bind_Exc _ _ _ _ _ _ Hloop). simpl. now exists l.
Qed.

(** X16: [execute] hands bakes to the bake service for the requested map
    types only, in the fixed order Diffuse, Roughness, Normal, AO and each
    at most once: the types attempted by a run are an initial segment of
    the requested ones. *)
Theorem bakes_follow_requested_order (w : World) :
  exists attempted_types,
    bake_log (snd (execute w)) = bake_log w ++ attempted_types /\
    attempted_types `prefix_of` (snd <$> requested (get_props w)).
Proof.
  rewrite execute_run. cbv zeta.
  pose proof (validate_keeps_log (set_frame (fun _ => empty_frame) w)) as Vl.
  destruct (validateRequirements _) as [[[|v]|e] w1]; simpl in Vl.
  1,3: exists []; simpl; split; [now rewrite app_nil_r | apply prefix_nil].
  change (get_props (set_frame (fun _ => empty_frame) w)) with (get_props w).
  destruct (try_block_prefix (get_props w) (v_model v) (v_material v) w1)
    as (l & Hl & Hp).
  exists l. split; [|exact Hp]. rewrite finally_keeps_log, Hl. now rewrite Vl.
Qed.

Lemma methods_keep_view props bake_method :
  In bake_method (map snd (map_types props)) ->
  forall img mt mat, keeps round_view (bake_method img mt mat).
Proof.
  revert bake_method.
  apply (four_methods (fun bm => forall img mt mat, keeps round_view (bm img mt mat)));
    intros img mt mat; unfold round_view; keeps_auto.
Qed.

Lemma warn_keeps_view map_type img : keeps round_view (warn_if_solid map_type img).
Proof. unfold round_view. keeps_auto. Qed.

(** The state of the loop after a round that lets it go on. *)
Lemma bake_map_true_state props model material map_type (bake_method : BakeMethod)
    w w' o imgs :
  (forall img mt mat, keeps round_view (bake_method img mt mat)) ->
  bake_map props model material map_type bake_method w = (Ok true, w') ->
  objects w !! model = Some o -> baked_images (frame w) = Some imgs ->
  objects w' = objects w /\ fs_files w' = fs_files w /\ host w' = host w /\
  output_path (frame w') = output_path (frame w) /\
  bake_successful (frame w') = bake_successful (frame w) /\
  baked_images (frame w') = Some (imgs ++ [obj_name o +:+ "_" +:+ map_type]) /\
  dom (images w') = {[ obj_name o +:+ "_" +:+ map_type ]} ∪ dom (images w).
Proof.
  intros Hkeeps H Ho Hb. unfold bake_map in H.
  apply bind_inv_Ok in H as ([] & w0 & Ha & H).
  unfold assign_image, modify in Ha. injection Ha as <-.
  unfold try_except in H.
  destruct (bind (allocate_buffer _ _ _) _ _) as [[b|e] w2] eqn:Hbody.
  2:{ apply bake_failed_false in H as [? _]. discriminate. }
  injection H as -> ->.
  match type of Hbody with
  | bind _ _ ?w0 = _ =>
      destruct (allocate_buffer_run props model map_type w0 o imgs Ho Hb)
        as (w1 & Hall & Hi1 & _ & Hb1 & Hs1 & Hp1 & Hh1 & Ho1 & Hf1 & _)
  end.
  rewrite (bind_Ok _ _ _ _ _ Hall) in Hbody.
  apply bind_inv_Ok in Hbody as ([] & w3 & Hm & Hbody).
  apply bind_inv_Ok in Hbody as ([] & w4 & Hw & Hbody).
  injection Hbody as <-.
  pose proof (Hkeeps (obj_name o +:+ "_" +:+ map_type) map_type material w1) as K1.
  rewrite Hm in K1.
  pose proof (warn_keeps_view map_type (obj_name o +:+ "_" +:+ map_type) w3) as K2.
  rewrite Hw in K2. unfold round_view in K1, K2. simpl in K1, K2.
  injection K2 as -> -> -> -> -> -> ->. injection K1 as -> -> -> -> -> -> ->.
  rewrite Ho1, Hf1, Hh1, Hp1, Hs1, Hb1, Hi1. simpl.
  split_and!; try reflexivity. apply dom_insert_L.
Qed.

Lemma map_types_succeed props model material :
  Forall2 (round_succeeds props model material) (map_types props) map_order.
Proof.
  unfold map_types, map_order.
  apply Forall2_cons; split; [split; [reflexivity | split] |
  apply Forall2_cons; split; [split; [reflexivity | split] |
  apply Forall2_cons; split; [split; [reflexivity | split] |
  apply Forall2_cons; split; [split; [reflexivity | split] | constructor]]]]; simpl.
  - apply (methods_keep_view props). simpl. tauto.
  - apply bake_map_true_logs, bake_diffuse_logs.
  - apply (methods_keep_view props). simpl. tauto.
  - apply bake_map_true_logs, bake_roughness_logs.
  - apply (methods_keep_view props). simpl. tauto.
  - apply bake_map_true_logs, bake_normal_logs.
  - apply (methods_keep_view props). simpl. tauto.
  - apply bake_map_true_logs, bake_ao_logs.
Qed.

(** A loop that ends with the run still successful has baked every
    requested map. *)
Lemma bake_loop_complete props model material o entries order :
  Forall2 (round_succeeds props model material) entries order ->
  forall w w' imgs,
    bake_loop props model material entries w = (Ok tt, w') ->
    bake_successful (frame w') = Some true ->
    objects w !! model = Some o -> baked_images (frame w) = Some imgs ->
    bake_log w' = bake_log w ++ (snd <$> requested_of entries order) /\
    baked_images (frame w')
    = Some (imgs ++ (buffer_name o <$> requested_of entries order)) /\
    dom (images w')
    = list_to_set (buffer_name o <$> requested_of entries order) ∪ dom (images w) /\
    fs_files w' = fs_files w /\ host w' = host w /\
    output_path (frame w') = output_path (frame w).
Proof.
  induction 1 as [|[[mt sb] bm] r entries order (Hname & Hkeeps & Htrue) _ IH];
    intros w w' imgs Hrun Hok Ho Hb.
  - injection Hrun as <-. simpl. rewrite !app_nil_r, Hb.
    split_and!; try reflexivity. now rewrite (left_id_L ∅ (∪)).
  - simpl in Hname, Hkeeps, Htrue. subst mt. simpl in Hrun. destruct sb; simpl in Hrun.
    + apply bind_inv_Ok in Hrun as (go_on & w1 & Hround & Hrun).
      destruct go_on.
      * destruct (bake_map_true_state _ _ _ _ _ _ _ _ _ Hkeeps Hround Ho Hb)
          as (Ho1 & Hf1 & Hh1 & Hp1 & Hs1 & Hb1 & Hd1).
        apply Htrue in Hround.
        destruct (IH w1 w' (imgs ++ [obj_name o +:+ "_" +:+ fst r]) Hrun Hok)
          as (Il & Ib & Id & If & Ih & Ip); [now rewrite Ho1 | exact Hb1 |].
        simpl. rewrite Il, Ib, Id, If, Ih, Ip, Hround, Hf1, Hh1, Hp1, Hd1.
        rewrite <- !app_assoc. simpl. split_and!; try reflexivity.
        unfold buffer_name at 2. rewrite (assoc_L (∪)). f_equal. apply (comm_L (∪)).
      * injection Hrun as <-. apply bake_map_false in Hround. congruence.
    + now apply IH.
Qed.

Lemma finally_finished s w w' :
  finally_block s w = (Ok FINISHED, w') -> bake_successful (frame w) = Some true.
Proof.
  unfold finally_block. intros H.
  assert (Kc : keeps frame cleanup_images) by keeps_auto.
  assert (Kr : keeps frame (restore_settings s)) by keeps_auto.
  apply (bind_inv_Ok_keeps frame) in H as (? & w1 & Hf1 & H); [|exact Kc].
  apply (bind_inv_Ok_keeps frame) in H as (? & w2 & Hf2 & H); [|exact Kr].
  rewrite <- Hf1, <- Hf2. unfold final_report in H.
  apply bind_inv_Ok in H as (ok & w3 & Hr & H).
  unfold read_local in Hr. destruct (bake_successful (frame w2)) as [b|]; [|discriminate].
  injection Hr as <- <-. destruct b; [reflexivity|]. discriminate.
Qed.

Lemma omap_saved_all h path (m : gmap string Image) imgs :
  (forall img, In img imgs -> is_Some (m !! img)) ->
  existsb (save_fails h path m) imgs = false ->
  sf_image <$> omap (saved_file h path m) imgs = imgs /\
  Forall (fun f => sf_format f = "PNG" /\
                   sf_path f = os_path_join path (sf_image f +:+ ".png"))
         (omap (saved_file h path m) imgs).
Proof.
  induction imgs as [|img imgs IH]; intros Hin Hf; [simpl; now split|].
  simpl in Hf. apply orb_false_iff in Hf as [Hf1 Hf2].
  destruct (Hin img (or_introl eq_refl)) as [i Hi].
  destruct (IH (fun k Hk => Hin k (or_intror Hk)) Hf2) as [IH1 IH2].
  assert (Hhead : saved_file h path m img = Some (file_of path img i))
    by (unfold saved_file; now rewrite Hi, Hf1).
  change (omap (saved_file h path m) (img :: imgs))
    with (match saved_file h path m img with
          | Some y => y :: omap (saved_file h path m) imgs
          | None => omap (saved_file h path m) imgs
          end).
  rewrite Hhead. split.
  - change (sf_image <$> file_of path img i :: omap (saved_file h path m) imgs)
      with (img :: (sf_image <$> omap (saved_file h path m) imgs)).
    now rewrite IH1.
  - constructor; [now split | exact IH2].
Qed.

Lemma get_props_registered w p : get_props w = RegisteredProps p -> autobake_props w = Some p.
Proof. unfold get_props. destruct (autobake_props w); [now intros [= ->] | discriminate]. Qed.

Lemma save_phase_skipped_run w imgs :
  bake_successful (frame w) = Some false -> baked_images (frame w) = Some imgs ->
  save_phase w = (Ok tt, w).
Proof.
  intros Hok Hb. rewrite save_phase_rounds.
  rewrite (bind_Ok _ _ _ _ _ (read_local_Some _ _ _ _ Hok)).
  now rewrite (bind_Ok _ _ _ _ _ (read_local_Some _ _ _ _ Hb)).
Qed.

(** The [try] statement of a run that ends successful. *)
Lemma try_block_complete p model material w o path :
  objects w !! model = Some o ->
  setup_phase (RegisteredProps p) model material w
  = (Ok tt, snd (setup_phase (RegisteredProps p) model material w)) ->
  output_path (frame (snd (setup_phase (RegisteredProps p) model material w))) = Some path ->
  bake_successful (frame (snd (try_block (RegisteredProps p) model material w)))
  = Some true ->
  exists files,
    bake_log (snd (try_block (RegisteredProps p) model material w))
    = bake_log w ++ (snd <$> requested (RegisteredProps p)) /\
    fs_files (snd (try_block (RegisteredProps p) model material w)) = fs_files w ++ files /\
    sf_image <$> files = buffer_name o <$> requested (RegisteredProps p) /\
    Forall (fun f => sf_format f = "PNG" /\
                     sf_path f = os_path_join path (sf_image f +:+ ".png")) files.
Proof.
  intros Ho Hs Hpath Hfin.
  set (props := RegisteredProps p) in *.
  pose proof (setup_keeps_files props model material w) as Sf.
  pose proof (setup_keeps_log props model material w) as Sl.
  pose proof (setup_keeps_names props model material w) as Sn.
  set (w2 := snd (setup_phase props model material w)) in *.
  assert (Ho2 : exists o2, objects w2 !! model = Some o2 /\ obj_name o2 = obj_name o).
  { unfold object_names in Sn.
    assert (Hn : obj_name <$> objects w2 !! model = Some (obj_name o)).
    { rewrite <- list_lookup_fmap, Sn, list_lookup_fmap. now rewrite Ho. }
    destruct (objects w2 !! model) as [o2|]; [|discriminate].
    exists o2. split; [reflexivity|]. now injection Hn. }
  destruct Ho2 as (o2 & Ho2 & Hname).
  revert Hfin. unfold try_block.
  rewrite (try_except_bind_Ok _ _ _ _ _ _ Hs).
  erewrite try_except_bind_Ok by reflexivity.
  erewrite try_except_bind_Ok by reflexivity.
  match goal with
  | |- context [try_except (bind (bake_loop ?pp ?m ?mt ?es) _) _ ?w0] =>
      set (w3 := w0);
      assert (Hb3 : locals_bound (frame w3))
        by (unfold locals_bound; simpl; split_and!; eauto);
      pose proof (bake_loop_stays_bound pp m mt es (methods_stay_bound pp) w3 Hb3) as Hb4;
      pose proof (bake_loop_complete pp m mt o2 es map_order (map_types_succeed pp m mt) w3)
        as Hloop;
      destruct (bake_loop pp m mt es w3) as [[[]|e] w4] eqn:Hl
  end; simpl in Hb4.
  2:{ rewrite (try_except_bind_Exc _ _ _ _ _ _ Hl). simpl. discriminate. }
  rewrite (try_except_bind_Ok _ _ _ _ _ _ Hl).
  destruct Hb4 as ([path4 Hp4] & [ok Hok] & [imgs Hi]).
  destruct ok.
  2:{ unfold try_except. rewrite (save_phase_skipped_run _ _ Hok Hi). simpl. congruence. }
  destruct (Hloop w4 [] eq_refl Hok Ho2 eq_refl) as (Ll & Lb & Ld & Lf & Lh & Lp).
  rewrite requested_of_map_types in Ll, Lb, Ld. simpl in Lb.
  rewrite Hi in Lb. injection Lb as ->.
  change (output_path (frame w3)) with (output_path (frame w2)) in Lp.
  rewrite Hp4, Hpath in Lp. injection Lp as ->.
  destruct (save_phase_run w4 _ path Hok Hi Hp4)
    as (w5 & Hrun & Hf5 & _ & Hs5 & _).
  unfold try_except. rewrite Hrun. simpl. intros Hfin.
  rewrite Hs5 in Hfin. injection Hfin as Hfin. apply negb_true_iff in Hfin.
  destruct (omap_saved_all (host w4) path (images w4)
              (buffer_name o2 <$> requested props)) as [Himg Hfmt]; [|exact Hfin|].
  { intros img Hin. apply elem_of_dom. rewrite Ld. apply elem_of_union_l.
    apply elem_of_list_to_set. now apply list_elem_of_In. }
  exists (omap (saved_file (host w4) path (images w4)) (buffer_name o2 <$> requested props)).
  assert (Kl : keeps bake_log save_phase) by apply save_phase_keeps_log.
  specialize (Kl w4). rewrite Hrun in Kl. simpl in Kl.
  split_and!.
  - rewrite Kl, Ll. simpl. now rewrite Sl.
  - rewrite Hf5, Lf. simpl. now rewrite Sf.
  - rewrite Himg. unfold buffer_name. now rewrite Hname.
  - exact Hfmt.
Qed.

Lemma finished_run_facts (w w' : World) (model : nat) (o : Object) :
  execute w = (Ok FINISHED, w') ->
  active_object w = Some model -> objects w !! model = Some o ->
  exists p,
    autobake_props w = Some p /\
    bake_log w' = bake_log w ++ (snd <$> requested (RegisteredProps p)) /\
    sf_image <$> written_by_run w = buffer_name o <$> requested (RegisteredProps p) /\
    Forall (fun f => sf_format f = "PNG" /\
                     sf_path f = os_path_join (resolved_output_path (host w) p)
                                              (sf_image f +:+ ".png"))
           (written_by_run w).
Proof.
  intros Hex Ha Ho. unfold written_by_run. rewrite Hex. simpl.
  pose proof (validate_keeps_files (set_frame (fun _ => empty_frame) w)) as Vf.
  pose proof (validate_keeps_log (set_frame (fun _ => empty_frame) w)) as Vl.
  pose proof (validate_keeps_host (set_frame (fun _ => empty_frame) w)) as Vh.
  pose proof (validate_keeps_names (set_frame (fun _ => empty_frame) w)) as Vn.
  destruct (validateRequirements (set_frame (fun _ => empty_frame) w))
    as [[[|v]|e] w1] eqn:Hv; simpl in Vf, Vl, Vh, Vn.
  1,3: rewrite execute_run in Hex; cbv zeta in Hex; rewrite Hv in Hex; discriminate.
  pose proof (validate_finished_model _ _ _ Hv) as Hmodel.
  change (active_object (set_frame (fun _ => empty_frame) w)) with (active_object w)
    in Hmodel.
  rewrite Ha in Hmodel. injection Hmodel as Hmodel.
  assert (Ho1 : exists o1, objects w1 !! model = Some o1 /\ obj_name o1 = obj_name o).
  { unfold object_names in Vn.
    assert (Hn : obj_name <$> objects w1 !! model = Some (obj_name o)).
    { rewrite <- list_lookup_fmap, Vn, list_lookup_fmap. simpl. now rewrite Ho. }
    destruct (objects w1 !! model) as [o1|]; [|discriminate].
    exists o1. split; [reflexivity|]. now injection Hn. }
  destruct Ho1 as (o1 & Ho1 & Hname).
  destruct (setup_phase (get_props w) (v_model v) (v_material v) w1)
    as [[[]|e] w2] eqn:Hs.
  2:{ rewrite (execute_setup_fails _ _ _ _ _ Hv Hs) in Hex. discriminate. }
  destruct (setup_phase_post _ _ _ _ _ Hs) as (p & o2 & Hp & _ & _ & _ & _ & _ & Hpath & _).
  exists p. split; [now apply get_props_registered|].
  rewrite execute_run in Hex. cbv zeta in Hex. rewrite Hv in Hex.
  change (get_props (set_frame (fun _ => empty_frame) w)) with (get_props w) in Hex.
  rewrite Hp in Hex, Hs. rewrite <- Hmodel in Hex, Hs.
  pose proof (finally_finished _ _ _ Hex) as Hfin.
  destruct (try_block_complete p model (v_material v) w1 o1
              (resolved_output_path (host w1) p) Ho1) as (files & Tl & Tf & Ti & Tfmt).
  { now rewrite Hs. }
  { now rewrite Hs. }
  { exact Hfin. }
  pose proof (finally_keeps_files (take_snapshot w1)
                (snd (try_block (RegisteredProps p) model (v_material v) w1))) as Ff.
  pose proof (finally_keeps_log (take_snapshot w1)
                (snd (try_block (RegisteredProps p) model (v_material v) w1))) as Fl.
  rewrite Hex in Ff, Fl. simpl in Ff, Fl.
  rewrite Fl, Tl, Vl, Ff, Tf, Vf. simpl. rewrite drop_app_length.
  rewrite Vh in Tfmt. simpl in Tfmt.
  split_and!; try reflexivity.
  - rewrite Ti. unfold buffer_name. now rewrite Hname.
  - exact Tfmt.
Qed.

Lemma requested_type_length props r :
  In r (requested props) -> (String.length (fst r) <= 9)%nat.
Proof.
  unfold requested.
  destruct (props_bake_diffuse props), (props_bake_roughness props),
    (props_bake_normal props), (props_bake_ao props); simpl;
    intros H; repeat (destruct H as [<-|H]; [simpl; lia|]); destruct H.
Qed.

(** X17: a run that returns [FINISHED] for a model whose name is at most 53
    bytes (so that every buffer name fits the 63 bytes Blender keeps for
    a name) has handed every requested map type to the bake service, once
    and in order, and has written exactly one PNG file per requested map,
    for the image [<model.name>_<type>], at the path that [os.path.join]
    makes of the resolved output directory and [<image>.png]. *)
Theorem finished_run_is_complete (w w' : World) (model : nat) (o : Object) :
  execute w = (Ok FINISHED, w') ->
  active_object w = Some model -> objects w !! model = Some o ->
  (String.length (obj_name o) <= 53)%nat ->
  exists p,
    autobake_props w = Some p /\
    bake_log w' = bake_log w ++ (snd <$> requested (RegisteredProps p)) /\
    sf_image <$> written_by_run w = buffer_name o <$> requested (RegisteredProps p) /\
    Forall (fun f => sf_format f = "PNG" /\
                     sf_path f = os_path_join (resolved_output_path (host w) p)
                                              (sf_image f +:+ ".png") /\
                     (String.length (sf_image f) <= max_name_length)%nat)
           (written_by_run w).
Proof.
  intros Hex Ha Ho Hlen.
  destruct (finished_run_facts w w' model o Hex Ha Ho) as (p & Hp & Hlog & Hnames & Hfiles).
  exists p. split_and!; try assumption.
  rewrite Forall_forall in Hfiles. apply Forall_forall. intros f Hin.
  destruct (Hfiles f Hin) as [Hfmt Hpath]. split_and!; try assumption.
  assert (Hi : sf_image f ∈ buffer_name o <$> requested (RegisteredProps p)).
  { rewrite <- Hnames. apply list_elem_of_fmap. now exists f. }
  apply list_elem_of_fmap in Hi as (r & -> & Hr). apply list_elem_of_In in Hr.
  apply requested_type_length in Hr. unfold buffer_name, max_name_length.
  rewrite !length_append. simpl. lia.
Qed.














Lemma try_finally_Ok {A} (m : M A) (f : M unit) w a w1 w2 :
  m w = (Ok a, w1) -> f w1 = (Ok tt, w2) -> try_finally m f w = (Ok a, w2).
Proof. intros Hm Hf. unfold try_finally. now rewrite Hm, Hf. Qed.





#[global] Instance only_touches_preorder x : PreOrder (only_touches x).
Proof.
  split.
  - intros w. now split.
  - intros w1 w2 w3 [V1 I1] [V2 I2]. split; [congruence|].
    intros k Hk. now rewrite I2, I1.
Qed.

#[global] Instance others_kept_preorder model mat nm : PreOrder (others_kept model mat nm).
Proof.
  split.
  - intros w Hinv. now split.
  - intros w1 w2 w3 H1 H2 Hinv. destruct (H1 Hinv) as [Hinv2 I1].
    destruct (H2 Hinv2) as [Hinv3 I2]. split; [exact Hinv3|].
    intros name Hn. now rewrite I2, I1.
Qed.

Lemma round_inv_view model mat nm w w' :
  inv_view w' = inv_view w -> round_inv model mat nm w -> round_inv model mat nm w'.
Proof.
  unfold inv_view, round_inv. intros [= Ha Ho Hi Hb]. now rewrite Ha, Ho, Hi, Hb.
Qed.

Lemma only_touches_kept model mat nm x w w' :
  In x (buffer_names nm) -> only_touches x w w' -> others_kept model mat nm w w'.
Proof.
  intros Hx [Hv Hi] Hinv. split; [now apply (round_inv_view _ _ _ w)|].
  intros name Hn. apply Hi. intros ->. now apply Hn.
Qed.

Lemma respects_only_touches {A} model mat nm x (m : M A) :
  In x (buffer_names nm) -> respects (only_touches x) m ->
  respects (others_kept model mat nm) m.
Proof. intros Hx Hm w. now apply (only_touches_kept _ _ _ x). Qed.

Lemma only_touches_view x w w' :
  (inv_view w', images w') = (inv_view w, images w) -> only_touches x w w'.
Proof.
  intros H. pose proof (f_equal fst H) as Hv. pose proof (f_equal snd H) as Hi.
  simpl in Hv, Hi. split; [exact Hv|]. intros k _. now rewrite Hi.
Qed.

Lemma others_kept_view model mat nm w w' :
  (inv_view w', images w') = (inv_view w, images w) -> others_kept model mat nm w w'.
Proof.
  intros H Hinv. pose proof (f_equal fst H) as Hv. pose proof (f_equal snd H) as Hi.
  simpl in Hv, Hi. split; [now apply (round_inv_view _ _ _ w)|].
  intros name _. now rewrite Hi.
Qed.

Lemma image_update_touches x f : respects (only_touches x) (image_update x f).
Proof.
  intros w. split; [reflexivity|]. intros k Hk. simpl. now apply lookup_alter_ne.
Qed.

Lemma images_remove_touches x : respects (only_touches x) (images_remove x).
Proof.
  intros w. split; [reflexivity|]. intros k Hk. simpl. now apply lookup_delete_ne.
Qed.

Ltac touches_leaf :=
  first [ solve [auto]
        | apply image_update_touches
        | apply images_remove_touches
        | apply (respects_of_keeps _ (fun w => (inv_view w, images w)));
          [intros ? ?; apply only_touches_view | solve [unfold inv_view; keeps_auto]] ].

Ltac touches_open :=
  lazymatch goal with
  | |- respects _ (image_update _ _) => fail
  | |- respects _ (images_remove _) => fail
  | |- respects _ ?m => let h := head_of m in progress unfold h
  end.

Ltac touches_auto := repeat first [ touches_leaf | respects_step | touches_open ].

Ltac kept_leaf :=
  apply (respects_of_keeps _ (fun w => (inv_view w, images w)));
  [intros ? ?; apply others_kept_view | solve [unfold inv_view; keeps_auto]].

Lemma ensure_non_color_touches x : respects (only_touches x) (ensure_non_color x).
Proof. touches_auto. Qed.

Lemma image_save_touches x : respects (only_touches x) (image_save x).
Proof. touches_auto. Qed.

(** When [add_bake_image_node] returns, the node it returns is the active
    node of the material and is bound to the image, whatever the node
    list was. *)
Lemma add_binds_node mat img w n w1 :
  add_bake_image_node mat img w = (Ok n, w1) -> node_bound mat n img w1.
Proof.
  unfold add_bake_image_node. intros H.
  destruct (materials w !! mat) as [m|] eqn:Hm;
    [|unfold bind at 1, mat_get in H; rewrite Hm in H; discriminate].
  rewrite (bind_Ok _ _ _ _ _ (mat_get_run _ _ _ Hm)) in H.
  destruct (remove_nodes_run mat (List.filter is_stale_bake_node (nodes m)) w m Hm)
    as (wa & a & Hloop & Hma).
  rewrite (bind_Ok _ _ _ _ _ Hloop) in H.
  match type of Hma with
  | _ = Some (with_nodes ?l _ _) => set (kept := l) in *
  end.
  set (id := fresh_node_id kept).
  assert (Hfresh : forall u, In u kept -> has_id id u = false)
    by (intros u; apply fresh_not_used).
  destruct (nodes_new_run mat "ShaderNodeTexImage" wa _ Hma) as (w2 & Hrun2 & Hm2).
  norm_mat Hm2. cbn [nodes with_nodes] in Hrun2. fold id in Hrun2, Hm2.
  rewrite (bind_Ok _ _ _ _ _ Hrun2) in H.
  destruct (node_assign_name_run mat id bake_node_name w2 _ Hm2) as (w3 & Hrun3 & Hm3).
  norm_mat Hm3.
  erewrite (update_fresh id _ kept) in Hm3; [|exact Hfresh|apply Nat.eqb_refl].
  rewrite (bind_Ok _ _ _ _ _ Hrun3) in H.
  destruct (node_update_run mat id (set_node_label ("Bake Target (" +:+ img +:+ ")"))
              w3 _ Hm3) as (w4 & Hrun4 & Hm4).
  norm_mat Hm4.
  erewrite (update_fresh id _ kept) in Hm4; [|exact Hfresh|apply Nat.eqb_refl].
  rewrite (bind_Ok _ _ _ _ _ Hrun4) in H.
  destruct (node_update_run mat id (set_node_image (Some img)) w4 _ Hm4)
    as (w5 & Hrun5 & Hm5).
  norm_mat Hm5.
  erewrite (update_fresh id _ kept) in Hm5; [|exact Hfresh|apply Nat.eqb_refl].
  rewrite (bind_Ok _ _ _ _ _ Hrun5) in H.
  destruct (node_update_run mat id (set_node_select true) w5 _ Hm5)
    as (w6 & Hrun6 & Hm6).
  norm_mat Hm6.
  erewrite (update_fresh id _ kept) in Hm6; [|exact Hfresh|apply Nat.eqb_refl].
  rewrite (bind_Ok _ _ _ _ _ Hrun6) in H.
  destruct (mat_update_run mat (set_nodes_active (Some id)) w6 _ Hm6)
    as (w7 & Hrun7 & Hm7).
  rewrite (bind_Ok _ _ _ _ _ Hrun7) in H.
  norm_mat Hm7. injection H as <- <-.
  match type of Hm7 with
  | context [kept ++ [?x]] => set (nd := x) in *
  end.
  assert (Hnd : has_id id nd = true) by apply Nat.eqb_refl.
  eexists _, nd. split; [exact Hm7|]. split; [reflexivity|]. split; [|reflexivity].
  cbn [nodes]. clearbody nd. clear -Hfresh Hnd. clearbody id.
  induction kept as [|u kept IH]; simpl.
  - now rewrite Hnd.
  - rewrite (Hfresh u) by now left. apply IH. intros v Hv. apply Hfresh. now right.
Qed.

Lemma bake_writes_target_only ty : writes_target_only (bpy_ops_object_bake ty).
Proof.
  intros w. unfold bpy_ops_object_bake.
  destruct (render_service (host w) ty) as [msg|effect]; [now split|].
  destruct (bake_targets w) as [|t l] eqn:Ht; [now split|].
  split; [reflexivity|]. intros name Hn. simpl. now apply lookup_paint_ne.
Qed.

Lemma scene_bake_writes_target_only ty f :
  writes_target_only (bind (modify (set_scene f)) (fun _ => bpy_ops_object_bake ty)).
Proof.
  intros w. erewrite bind_Ok by reflexivity.
  apply (bake_writes_target_only ty (set_scene f w)).
Qed.

Lemma bound_target model mat o id img w name :
  active w = Some model -> objects w !! model = Some o ->
  material_slots o = [Some mat] -> node_bound mat id img w ->
  In name (bake_targets w) -> name = img.
Proof.
  intros Ha Ho Hom (m & nd & Hm & Hact & Hf & Hi). unfold bake_targets.
  rewrite Ha, Ho, Hom.
  change (omap (slot_target w) [Some mat])
    with (match slot_target w (Some mat) with Some x => [x] | None => [] end).
  unfold slot_target. simpl. rewrite Hm. simpl. rewrite Hact. simpl.
  rewrite Hf. simpl. rewrite Hi. simpl.
  destruct (images w !! img); simpl; [|tauto].
  intros [<-|[]]. reflexivity.
Qed.

Lemma add_keeps_round mat img :
  keeps (fun w => (inv_view w, images w)) (add_bake_image_node mat img).
Proof. unfold inv_view. keeps_auto. Qed.

(** The [try] block of a bake method from the insertion of the node on. *)
Lemma insert_and_bake_kept model mat nm (k : M unit) img :
  writes_target_only k -> In img (buffer_names nm) ->
  respects (others_kept model mat nm)
    (bind (add_bake_image_node mat img)
          (fun n => bind (assign_image_node (Some n)) (fun _ => k))).
Proof.
  intros Hk Himg w. pose proof (add_keeps_round mat img w) as K.
  destruct (add_bake_image_node mat img w) as [[n|e] w1] eqn:Hadd; simpl in K;
    [|rewrite (bind_Exc _ _ _ _ _ Hadd); now apply others_kept_view].
  rewrite (bind_Ok _ _ _ _ _ Hadd). intros Hinv.
  pose proof (f_equal fst K) as Kv. pose proof (f_equal snd K) as Ki. simpl in Kv, Ki.
  apply add_binds_node in Hadd.
  erewrite bind_Ok by reflexivity.
  match goal with
  | |- context [k ?x] => set (w2 := x) in *
  end.
  destruct (Hk w2) as [Hv Hother].
  assert (Hv2 : inv_view w2 = inv_view w) by (rewrite <- Kv; reflexivity).
  split.
  - apply (round_inv_view _ _ _ w); [|exact Hinv]. now rewrite Hv.
  - intros name Hn. rewrite Hother.
    + unfold w2. simpl. now rewrite Ki.
    + intros Ht. apply Hn.
      destruct Hinv as (Ha & (o & Ho & _ & Hom) & _).
      pose proof Hv2 as Hv2'. unfold inv_view in Hv2'. injection Hv2' as Ha2 Ho2 _ _.
      assert (Ha' : active w2 = Some model) by (unfold w2; simpl; congruence).
      assert (Ho' : objects w2 !! model = Some o) by (unfold w2; simpl; congruence).
      now rewrite (bound_target model mat o n img w2 name Ha' Ho' Hom Hadd Ht).
Qed.

Lemma methods_others_kept model mat nm props bake_method :
  In bake_method (map snd (map_types props)) ->
  forall img mt, In img (buffer_names nm) ->
    respects (others_kept model mat nm) (bake_method img mt mat).
Proof.
  revert bake_method.
  apply (four_methods
           (fun bm => forall img mt, In img (buffer_names nm) ->
              respects (others_kept model mat nm) (bm img mt mat)));
    intros img mt Himg.
  - (* Diffuse *)
    unfold bake_diffuse.
    respects_step; [kept_leaf|]. respects_step; [|kept_leaf].
    apply insert_and_bake_kept; [apply scene_bake_writes_target_only | exact Himg].
  - (* Roughness *)
    unfold bake_roughness.
    respects_step; [kept_leaf|]. respects_step; [|kept_leaf].
    respects_step.
    + apply (respects_only_touches _ _ _ img); [exact Himg | apply ensure_non_color_touches].
    + apply insert_and_bake_kept; [apply bake_writes_target_only | exact Himg].
  - (* Normal *)
    unfold bake_normal.
    respects_step; [kept_leaf|]. respects_step; [|kept_leaf].
    respects_step.
    { apply (respects_only_touches _ _ _ img); [exact Himg | apply ensure_non_color_touches]. }
    respects_step; [kept_leaf|].
    respects_step.
    { apply (respects_only_touches _ _ _ img); [exact Himg | touches_auto]. }
    apply insert_and_bake_kept; [apply scene_bake_writes_target_only | exact Himg].
  - (* AO *)
    unfold bake_ao.
    respects_step; [kept_leaf|]. respects_step; [|kept_leaf].
    respects_step.
    + apply (respects_only_touches _ _ _ img); [exact Himg | apply ensure_non_color_touches].
    + apply insert_and_bake_kept; [apply bake_writes_target_only | exact Himg].
Qed.

Lemma list_remove_subset x (l : list string) y : In y (list_remove x l) -> In y l.
Proof.
  induction l as [|z l IH]; simpl; [tauto|].
  destruct (String.eqb z x); [now right|]. intros [<-|H]; [now left | right; now apply IH].
Qed.

(** Lines 135-138: the current buffer is dropped. *)
Lemma drop_current_kept model mat nm img :
  In img (buffer_names nm) ->
  respects (others_kept model mat nm)
    (present ← in_images img;
     when present
          (images_remove img;;
           imgs ← read_local "baked_images" baked_images;
           when (existsb (String.eqb img) imgs)
                (assign_baked_images (list_remove img imgs)))).
Proof.
  intros Hb w. erewrite bind_Ok by reflexivity.
  destruct (images w !! img) as [i|]; cbn [when]; [|reflexivity].
  erewrite bind_Ok by reflexivity.
  intros Hinv. pose proof Hinv as (Ha & Hobj & Himg & (l & Hl & Hbuf)).
  unfold bind, read_local. cbn [frame images_remove modify snd set_images].
  rewrite Hl. destruct (existsb (String.eqb img) l); simpl.
  - split.
    + split_and!; [exact Ha | exact Hobj | exact Himg |].
      eexists. split; [reflexivity|]. intros x Hx. apply Hbuf.
      now apply list_remove_subset in Hx.
    + intros name Hn. apply lookup_delete_ne. intros <-. now apply Hn.
  - split; [exact Hinv|].
    intros name Hn. apply lookup_delete_ne. intros <-. now apply Hn.
Qed.

(** The handler of the loop's [try] (lines 132-140). *)
Lemma bake_failed_others_kept model mat nm map_type e :
  respects (others_kept model mat nm) (bake_failed map_type e).
Proof.
  intros w. unfold bake_failed. erewrite bind_Ok by reflexivity.
  erewrite bind_Ok by reflexivity. cbn [frame set_reports image].
  match goal with
  | |- others_kept _ _ _ _ (snd (_ ?x)) => set (w1 := x)
  end.
  transitivity w1; [now apply others_kept_view|].
  intros Hinv.
  refine (respects_bind (others_kept model mat nm) _ _ _ _ w1 Hinv).
  - destruct (image (frame w)) as [img|] eqn:Hcur.
    + apply drop_current_kept. destruct Hinv as (_ & _ & Himg & _). apply Himg.
      exact Hcur.
    + respects_step.
  - intros _. kept_leaf.
Qed.

Lemma buffer_of_type nm map_type :
  In map_type (fst <$> map_order) -> In (nm +:+ "_" +:+ map_type) (buffer_names nm).
Proof.
  intros [<-|[<-|[<-|[<-|[]]]]]; unfold buffer_names; simpl; tauto.
Qed.

(** One round of the loop. *)
Lemma bake_map_others_kept model mat nm props map_type (bake_method : BakeMethod) :
  In map_type (fst <$> map_order) ->
  (forall img mt, In img (buffer_names nm) ->
     respects (others_kept model mat nm) (bake_method img mt mat)) ->
  respects (others_kept model mat nm) (bake_map props model mat map_type bake_method).
Proof.
  intros Hmt Hbm w Hinv. pose proof Hinv as (Ha & (o & Ho & Hnm & Hom) & Himg & (l & Hl & Hbuf)).
  revert Hinv. change (others_kept model mat nm w
                         (snd (bake_map props model mat map_type bake_method w))).
  unfold bake_map. erewrite bind_Ok by reflexivity.
  match goal with
  | |- others_kept _ _ _ _ (snd (_ ?x)) => set (w0 := x)
  end.
  destruct (allocate_buffer_run props model map_type w0 o l Ho Hl)
    as (w1 & Hrun & Hi1 & Hcur1 & Hl1 & _ & _ & _ & Ho1 & _ & Ha1 & _).
  rewrite (try_except_bind_Ok _ _ _ _ _ _ Hrun).
  pose proof (buffer_of_type nm map_type Hmt) as Hb. rewrite <- Hnm in Hb at 1.
  assert (Hstep : others_kept model mat nm w w1).
  { intros _. split.
    - split_and!.
      + now rewrite Ha1.
      + exists o. rewrite Ho1. now split_and!.
      + intros x Hx. rewrite Hcur1 in Hx. now injection Hx as <-.
      + eexists. split; [exact Hl1|]. intros x Hx. apply in_app_or in Hx as [Hx|[<-|[]]].
        * now apply Hbuf.
        * exact Hb.
    - intros name Hn. rewrite Hi1. apply lookup_insert_ne. intros <-. now apply Hn. }
  etransitivity; [exact Hstep|].
  apply respects_try_except; [apply _ | | intros e; apply bake_failed_others_kept].
  respects_step; [now apply Hbm|].
  respects_step; [kept_leaf | respects_step].
Qed.

Lemma bake_loop_others_kept model mat nm props entries :
  (forall mt b (bm : BakeMethod), In (mt, b, bm) entries ->
     In mt (fst <$> map_order) /\ In bm (map snd (map_types props))) ->
  respects (others_kept model mat nm) (bake_loop props model mat entries).
Proof.
  induction entries as [|[[map_type should_bake] bake_method] entries IH]; intros H; simpl.
  - respects_step.
  - assert (Hrest : respects (others_kept model mat nm)
                      (bake_loop props model mat entries)).
    { apply IH. intros mt b bm Hin. apply (H mt b). now right. }
    destruct should_bake; simpl; [|exact Hrest].
    destruct (H map_type true bake_method) as [Hmt Hbm]; [now left|].
    apply respects_bind; [apply _ | | intros [|]; [exact Hrest | respects_step]].
    apply bake_map_others_kept; [exact Hmt|].
    intros img mt Himg. now apply (methods_others_kept model mat nm props).
Qed.

(** Lines 143-165. *)
Lemma save_phase_others_kept model mat nm :
  respects (others_kept model mat nm) save_phase.
Proof.
  intros w Hinv. pose proof Hinv as (_ & _ & _ & (l & Hl & Hbuf)).
  revert Hinv. change (others_kept model mat nm w (snd (save_phase w))).
  unfold save_phase.
  destruct (bake_successful (frame w)) as [ok|] eqn:Hok;
    [|rewrite (bind_Exc _ _ _ _ _ (read_local_None _ _ _ Hok)); reflexivity].
  rewrite (bind_Ok _ _ _ _ _ (read_local_Some _ _ _ _ Hok)).
  rewrite (bind_Ok _ _ _ _ _ (read_local_Some _ _ _ _ Hl)).
  apply respects_when; [apply _|].
  apply respects_for_each; [apply _|]. intros img Himg. cbv beta.
  apply (respects_only_touches _ _ _ img); [now apply Hbuf|].
  touches_auto.
Qed.

(** Lines 175-183. *)
Lemma cleanup_others_kept model mat nm :
  respects (others_kept model mat nm) cleanup_images.
Proof.
  intros w Hinv. pose proof Hinv as (_ & _ & _ & (l & Hl & Hbuf)).
  revert Hinv. change (others_kept model mat nm w (snd (cleanup_images w))).
  unfold cleanup_images.
  rewrite (bind_Ok _ _ _ _ _ (read_local_Some _ _ _ _ Hl)).
  apply respects_for_each; [apply _|]. intros img Himg. cbv beta.
  apply (respects_only_touches _ _ _ img); [now apply Hbuf|].
  touches_auto.
Qed.

Lemma same_names_lookup (l l' : list Object) k o o' :
  obj_name <$> l' = obj_name <$> l -> l !! k = Some o -> l' !! k = Some o' ->
  obj_name o' = obj_name o.
Proof.
  intros H Ho Ho'. apply (f_equal (fun x => x !! k)) in H.
  rewrite !list_lookup_fmap, Ho, Ho' in H. simpl in H. congruence.
Qed.

Lemma same_identity_slots w w' k o o' :
  object_identity w' = object_identity w ->
  objects w !! k = Some o -> objects w' !! k = Some o' ->
  material_slots o' = material_slots o.
Proof.
  intros H Ho Ho'. apply (f_equal (fun x => x !! k)) in H. unfold object_identity in H.
  rewrite !list_lookup_fmap, Ho, Ho' in H. simpl in H. congruence.
Qed.

Lemma slots_deselected (l : list Object) :
  material_slots <$> map (set_selected false) l = material_slots <$> l.
Proof.
  induction l as [|x l IH]; [reflexivity|].
  change (material_slots (set_selected false x)
            :: (material_slots <$> map (set_selected false) l)
          = material_slots x :: (material_slots <$> l)).
  now rewrite IH.
Qed.

Lemma modify_objects_keeps_slots (f : list Object -> list Object) :
  (forall l, material_slots <$> f l = material_slots <$> l) ->
  keeps (fun w => material_slots <$> objects w) (modify (set_objects f)).
Proof. intros Hf w. simpl. apply Hf. Qed.

Lemma setup_keeps_slots props model material :
  keeps (fun w => material_slots <$> objects w) (setup_phase props model material).
Proof.
  unfold setup_phase, select_all_deselect, select_set, obj_update.
  repeat first
    [ apply modify_objects_keeps_slots; intros l;
      first [ apply fmap_alter_same; reflexivity | apply slots_deselected ]
    | keeps_step
    | lazymatch goal with
      | |- keeps _ (modify (set_objects _)) => fail 1
      | _ => keeps_open
      end ].
Qed.

Lemma same_slots_lookup (l l' : list Object) k o o' :
  material_slots <$> l' = material_slots <$> l -> l !! k = Some o -> l' !! k = Some o' ->
  material_slots o' = material_slots o.
Proof.
  intros H Ho Ho'. apply (f_equal (fun x => x !! k)) in H.
  rewrite !list_lookup_fmap, Ho, Ho' in H. simpl in H. congruence.
Qed.

Lemma finally_images s w :
  images (snd (finally_block s w)) = images (snd (cleanup_images w)).
Proof.
  unfold finally_block.
  assert (K : keeps images (bind (restore_settings s) (fun _ => final_report)))
    by keeps_auto.
  destruct (cleanup_images w) as [[[]|e] w1] eqn:Hc.
  - rewrite (bind_Ok _ _ _ _ _ Hc). apply K.
  - now rewrite (bind_Exc _ _ _ _ _ Hc).
Qed.

Lemma execute_others_kept (w : World) (model slot : nat) (o : Object) (name : string) :
  active w = Some model -> objects w !! model = Some o ->
  material_slots o = [Some slot] ->
  ~ In name (buffer_names (obj_name o)) ->
  images (snd (execute w)) !! name = images w !! name.
Proof.
  intros Ha Ho Hslot Hname. rewrite execute_run. cbv zeta.
  set (w0 := set_frame (fun _ => empty_frame) w).
  pose proof (validate_keeps_images w0) as Ki.
  pose proof (validate_keeps_frame w0) as Kf.
  pose proof (validate_keeps_names w0) as Kn.
  pose proof (validate_keeps_identity w0) as Kid.
  assert (Kact : keeps active validateRequirements) by keeps_auto.
  specialize (Kact w0).
  destruct (validateRequirements w0) as [[[|v]|e] w1] eqn:Hv; simpl in Ki, Kf, Kn, Kid, Kact;
    try (simpl; now rewrite Ki).
  destruct (validate_finished_facts _ _ _ Hv) as (Ha1 & o1 & m1 & Ho1 & _ & _ & _ & Hom1 & _).
  assert (Hmodel : v_model v = model) by (unfold w0 in Kact; simpl in Kact; congruence).
  rewrite Hmodel in *.
  assert (Hnm1 : obj_name o1 = obj_name o)
    by (apply (same_names_lookup (objects w0) (objects w1) model); assumption).
  assert (Hslot1 : material_slots o1 = [Some slot]).
  { rewrite <- Hslot. apply (same_identity_slots w0 w1 model); assumption. }
  assert (Hmat : v_material v = slot).
  { unfold obj_active_material in Hom1. rewrite Hslot1 in Hom1.
    destruct (active_material_index o1); simpl in Hom1; congruence. }
  rewrite finally_images. unfold try_block.
  set (props := get_props w0). set (mat := v_material v) in *.
  pose proof (setup_keeps_slots props model mat w1) as Ss.
  pose proof (setup_keeps_images props model mat w1) as Si.
  pose proof (setup_keeps_pending props model mat w1) as Sp.
  pose proof (setup_keeps_names props model mat w1) as Sn.
  assert (Scur : keeps (fun w => image (frame w)) (setup_phase props model mat))
    by keeps_auto.
  specialize (Scur w1).
  destruct (setup_phase props model mat w1) as [[[]|e] w2] eqn:Hs; simpl in Si, Sp, Sn, Ss, Scur.
  - (* the setup phase went through *)
    rewrite (try_except_bind_Ok _ _ _ _ _ _ Hs).
    erewrite try_except_bind_Ok by reflexivity.
    erewrite try_except_bind_Ok by reflexivity.
    match goal with
    | |- context [try_except _ _ ?x] => set (w3 := x)
    end.
    destruct (setup_phase_post _ _ _ _ _ Hs)
      as (p & o2 & _ & _ & _ & _ & Ha2 & _ & _ & _ & Ho2 & Hom2).
    assert (Hnm2 : obj_name o2 = obj_name o).
    { rewrite <- Hnm1. apply (same_names_lookup (objects w1) (objects w2) model); assumption. }
    assert (Hslot2 : material_slots o2 = [Some mat]).
    { rewrite Hmat, <- Hslot1.
      apply (same_slots_lookup (objects w1) (objects w2) model); assumption. }
    assert (Hinv : round_inv model mat (obj_name o) w3).
    { unfold w3. split_and!.
      - exact Ha2.
      - exists o2. now split_and!.
      - simpl. rewrite Scur, Kf. discriminate.
      - exists []. split; [reflexivity|]. intros x []. }
    assert (Hbody : respects (others_kept model mat (obj_name o))
                      (try_except
                         (bind (bake_loop props model mat (map_types props))
                               (fun _ => save_phase))
                         (fun e => bind (report ERROR ("Error during bake setup: "
                                                        +:+ exn_message e))
                                        (fun _ => assign_bake_successful false)))).
    { apply respects_try_except; [apply _ | | intros e; kept_leaf].
      respects_step; [|apply save_phase_others_kept].
      apply bake_loop_others_kept. intros mt b bm Hin. split.
      - apply (in_map (fun e => fst (fst e))) in Hin. exact Hin.
      - apply (in_map snd) in Hin. exact Hin. }
    destruct (Hbody w3 Hinv) as [Hinv4 Hi4].
    destruct (cleanup_others_kept model mat (obj_name o) _ Hinv4) as [_ Hi5].
    rewrite Hi5, Hi4 by exact Hname. unfold w3. simpl. now rewrite Si, Ki.
  - (* the setup phase raised *)
    rewrite (try_except_bind_Exc _ _ _ _ _ _ Hs).
    erewrite bind_Ok by reflexivity.
    match goal with
    | |- context [cleanup_images ?x] => set (w3 := x)
    end.
    assert (Hnone : baked_images (frame w3) = None)
      by (unfold w3; simpl; now rewrite Sp, Kf).
    unfold cleanup_images.
    rewrite (bind_Exc _ _ _ _ _ (read_local_None _ _ _ Hnone)).
    unfold w3. simpl. now rewrite Si, Ki.
Qed.

(** X20: on a model with one material slot, [execute] touches no image but
    the four buffers of the model.
    Whatever the outcome, an image of the session whose name is not
    [<model>_Diffuse], [<model>_Roughness], [<model>_Normal] or
    [<model>_AO] is in the session afterwards exactly as it was before,
    and no image is created under another name. *)
Theorem execute_touches_only_buffers (w : World) (model material : nat) (o : Object)
    (name : string) :
  active w = Some model -> objects w !! model = Some o ->
  material_slots o = [Some material] ->
  ~ In name (buffer_name o <$> map_order) ->
  images (snd (execute w)) !! name = images w !! name.
Proof. intros Ha Ho Hs Hn. now apply (execute_others_kept w model material o). Qed.

Lemma poll_guards_validation_witness :
  (exists msg,
     validateRequirements (set_active None ex_world)
     = (Ok ReqCancelled,
        set_reports (fun r => r ++ [(ERROR, msg)]) (set_active None ex_world)) /\
     fst (execute (set_active None ex_world)) = Ok CANCELLED) /\
  poll ex_world = true.
Proof.
  split.
  - apply (proj1 (poll_guards_validation (set_active None ex_world))). reflexivity.
  - apply (proj2 (poll_guards_validation ex_world) ex_validated
             (snd (validateRequirements ex_world))).
    vm_compute. reflexivity.
Defined.

Lemma validation_result_sound_witness :
  active (snd (validateRequirements ex_world)) = Some 0%nat /\
  exists o m,
    objects (snd (validateRequirements ex_world)) !! 0%nat = Some o /\
    obj_type o = "MESH" /\
    (exists layer, In layer (uv_layers o) /\ active_render layer = true) /\
    is_Some (uv_active o) /\
    obj_active_material o = Some 0%nat /\
    materials (snd (validateRequirements ex_world)) !! 0%nat = Some m /\
    use_nodes m = true /\
    In ex_principled (nodes m) /\
    node_type ex_principled = "BSDF_PRINCIPLED".
Proof.
  apply (validation_result_sound ex_world (snd (validateRequirements ex_world))
           ex_validated).
  vm_compute. reflexivity.
Defined.

Lemma setup_phase_establishes_witness :
  exists p o,
    get_props ex_world = RegisteredProps p /\
    engine (scene (ex_set_up ex_world)) = "CYCLES" /\
    samples (scene (ex_set_up ex_world)) = 32%Z /\
    use_selected_to_active (scene (ex_set_up ex_world)) = false /\
    active (ex_set_up ex_world) = Some 0%nat /\
    selected_objects (ex_set_up ex_world) = [0%nat] /\
    output_path (frame (ex_set_up ex_world))
    = Some (resolved_output_path (host (ex_checked ex_world)) p) /\
    existsb (String.eqb (resolved_output_path (host (ex_checked ex_world)) p))
            (fs_dirs (ex_set_up ex_world)) = true /\
    objects (ex_set_up ex_world) !! 0%nat = Some o /\
    obj_active_material o = Some 0%nat.
Proof.
  apply (setup_phase_establishes (get_props ex_world) 0 0 (ex_checked ex_world)
           (ex_set_up ex_world)).
  vm_compute. reflexivity.
Defined.

Lemma setup_error_escapes_witness :
  exists w',
    execute ex_readonly_world = (Exc (UnboundLocalError "baked_images"), w') /\
    reports w'
    = reports (ex_set_up ex_readonly_world)
      ++ [(ERROR, "Error during bake setup: "
                  +:+ exn_message (OSError "[Errno 13] Permission denied"))] /\
    scene w' = scene (ex_set_up ex_readonly_world) /\
    objects w' = objects (ex_set_up ex_readonly_world) /\
    active w' = active (ex_set_up ex_readonly_world) /\
    images w' = images ex_readonly_world /\
    fs_files w' = fs_files ex_readonly_world /\
    bake_log w' = bake_log ex_readonly_world.
Proof.
  apply (setup_error_escapes ex_readonly_world ex_validated (ex_checked ex_readonly_world)
           (ex_set_up ex_readonly_world) (OSError "[Errno 13] Permission denied")).
  - vm_compute. reflexivity.
  - vm_compute. reflexivity.
Defined.

Lemma unregistered_props_never_finish_witness :
  (forall w', execute ex_unregistered_world <> (Ok FINISHED, w')) /\
  fst (execute ex_unregistered_world) = Exc (UnboundLocalError "baked_images").
Proof.
  destruct (unregistered_props_never_finish ex_unregistered_world eq_refl) as [Hnever Hraise].
  split; [exact Hnever|].
  apply (Hraise ex_validated (ex_checked ex_unregistered_world)).
  vm_compute. reflexivity.
Defined.

Lemma material_slot_checks_pass_witness :
  fst (setup_phase (get_props ex_world) 0 0 ex_world)
  <> Exc (RuntimeError "Failed to set active material.") /\
  fst (setup_phase (get_props ex_world) 0 0 (snd (validateRequirements ex_world)))
  <> Exc (RuntimeError ("Material '" +:+ "Material" +:+ "' missing from object.")) /\
  reports (snd (setup_phase (get_props ex_world) 0 0 (snd (validateRequirements ex_world))))
  = reports (snd (validateRequirements ex_world)).
Proof.
  destruct (material_slot_checks_pass (get_props ex_world)) as [Hsecond Hboth].
  split; [apply Hsecond|].
  destruct (Hboth ex_world ex_validated (snd (validateRequirements ex_world)))
    as (Hfirst & _ & Hreports); [vm_compute; reflexivity|].
  split; [apply Hfirst | exact Hreports].
Defined.

Lemma buffer_replaces_stale_image_witness :
  exists w1 buffer,
    allocate_buffer (get_props ex_world) 0 "Diffuse" (ex_loop_world ex_world)
    = (Ok ("Cube" +:+ "_" +:+ "Diffuse"), w1) /\
    images w1 !! ("Cube" +:+ "_" +:+ "Diffuse") = Some buffer /\
    buffer_settings buffer
    = buffer_settings (table_buffer "Diffuse" (props_texture_size (get_props ex_world))) /\
    (forall other, other <> "Cube" +:+ "_" +:+ "Diffuse" ->
                   images w1 !! other = images (ex_loop_world ex_world) !! other) /\
    baked_images (frame w1) = Some ([] ++ ["Cube" +:+ "_" +:+ "Diffuse"]) /\
    image (frame w1) = Some ("Cube" +:+ "_" +:+ "Diffuse").
Proof.
  apply (buffer_replaces_stale_image (get_props ex_world) 0 "Diffuse"
           (ex_loop_world ex_world) ex_ready_cube []).
  - vm_compute. reflexivity.
  - vm_compute. reflexivity.
  - vm_compute. lia.
Defined.

Lemma status_matches_last_report_witness :
  exists msg, last (reports (snd (execute ex_world))) = Some (INFO, msg).
Proof.
  apply (status_matches_last_report ex_world (snd (execute ex_world)) FINISHED).
  vm_compute. reflexivity.
Defined.

Lemma nothing_requested_still_finishes_witness :
  exists w',
    execute ex_idle_world = (Ok FINISHED, w') /\
    bake_log w' = bake_log ex_idle_world /\ fs_files w' = fs_files ex_idle_world /\
    images w' = images ex_idle_world /\ materials w' = materials ex_idle_world /\
    last (reports w')
    = Some (INFO, "Baking process finished. Maps saved to: "
                  +:+ resolved_output_path (host ex_idle_world) ex_idle_props) /\
    existsb (String.eqb (resolved_output_path (host ex_idle_world) ex_idle_props))
            (fs_dirs w') = true.
Proof.
  apply (nothing_requested_still_finishes ex_idle_world ex_idle_props);
    try reflexivity.
  exists ex_validated, (ex_checked ex_idle_world), (ex_set_up ex_idle_world).
  split; vm_compute; reflexivity.
Defined.


Lemma saved_images_leave_session_witness :
  sf_image (nth 0 (written_by_run ex_world) ex_no_file) = "Cube_Diffuse" /\
  images (snd (execute ex_world))
  !! sf_image (nth 0 (written_by_run ex_world) ex_no_file) = None.
Proof.
  split; [vm_compute; reflexivity|].
  apply (saved_images_leave_session ex_world (snd (execute ex_world)) FINISHED).
  - vm_compute. reflexivity.
  - vm_compute. tauto.
Defined.

Lemma ex_material_ids : NoDup (node_id <$> nodes ex_material).
Proof. apply (bool_decide_unpack _). vm_compute. reflexivity. Qed.

Lemma ex_material_reserved : name_reserved (nodes ex_material).
Proof. intros n [<-|[<-|[]]]; discriminate. Qed.

Lemma add_bake_image_node_inserts_one_witness :
  exists id w1 m1,
    add_bake_image_node 0 "Cube_Diffuse" ex_world = (Ok id, w1) /\
    materials w1 !! 0%nat = Some m1 /\
    nodes m1 = kept_nodes (nodes ex_material) ++ [bake_target_node id "Cube_Diffuse"] /\
    nodes_active m1 = Some id /\
    (forall n, In n (kept_nodes (nodes ex_material)) -> node_id n <> id) /\
    List.filter (fun n => String.eqb (node_name n) bake_node_name) (nodes m1)
    = [bake_target_node id "Cube_Diffuse"].
Proof.
  apply (add_bake_image_node_inserts_one 0 "Cube_Diffuse" ex_world ex_material).
  - reflexivity.
  - exact ex_material_ids.
  - exact ex_material_reserved.
Defined.

Lemma bake_methods_release_node_witness :
  exists m',
    materials (snd (bake_diffuse "Cube_Diffuse" "Diffuse" 0 ex_round_world)) !! 0%nat
    = Some m' /\
    nodes m' = kept_nodes (nodes ex_material) /\ nodes_active m' = None /\
    name_taken (nodes m') bake_node_name = false.
Proof.
  apply (bake_methods_release_node (get_props ex_world) bake_diffuse "Cube_Diffuse"
           "Diffuse" 0 ex_round_world ex_material).
  - simpl. tauto.
  - vm_compute. reflexivity.
  - exact ex_material_ids.
  - exact ex_material_reserved.
  - eexists. vm_compute. reflexivity.
Defined.

Lemma finished_run_is_complete_witness :
  exists p,
    autobake_props ex_world = Some p /\
    bake_log (snd (execute ex_world))
    = bake_log ex_world ++ (snd <$> requested (RegisteredProps p)) /\
    sf_image <$> written_by_run ex_world
    = buffer_name ex_cube <$> requested (RegisteredProps p) /\
    Forall (fun f => sf_format f = "PNG" /\
                     sf_path f = os_path_join (resolved_output_path (host ex_world) p)
                                              (sf_image f +:+ ".png") /\
                     (String.length (sf_image f) <= max_name_length)%nat)
           (written_by_run ex_world).
Proof.
  apply (finished_run_is_complete ex_world (snd (execute ex_world)) 0 ex_cube).
  - vm_compute. reflexivity.
  - reflexivity.
  - reflexivity.
  - simpl. lia.
Defined.



Lemma execute_touches_only_buffers_witness :
  fst (execute ex_logo_world) = Ok FINISHED /\
  images (snd (execute ex_logo_world)) !! "Logo" = Some (new_image 64 64 true).
Proof.
  split; [vm_compute; reflexivity|].
  rewrite (execute_touches_only_buffers ex_logo_world 0 0 ex_cube "Logo").
  - reflexivity.
  - reflexivity.
  - reflexivity.
  - reflexivity.
  - simpl. intros [H|[H|[H|[H|[]]]]]; discriminate.
Defined.
